(** * astra-db-ts: transport and codec layer

    A shallow embedding of
    - [src/api/http-client.ts]  ([serializeCommand], [handleValues]),
    - [src/api/http2.ts]        ([HTTP2Strategy]),
    - [src/devops/errors.ts]    ([DevOpsAPIResponseError], [extractErrorDescriptors]),
    - [src/devops/astra-db-admin.ts] and the [AstraAdmin] class
      ([listNamespaces], [createNamespace], [createDatabase], [dropDatabase]),
    followed by the properties of the specification that concern them. *)

From Stdlib Require Import ZArith List String Ascii Bool Lia DecimalString.
From Stdlib Require Import DecimalFacts DecimalPos.
From Stdlib Require Import Floats.SpecFloat.
Import ListNotations.

Set Warnings "-register-all".
Local Open Scope string_scope.
Local Open Scope Z_scope.

(** ** JavaScript values *)

(** A JavaScript number is an IEEE-754 binary64 value. *)
Definition number := spec_float.
Definition prec : Z := 53.
Definition emax : Z := 1024.

Definition NaN : number := S754_nan.
Definition pos_zero : number := S754_zero false.

(** [Number(z)] for a bigint [z]: the double nearest to [z], ties to even;
    magnitudes of 2^1024 and more give an infinity. *)
Definition Number_of_bigint (z : Z) : number := binary_normalize prec emax z 0 false.

(** The exact integer a number stands for, when it is a finite integer. *)
Definition number_to_Z (n : number) : option Z :=
  match n with
  | S754_zero _ => Some 0
  | S754_finite s m e =>
      let a := if 0 <=? e then Some (Zpos m * 2 ^ e)
               else if (Zpos m mod 2 ^ (- e)) =? 0 then Some (Zpos m / 2 ^ (- e))
               else None in
      option_map (fun v => if s then - v else v) a
  | _ => None
  end.

Definition is_finite (n : number) : bool :=
  match n with
  | S754_zero _ | S754_finite _ _ _ => true
  | _ => false
  end.

(** [BigInt.asIntN(bits, z)]: [z] wrapped to a signed integer of [bits]
    bits. *)
Definition BigInt_asIntN (bits : Z) (z : Z) : Z :=
  let m := z mod 2 ^ bits in
  if m <? 2 ^ (bits - 1) then m else m - 2 ^ bits.

(** [z.toString()] for a bigint [z]. *)
Definition BigInt_toString (z : Z) : string :=
  (if z <? 0 then "-" else "") ++ NilZero.string_of_uint (N.to_uint (Z.abs_N z)).

(** The values a command document is made of: JSON data, [undefined] and
    bigints.  An object lists its own enumerable properties in enumeration
    order. *)
Inductive value : Type :=
| VUndefined
| VNull
| VBool (b : bool)
| VNumber (n : number)
| VBigInt (z : Z)
| VString (s : string)
| VArray (elems : list value)
| VObject (props : list (string * value)).

(** What a JavaScript computation can throw. *)
Inductive exn : Type :=
| TypeError (message : string)
| Error (message : string)
| DataAPITimeout (body : value) (timeout : Z)
| StreamError (message : string).

Inductive result (A : Type) : Type :=
| Ok (a : A)
| Throw (e : exn).
Arguments Ok {A} a.
Arguments Throw {A} e.

Definition bind {A B} (r : result A) (k : A -> result B) : result B :=
  match r with
  | Ok a => k a
  | Throw e => Throw e
  end.

Notation "x <- r ;; k" := (bind r (fun x => k))
  (at level 61, r at next level, right associativity).

(** The results of [f] on the members of a list, in order, up to the first
    that throws. *)
Definition traverse {A B : Type} (f : A -> result B) : list A -> result (list B) :=
  fix go (l : list A) : result (list B) :=
    match l with
    | [] => Ok []
    | a :: rest =>
        b <- f a ;;
        rest' <- go rest ;;
        Ok (b :: rest')
    end.

(** [ToBoolean]. *)
Definition truthy (v : value) : bool :=
  match v with
  | VUndefined | VNull => false
  | VBool b => b
  | VNumber (S754_zero _) | VNumber S754_nan => false
  | VNumber _ => true
  | VBigInt z => negb (z =? 0)
  | VString s => negb (String.eqb s "")
  | VArray _ | VObject _ => true
  end.

Inductive jstype := TUndefined | TObject | TBoolean | TNumber | TBigInt | TString.

Definition typeof (v : value) : jstype :=
  match v with
  | VUndefined => TUndefined
  | VNull | VArray _ | VObject _ => TObject
  | VBool _ => TBoolean
  | VNumber _ => TNumber
  | VBigInt _ => TBigInt
  | VString _ => TString
  end.

Definition jstype_eqb (a b : jstype) : bool :=
  match a, b with
  | TUndefined, TUndefined | TObject, TObject | TBoolean, TBoolean
  | TNumber, TNumber | TBigInt, TBigInt | TString, TString => true
  | _, _ => false
  end.

Fixpoint lookup (k : string) (props : list (string * value)) : option value :=
  match props with
  | [] => None
  | (k', v) :: rest => if String.eqb k k' then Some v else lookup k rest
  end.

(** [update k v props]: the assignment [o.k = v] on an object that has [k]:
    the property keeps its place. *)
Fixpoint update (k : string) (v : value) (props : list (string * value))
  : list (string * value) :=
  match props with
  | [] => [(k, v)]
  | (k', v') :: rest =>
      if String.eqb k k' then (k, v) :: rest else (k', v') :: update k v rest
  end.

(** [o.k] where [o] is not null or undefined and [k] is one of the keys this
    code reads ([$oid], [$binary], [message], [ID] and the like): an object
    answers with its own property, anything else (an array, a boxed
    primitive) has no property of these names. *)
Definition get (o : value) (k : string) : value :=
  match o with
  | VObject props =>
      match lookup k props with
      | Some v => v
      | None => VUndefined
      end
  | _ => VUndefined
  end.

(** [o?.k]. *)
Definition get_opt (o : value) (k : string) : value :=
  match o with
  | VUndefined | VNull => VUndefined
  | _ => get o k
  end.

(** [v === "s"]. *)
Definition strict_eq_string (v : value) (s : string) : bool :=
  match v with
  | VString s' => String.eqb s' s
  | _ => false
  end.

(** ** Buffers: base64 in, hexadecimal out *)

Definition byte := N.

Definition in_range (lo hi c : ascii) : bool :=
  (N.leb (N_of_ascii lo) (N_of_ascii c) && N.leb (N_of_ascii c) (N_of_ascii hi))%bool.

(** The value of a base64 digit; Node reads the URL-safe alphabet as well. *)
Definition unbase64 (c : ascii) : option N :=
  let n := N_of_ascii c in
  if in_range "A" "Z" c then Some (n - 65)%N
  else if in_range "a" "z" c then Some (n - 97 + 26)%N
  else if in_range "0" "9" c then Some (n - 48 + 52)%N
  else if (Ascii.eqb c "+" || Ascii.eqb c "-")%bool then Some 62%N
  else if (Ascii.eqb c "/" || Ascii.eqb c "_")%bool then Some 63%N
  else None.

(** The digits Node decodes: characters outside the alphabet are skipped and
    the first [=] ends the input. *)
Fixpoint base64_digits (s : string) : list N :=
  match s with
  | EmptyString => []
  | String c rest =>
      if Ascii.eqb c "=" then []
      else match unbase64 c with
           | Some d => d :: base64_digits rest
           | None => base64_digits rest
           end
  end.

(** Four digits give three bytes; a last group of three digits gives two
    bytes, of two digits one byte, and a single digit none. *)
Fixpoint base64_bytes (ds : list N) : list byte :=
  match ds with
  | a :: b :: c :: d :: rest =>
      (a * 4 + b / 16)%N :: ((b mod 16) * 16 + c / 4)%N :: ((c mod 4) * 64 + d)%N
        :: base64_bytes rest
  | [a; b; c] => [(a * 4 + b / 16)%N; ((b mod 16) * 16 + c / 4)%N]
  | [a; b] => [(a * 4 + b / 16)%N]
  | _ => []
  end.

(** [Buffer.from(s, "base64")] for a string [s]. *)
Definition Buffer_from_base64 (s : string) : list byte :=
  base64_bytes (base64_digits s).

Definition hex_digit (n : N) : ascii :=
  if (n <? 10)%N then ascii_of_N (48 + n) else ascii_of_N (87 + n).

(** [buf.toString("hex")]: two lowercase digits a byte. *)
Fixpoint Buffer_toString_hex (bs : list byte) : string :=
  match bs with
  | [] => ""
  | b :: rest =>
      String (hex_digit (b / 16)) (String (hex_digit (b mod 16)) (Buffer_toString_hex rest))
  end.

Fixpoint take (n : nat) (s : string) : string :=
  match n, s with
  | S n', String c rest => String c (take n' rest)
  | _, _ => ""
  end.

Fixpoint drop (n : nat) (s : string) : string :=
  match n, s with
  | S n', String _ rest => drop n' rest
  | _, _ => s
  end.

(** [h.replace(/(.{8})(.{4})(.{4})(.{4})(.{12})/, "$1-$2-$3-$4-$5")] on a
    hexadecimal string [h] (it has no line terminator, so [.] matches each of
    its characters): the pattern matches the first 32 characters, if there
    are that many, and what follows them stays. *)
Definition uuid_replace (h : string) : string :=
  if Nat.leb 32 (String.length h) then
    take 8 h ++ "-" ++ take 4 (drop 8 h) ++ "-" ++ take 4 (drop 12 h) ++ "-"
      ++ take 4 (drop 16 h) ++ "-" ++ take 12 (drop 20 h) ++ drop 32 h
  else h.

(** ** The platform

    What the code calls and neither this repository nor a short definition
    settles: the date parser, the string and number conversions of the
    language, the JSON reader, the URL parser.  The development is
    parametric in them. *)
Class Platform : Type := {
  (** [new Date(x).valueOf()] *)
  Date_valueOf : value -> result number;
  (** [Number(s)] for a string [s] *)
  StringToNumber : string -> number;
  (** [ToPrimitive(o)] for an array or object [o], as [Number(o)] applies it *)
  ToPrimitive : value -> result value;
  (** [Buffer.from(o, "base64")] for an array or object [o] *)
  Buffer_from_object : value -> result (list byte);
  (** [Number::toString] of a finite number *)
  Number_toString : number -> string;
  (** [JSON.parse(text)]; [None] stands for its [SyntaxError] *)
  JSON_parse : string -> option value;
  (** [new URL(u).origin] *)
  URL_origin : string -> result string;
  (** [new URLSearchParams(params).toString()] *)
  URLSearchParams_toString : list (string * string) -> string
}.

Section Codec.
Context {P : Platform}.

Definition Number_of_primitive (v : value) : result number :=
  match v with
  | VUndefined => Ok NaN
  | VNull => Ok pos_zero
  | VBool b => Ok (if b then Number_of_bigint 1 else pos_zero)
  | VNumber n => Ok n
  | VBigInt z => Ok (Number_of_bigint z)
  | VString s => Ok (StringToNumber s)
  | VArray _ | VObject _ => Throw (TypeError "Cannot convert object to primitive value")
  end.

(** [Number(v)]. *)
Definition Number (v : value) : result number :=
  match v with
  | VArray _ | VObject _ => p <- ToPrimitive v ;; Number_of_primitive p
  | _ => Number_of_primitive v
  end.

(** [Buffer.from(v, "base64")]. *)
Definition Buffer_from (v : value) : result (list byte) :=
  match v with
  | VString s => Ok (Buffer_from_base64 s)
  | VArray _ | VObject _ => Buffer_from_object v
  | _ => Throw (TypeError "The first argument must be of type string or an instance of Buffer, ArrayBuffer, or Array or an Array-like Object")
  end.

(** [value.$date = d]. *)
Definition set (o : value) (k : string) (v : value) : value :=
  match o with
  | VObject props => VObject (update k v props)
  | _ => o
  end.

(** [handleValues] of [src/api/http-client.ts], the replacer that
    [serializeCommand] hands to the serializer. *)
Definition handleValues (v : value) : result value :=
  if (truthy v && jstype_eqb (typeof v) TBigInt)%bool then
    n <- Number v ;; Ok (VNumber n)
  else if (truthy v && jstype_eqb (typeof v) TObject)%bool then
    if truthy (get v "$oid") then
      Ok (get v "$oid")
    else if truthy (get v "$numberDecimal") then
      n <- Number (get v "$numberDecimal") ;; Ok (VNumber n)
    else if (strict_eq_string (get_opt (get v "$binary") "subType") "03"
             || strict_eq_string (get_opt (get v "$binary") "subType") "04")%bool then
      buf <- Buffer_from (get (get v "$binary") "base64") ;;
      Ok (VString (uuid_replace (Buffer_toString_hex buf)))
    else if truthy (get v "$date") then
      d <- Date_valueOf (get v "$date") ;;
      Ok (set v "$date" (VNumber d))
    else Ok v
  else Ok v.

(** *** [JSON.stringify(doc, replacer, gap)] *)

Definition hex4 (n : N) : string :=
  String (hex_digit (n / 4096)) (String (hex_digit ((n / 256) mod 16))
    (String (hex_digit ((n / 16) mod 16)) (String (hex_digit (n mod 16)) ""))).

Definition backslash : ascii := ascii_of_N 92.
Definition dquote : ascii := ascii_of_N 34.

Definition escape_char (c : ascii) : string :=
  let n := N_of_ascii c in
  if (n =? 8)%N then String backslash "b"
  else if (n =? 9)%N then String backslash "t"
  else if (n =? 10)%N then String backslash "n"
  else if (n =? 12)%N then String backslash "f"
  else if (n =? 13)%N then String backslash "r"
  else if (n =? 34)%N then String backslash (String dquote "")
  else if (n =? 92)%N then String backslash (String backslash "")
  else if (n <? 32)%N then String backslash ("u" ++ hex4 n)
  else String c "".

Fixpoint escape_string (s : string) : string :=
  match s with
  | EmptyString => ""
  | String c rest => escape_char c ++ escape_string rest
  end.

Definition QuoteJSONString (s : string) : string :=
  String dquote (escape_string s) ++ String dquote "".

Definition nl : string := String (ascii_of_N 10) "".

(** The text of an array or object from the texts of its members. *)
Definition wrap (gap opening closing stepback : string) (partial : list string) : string :=
  match partial with
  | [] => opening ++ closing
  | _ =>
      if String.eqb gap "" then opening ++ String.concat "," partial ++ closing
      else opening ++ nl ++ (stepback ++ gap)
             ++ String.concat ("," ++ nl ++ (stepback ++ gap)) partial
             ++ nl ++ stepback ++ closing
  end.

Section Walk.
Variable replacer : value -> result value.
Variable gap : string.

(** The elements of an array, in order; [undefined] reads [null]. *)
Fixpoint SerializeJSONArray (f : value -> option (result (option string)))
         (elems : list value) : option (result (list string)) :=
  match elems with
  | [] => Some (Ok [])
  | e :: rest =>
      match f e with
      | None => None
      | Some (Throw x) => Some (Throw x)
      | Some (Ok strP) =>
          match SerializeJSONArray f rest with
          | None => None
          | Some (Throw x) => Some (Throw x)
          | Some (Ok partial) =>
              Some (Ok (match strP with Some t => t | None => "null" end :: partial))
          end
      end
  end.

(** The properties of an object, in order; one whose value is
    [undefined] is left out. *)
Fixpoint SerializeJSONObject (f : value -> option (result (option string)))
         (props : list (string * value)) : option (result (list string)) :=
  match props with
  | [] => Some (Ok [])
  | (k, e) :: rest =>
      match f e with
      | None => None
      | Some (Throw x) => Some (Throw x)
      | Some (Ok strP) =>
          match SerializeJSONObject f rest with
          | None => None
          | Some (Throw x) => Some (Throw x)
          | Some (Ok partial) =>
              Some (Ok (match strP with
                        | Some t =>
                            (QuoteJSONString k ++ ":"
                               ++ (if String.eqb gap "" then "" else " ") ++ t) :: partial
                        | None => partial
                        end))
          end
      end
  end.

(** [SerializeJSONProperty]: the replacer sees the value first, and is
    then applied to each member of what it returned (the values of the
    document have no [toJSON]).  [None] is a walk that ran out of [fuel];
    [Ok None] is the result [undefined]. *)
Fixpoint SerializeJSONProperty (fuel : nat) (indent : string) (v0 : value)
  : option (result (option string)) :=
  match fuel with
  | O => None
  | S fuel' =>
      match replacer v0 with
      | Throw x => Some (Throw x)
      | Ok v =>
          match v with
          | VUndefined => Some (Ok None)
          | VNull => Some (Ok (Some "null"))
          | VBool b => Some (Ok (Some (if b then "true" else "false")))
          | VString s => Some (Ok (Some (QuoteJSONString s)))
          | VNumber n =>
              Some (Ok (Some (if is_finite n then Number_toString n else "null")))
          | VBigInt _ => Some (Throw (TypeError "Do not know how to serialize a BigInt"))
          | VArray elems =>
              match SerializeJSONArray (SerializeJSONProperty fuel' (indent ++ gap)) elems with
              | None => None
              | Some (Throw x) => Some (Throw x)
              | Some (Ok partial) => Some (Ok (Some (wrap gap "[" "]" indent partial)))
              end
          | VObject props =>
              match SerializeJSONObject (SerializeJSONProperty fuel' (indent ++ gap)) props with
              | None => None
              | Some (Throw x) => Some (Throw x)
              | Some (Ok partial) => Some (Ok (Some (wrap gap "{" "}" indent partial)))
              end
          end
      end
  end.

Definition JSON_stringify (fuel : nat) (doc : value) : option (result (option string)) :=
  SerializeJSONProperty fuel "" doc.
End Walk.

(** *** [EJSON.stringify(data, replacer, space)]

    [EJSON.stringify] of the [bson] library first makes a document of
    relaxed extended JSON of [data] ([serializeValue]), and then calls
    [JSON.stringify] on that document with the replacer and the
    indentation.  On the values of this development (the instances of the
    types of [bson] are written in their extended form: an identifier is
    [{$oid: hex}], a decimal is [{$numberDecimal: text}], binary data is
    [{$binary: {base64, subType}}], a date is [{$date: text}]) the first
    pass turns [undefined] into [null], a number that is not finite into
    [{$numberDouble: text}], a bigint into the number of its 64 low bits,
    and refuses an object with a property [_bsontype]. *)
Fixpoint EJSON_serializeValue (v : value) : result value :=
  match v with
  | VUndefined => Ok VNull
  | VNumber n =>
      if is_finite n then Ok v
      else Ok (VObject [("$numberDouble", VString (Number_toString n))])
  | VBigInt z => Ok (VNumber (Number_of_bigint (BigInt_asIntN 64 z)))
  | VArray elems =>
      l <- traverse EJSON_serializeValue elems ;;
      Ok (VArray l)
  | VObject props =>
      match typeof (get v "_bsontype") with
      | TUndefined =>
          l <- traverse (fun kv => let '(k, e) := kv in
                                   e' <- EJSON_serializeValue e ;; Ok (k, e')) props ;;
          Ok (VObject l)
      | TString => Throw (Error "Unsupported BSON version, bson types must be from bson 6.x.x")
      | _ => Throw (Error "_bsontype must be a string")
      end
  | _ => Ok v
  end.

(** [serializeCommand] of [src/api/http-client.ts]:
    [EJSON.stringify(data, (_, value) => handleValues(value), pretty ? "  " : "")].
    The walk is given one step more than [fuel], for the tag that the first
    pass puts on a number that is not finite. *)
Definition serializeCommand (fuel : nat) (data : value) (pretty : bool)
  : option (result (option string)) :=
  match EJSON_serializeValue data with
  | Throw e => Some (Throw e)
  | Ok doc => JSON_stringify handleValues (if pretty then "  " else "") (S fuel) doc
  end.

(** *** [ToString]

    [ToString(v)] on data: an array reads as its elements joined by commas,
    [null] and [undefined] among them as the empty text; an object without
    a [toString] of its own reads [[object Object]]. *)
Fixpoint ToString (v : value) : string :=
  match v with
  | VUndefined => "undefined"
  | VNull => "null"
  | VBool b => if b then "true" else "false"
  | VNumber n => Number_toString n
  | VBigInt z => BigInt_toString z
  | VString s => s
  | VArray elems =>
      String.concat ","
        (map (fun e => match e with
                       | VUndefined | VNull => ""
                       | _ => ToString e
                       end) elems)
  | VObject _ => "[object Object]"
  end.
End Codec.

(** ** The HTTP/2 strategy ([src/api/http2.ts]) *)

Module Http2.

(** [InternalHTTPRequestInfo]; an absent [data] is [undefined], an absent
    [params] is [None]. *)
Record InternalHTTPRequestInfo : Type := {
  url : string;
  data : value;
  timeout : Z;
  method : string;
  params : option (list (string * string));
  token : string;
  userAgent : string;
  serializer : value -> result string
}.

(** What [resolve({ status, data })] hands over. *)
Record InternalAPIResponse : Type := {
  resp_status : Z;
  resp_data : value
}.

(** A promise settles once: [resolve] and [reject] do nothing to a settled
    promise. *)
Inductive promise : Type :=
  | Pending
  | Fulfilled (r : InternalAPIResponse)
  | Rejected (e : exn).

Definition resolve (r : InternalAPIResponse) (p : promise) : promise :=
  match p with
  | Pending => Fulfilled r
  | _ => p
  end.

Definition reject (e : exn) (p : promise) : promise :=
  match p with
  | Pending => Rejected e
  | _ => p
  end.

(** The timer of [setTimeout]. *)
Inductive timer_state := NoTimer | Armed | Cleared | Fired.

Definition clearTimeout (t : timer_state) : timer_state :=
  match t with
  | Armed => Cleared
  | _ => t
  end.

(** An [http2.ClientHttp2Session], as far as this code looks at it. *)
Record ClientHttp2Session : Type := {
  session_origin : string;
  session_closed : bool;
  session_handlers : list string
}.

Record Http2Headers : Type := {
  h_path : string;
  h_method : string;
  h_token : string;
  h_user_agent : string
}.

(** The stream [req] that [session.request] returns. *)
Record ClientHttp2Stream : Type := {
  stream_session : nat;
  stream_headers : Http2Headers;
  stream_written : option string;
  stream_ended : bool;
  stream_encoding : option string;
  stream_listeners : list string
}.

(** What one call of [request] holds: its promise, and the variables its
    listeners close over. *)
Record Exchange : Type := {
  ex_info : InternalHTTPRequestInfo;
  ex_promise : promise;
  ex_timer : timer_state;
  ex_stream : option ClientHttp2Stream;
  ex_status : Z;
  ex_responseBody : string
}.

(** The strategy object; [session] refers to a session of the heap. *)
Record HTTP2Strategy : Type := {
  origin : string;
  closed : bool;
  session : nat
}.

(** The sessions opened so far; a session is a shared object that the peer
    can close. *)
Definition heap := list ClientHttp2Session.

Definition is_closed (h : heap) (s : nat) : bool :=
  match nth_error h s with
  | Some x => session_closed x
  | None => true
  end.

(** [http2.connect(origin)] throws at once unless the protocol of the
    origin is [http:] or [https:]: an origin of another scheme is an
    unsupported protocol, the opaque origin [null] is not a URL. *)
Definition connectable (o : string) : bool :=
  (String.prefix "http://" o || String.prefix "https://" o)%bool.

Fixpoint scheme (o : string) : string :=
  match o with
  | String c rest => if Ascii.eqb c ":" then ":" else String c (scheme rest)
  | EmptyString => ""
  end.

Definition connect_error (o : string) : exn :=
  if String.eqb o "null" then TypeError "Invalid URL"
  else Error ("protocol " ++ String (ascii_of_N 34) (scheme o)
                ++ String (ascii_of_N 34) " is unsupported.").

(** [http2.connect(origin)] for an origin that it accepts, and the two
    [session.on] calls.  The origin of a strategy is assigned once, by the
    constructor, whose own call of [connect] comes first: it is there that
    an origin is refused. *)
Definition connect (o : string) (h : heap) : nat * heap :=
  (List.length h,
   (h ++ [{| session_origin := o; session_closed := false;
             session_handlers := ["error"; "socketError"] |}])%list).

(** [_reviveSession]: [cur] is [this.session], [None] while the constructor
    has not set it. *)
Definition _reviveSession (o : string) (cur : option nat) (h : heap) : nat * heap :=
  match cur with
  | Some s => if negb (is_closed h s) then (s, h) else connect o h
  | None => connect o h
  end.

(** [s.replace(pat, "")]: the first occurrence of [pat] goes. *)
Fixpoint remove_first (pat s : string) : string :=
  if String.prefix pat s then drop (String.length pat) s
  else match s with
       | EmptyString => ""
       | String c rest => String c (remove_first pat rest)
       end.

Fixpoint close_at (s : nat) (h : heap) : heap :=
  match s, h with
  | _, [] => []
  | O, x :: rest =>
      {| session_origin := session_origin x; session_closed := true;
         session_handlers := session_handlers x |} :: rest
  | S s', x :: rest => x :: close_at s' rest
  end.

(** [req.on(ev, listener)]. *)
Definition add_listener (ev : string) (req : ClientHttp2Stream) : ClientHttp2Stream :=
  {| stream_session := stream_session req; stream_headers := stream_headers req;
     stream_written := stream_written req; stream_ended := stream_ended req;
     stream_encoding := stream_encoding req;
     stream_listeners := (stream_listeners req ++ [ev])%list |}.

(** [session.request(headers)]: a fresh stream on session [s]. *)
Definition session_request (s : nat) (hd : Http2Headers) : ClientHttp2Stream :=
  {| stream_session := s; stream_headers := hd; stream_written := None;
     stream_ended := false; stream_encoding := None; stream_listeners := [] |}.

(** [req.write(text, "utf8")] when there is a body. *)
Definition stream_write (w : option string) (req : ClientHttp2Stream) : ClientHttp2Stream :=
  {| stream_session := stream_session req; stream_headers := stream_headers req;
     stream_written := w; stream_ended := stream_ended req;
     stream_encoding := stream_encoding req; stream_listeners := stream_listeners req |}.

(** [req.end()]. *)
Definition stream_end (req : ClientHttp2Stream) : ClientHttp2Stream :=
  {| stream_session := stream_session req; stream_headers := stream_headers req;
     stream_written := stream_written req; stream_ended := true;
     stream_encoding := stream_encoding req; stream_listeners := stream_listeners req |}.

(** [req.setEncoding(enc)]. *)
Definition setEncoding (enc : string) (req : ClientHttp2Stream) : ClientHttp2Stream :=
  {| stream_session := stream_session req; stream_headers := stream_headers req;
     stream_written := stream_written req; stream_ended := stream_ended req;
     stream_encoding := Some enc; stream_listeners := stream_listeners req |}.

Section HTTP2.
Context {P : Platform}.

(** The constructor. *)
Definition HTTP2Strategy_new (baseURL : string) (h : heap) : result (HTTP2Strategy * heap) :=
  o <- URL_origin baseURL ;;
  if connectable o then
    let '(s, h') := _reviveSession o None h in
    Ok ({| origin := o; closed := false; session := s |}, h')
  else Throw (connect_error o).

(** The headers of the stream: [path] is the URL without the origin, with
    the query string when [params] is there. *)
Definition request_headers (this : HTTP2Strategy) (info : InternalHTTPRequestInfo)
  : Http2Headers :=
  {| h_path := remove_first (origin this) (url info)
                 ++ match params info with
                    | Some ps => "?" ++ URLSearchParams_toString ps
                    | None => ""
                    end;
     h_method := method info;
     h_token := token info;
     h_user_agent := userAgent info |}.

(** The end of the executor, once the body is written: [req.end()], then
    the listeners of [response], [error], [data] and [end]. *)
Definition listening (info : InternalHTTPRequestInfo) (req : ClientHttp2Stream) : Exchange :=
  let req1 := stream_end req in
  let req2 := add_listener "error" (add_listener "response" req1) in
  let req3 := add_listener "data" (setEncoding "utf8" req2) in
  let req4 := add_listener "end" req3 in
  {| ex_info := info; ex_promise := Pending; ex_timer := Armed;
     ex_stream := Some req4; ex_status := 0; ex_responseBody := "" |}.

(** [request]: the executor of the promise it returns, run to its end.
    A [throw] inside the executor rejects the promise. *)
Definition request (this : HTTP2Strategy) (h : heap) (info : InternalHTTPRequestInfo)
  : HTTP2Strategy * heap * Exchange :=
  if closed this then
    (this, h,
     {| ex_info := info;
        ex_promise := Rejected (Error "Cannot make http2 request when client is closed");
        ex_timer := NoTimer; ex_stream := None; ex_status := 0; ex_responseBody := "" |})
  else
    let '(s, h1) :=
      if is_closed h (session this) then _reviveSession (origin this) (Some (session this)) h
      else (session this, h) in
    let this1 := {| origin := origin this; closed := closed this; session := s |} in
    let req := session_request s (request_headers this1 info) in
    if truthy (data info) then
      match serializer info (data info) with
      | Throw e =>
          (this1, h1,
           {| ex_info := info; ex_promise := Rejected e; ex_timer := Armed;
              ex_stream := Some req; ex_status := 0; ex_responseBody := "" |})
      | Ok text => (this1, h1, listening info (stream_write (Some text) req))
      end
    else (this1, h1, listening info req).

(** [close]. *)
Definition close (this : HTTP2Strategy) (h : heap) : HTTP2Strategy * heap :=
  ({| origin := origin this; closed := true; session := session this |},
   close_at (session this) h).

(** What can happen to an exchange after [request] returned: its timer
    fires, or its stream emits an event. *)
Inductive event : Type :=
  | TimerFires
  | OnResponse (status : option Z)
  | OnError (e : exn)
  | OnData (chunk : string)
  | OnEnd.

Definition listens (x : Exchange) (name : string) : bool :=
  match ex_stream x with
  | Some req => existsb (String.eqb name) (stream_listeners req)
  | None => false
  end.

Definition with_promise (x : Exchange) (p : promise) (t : timer_state) : Exchange :=
  {| ex_info := ex_info x; ex_promise := p; ex_timer := t; ex_stream := ex_stream x;
     ex_status := ex_status x; ex_responseBody := ex_responseBody x |}.

(** The callback of [setTimeout] and the four listeners. *)
Definition handle (x : Exchange) (ev : event) : Exchange :=
  match ev with
  | TimerFires =>
      match ex_timer x with
      | Armed =>
          with_promise x
            (reject (DataAPITimeout (data (ex_info x)) (timeout (ex_info x))) (ex_promise x))
            Fired
      | _ => x
      end
  | OnResponse st =>
      if listens x "response" then
        {| ex_info := ex_info x; ex_promise := ex_promise x;
           ex_timer := clearTimeout (ex_timer x); ex_stream := ex_stream x;
           ex_status := match st with Some c => c | None => 0 end;
           ex_responseBody := ex_responseBody x |}
      else x
  | OnError e =>
      if listens x "error" then
        with_promise x (reject e (ex_promise x)) (clearTimeout (ex_timer x))
      else x
  | OnData chunk =>
      if listens x "data" then
        {| ex_info := ex_info x; ex_promise := ex_promise x; ex_timer := ex_timer x;
           ex_stream := ex_stream x; ex_status := ex_status x;
           ex_responseBody := ex_responseBody x ++ chunk |}
      else x
  | OnEnd =>
      if listens x "end" then
        match JSON_parse (ex_responseBody x) with
        | Some d =>
            with_promise x
              (resolve {| resp_status := ex_status x; resp_data := d |} (ex_promise x))
              (clearTimeout (ex_timer x))
        | None =>
            with_promise x
              (reject (Error ("Unable to parse response as JSON, got: " ++ String dquote ""
                                ++ ex_responseBody x ++ String dquote ""))
                      (ex_promise x))
              (clearTimeout (ex_timer x))
        end
      else x
  end.

Definition run (x : Exchange) (evs : list event) : Exchange := fold_left handle evs x.

(** What can happen to the strategy object: a call of [request], a call of
    [close], the peer closing a session. *)
Inductive operation : Type :=
  | CallRequest (info : InternalHTTPRequestInfo)
  | CallClose
  | PeerCloses (s : nat).

Definition apply (st : HTTP2Strategy * heap) (op : operation) : HTTP2Strategy * heap :=
  match op with
  | CallRequest info => fst (request (fst st) (snd st) info)
  | CallClose => close (fst st) (snd st)
  | PeerCloses s => (fst st, close_at s (snd st))
  end.

Definition apply_all (st : HTTP2Strategy * heap) (ops : list operation)
  : HTTP2Strategy * heap :=
  fold_left apply ops st.
End HTTP2.

End Http2.

(** ** DevOps errors ([src/devops/errors.ts]) *)

Module DevOps.

(** [e.k]: reading a property of [null] or [undefined] throws. *)
Definition member (e : value) (k : string) : result value :=
  match e with
  | VUndefined =>
      Throw (TypeError ("Cannot read properties of undefined (reading '" ++ k ++ "')"))
  | VNull => Throw (TypeError ("Cannot read properties of null (reading '" ++ k ++ "')"))
  | _ => Ok (get e k)
  end.

(** [GuaranteedAPIResponse]. *)
Record GuaranteedAPIResponse : Type := {
  g_data : value;
  g_status : Z
}.

(** [DevOpsAPIErrorDescriptor]. *)
Record DevOpsAPIErrorDescriptor : Type := {
  id : value;
  message : value
}.

(** [DevOpsAPIResponseError]; [error_message] is the [message] of the
    error, which [super(message)] sets to [ToString(message)]. *)
Record DevOpsAPIResponseError : Type := {
  error_message : string;
  errors : list DevOpsAPIErrorDescriptor;
  status : Z;
  name : string
}.

(** [errors.map(e => ({ id: e.ID, message: e.message }))]. *)
Fixpoint map_descriptors (es : list value) : result (list DevOpsAPIErrorDescriptor) :=
  match es with
  | [] => Ok []
  | e :: rest =>
      i <- member e "ID" ;;
      m <- member e "message" ;;
      ds <- map_descriptors rest ;;
      Ok ({| id := i; message := m |} :: ds)
  end.

(** [extractErrorDescriptors]. *)
Definition extractErrorDescriptors (resp : GuaranteedAPIResponse)
  : result (list DevOpsAPIErrorDescriptor) :=
  let errs := get_opt (g_data resp) "errors" in
  let errs := if truthy errs then errs else VArray [] in
  match errs with
  | VArray es => map_descriptors es
  | _ => Throw (TypeError "errors.map is not a function")
  end.

(** [es.find(e => e.message)]. *)
Fixpoint find_with_message (es : list value) : result value :=
  match es with
  | [] => Ok VUndefined
  | e :: rest =>
      m <- member e "message" ;;
      if truthy m then Ok e else find_with_message rest
  end.

Definition nullish (v : value) : bool :=
  match v with
  | VUndefined | VNull => true
  | _ => false
  end.

Section Errors.
Context {P : Platform}.

(** The constructor of [DevOpsAPIResponseError]. *)
Definition DevOpsAPIResponseError_new (resp : GuaranteedAPIResponse)
  : result DevOpsAPIResponseError :=
  let errs := get_opt (g_data resp) "errors" in
  found <- (if nullish errs then Ok VUndefined
            else match errs with
                 | VArray es => find_with_message es
                 | _ => Throw (TypeError "find is not a function")
                 end) ;;
  let m := get_opt found "message" in
  let message := if nullish m then VString "Something went wrong" else m in
  ds <- extractErrorDescriptors resp ;;
  Ok {| error_message := ToString message; errors := ds; status := g_status resp;
        name := "DevOpsAPIResponseError" |}.
End Errors.

(** ** DevOps administration ([src/devops/astra-db-admin.ts], [AstraAdmin]) *)

(** The [info] part of a [FullDatabaseInfo]; an absent field is [None]. *)
Record DatabaseInfo : Type := {
  info_name : string;
  cloudProvider : string;
  region : string;
  keyspace : option string;
  additionalKeyspaces : option (list string)
}.

Record FullDatabaseInfo : Type := {
  db_id : string;
  db_status : string;
  info : DatabaseInfo
}.

(** [Boolean] on a string that may be absent. *)
Definition Boolean (x : option string) : bool :=
  match x with
  | Some s => negb (String.eqb s "")
  | None => false
  end.

(** The callback of [listNamespaces]:
    [[i.info.keyspace!, ...i.info.additionalKeyspaces ?? []].filter(Boolean)]. *)
Definition listNamespaces (i : FullDatabaseInfo) : list (option string) :=
  filter Boolean
    (keyspace (info i)
       :: map Some (match additionalKeyspaces (info i) with
                    | Some l => l
                    | None => []
                    end)).

Inductive HTTP_METHODS := Get | Post | Delete.

(** The argument of [this._httpClient.request]. *)
Record DevopsRequest : Type := {
  req_method : HTTP_METHODS;
  req_path : string;
  req_data : value
}.

(** What is polled: the [Db] that [mkDb] builds from the [location] header,
    or the literal [{ id }]. *)
Inductive poll_target : Type :=
  | target_db (endpointOrId : value) (db_region : value) (namespace : value)
  | target_id (i : string).

(** The arguments of [this._httpClient.awaitStatus]. *)
Record await_call : Type := {
  aw_target : poll_target;
  aw_status : string;
  aw_legal : list string;
  aw_options : value;
  aw_interval : Z
}.

(** An administrative method: the calls it awaits, one after the other. *)
Inductive admin (A : Type) : Type :=
  | Return (a : A)
  | Request (r : DevopsRequest) (k : value -> admin A)
  | AwaitStatus (c : await_call) (k : admin A).
Arguments Return {A} a.
Arguments Request {A} r k.
Arguments AwaitStatus {A} c k.

(** The polls of a method, when [resp] answers its requests. *)
Fixpoint awaited {A} (resp : DevopsRequest -> value) (m : admin A) : list await_call :=
  match m with
  | Return _ => []
  | Request r k => awaited resp (k (resp r))
  | AwaitStatus c k => c :: awaited resp k
  end.

(** The requests of a method. *)
Fixpoint requested {A} (resp : DevopsRequest -> value) (m : admin A) : list DevopsRequest :=
  match m with
  | Return _ => []
  | Request r k => r :: requested resp (k (resp r))
  | AwaitStatus _ k => requested resp k
  end.

(** [AstraDbAdmin.createNamespace]. *)
Definition createNamespace (dbid : string) (namespace : string) : admin unit :=
  Request {| req_method := Post;
             req_path := "/databases/" ++ dbid ++ "/keyspaces/" ++ namespace;
             req_data := VUndefined |}
          (fun _ => Return tt).

(** [AstraDbAdmin.dropNamespace]. *)
Definition dropNamespace (dbid : string) (namespace : string) : admin unit :=
  Request {| req_method := Delete;
             req_path := "/databases/" ++ dbid ++ "/keyspaces/" ++ namespace;
             req_data := VUndefined |}
          (fun _ => Return tt).

(** [{ ...a, ...b }]: the properties of [b] over those of [a]. *)
Fixpoint assign (a b : list (string * value)) : list (string * value) :=
  match b with
  | [] => a
  | (k, v) :: rest => assign (update k v a) rest
  end.

(** Modelled from the spec: [DEFAULT_NAMESPACE] of [src/api/constants] is
    not among the sources; the lifecycle test reads [default_keyspace]. *)
Definition DEFAULT_NAMESPACE : string := "default_keyspace".

(** [AstraAdmin.createDatabase]; [config] holds the properties of the
    [DatabaseConfig], [options] is the [CreateDatabaseOptions] or
    [undefined].  The answer of the request is its [headers.location]. *)
Definition createDatabase (config : list (string * value)) (options : value)
  : admin poll_target :=
  let ns := get (VObject config) "namespace" in
  let definition :=
    assign [("capacityUnits", VNumber (Number_of_bigint 1));
            ("tier", VString "serverless");
            ("dbType", VString "vector");
            ("keyspace", if truthy ns then ns else VString DEFAULT_NAMESPACE)]
           config in
  Request {| req_method := Post; req_path := "/databases";
             req_data := VObject definition |}
          (fun location =>
             let db := target_db location (get (VObject definition) "region")
                                 (get (VObject definition) "keyspace") in
             AwaitStatus {| aw_target := db; aw_status := "ACTIVE";
                            aw_legal := ["INITIALIZING"; "PENDING"];
                            aw_options := options; aw_interval := 10000 |}
                         (Return db)).

(** [AstraAdmin.dropDatabase], on the identifier [i] of the database. *)
Definition dropDatabase (i : string) (options : value) : admin unit :=
  Request {| req_method := Post; req_path := "/databases/" ++ i ++ "/terminate";
             req_data := VUndefined |}
          (fun _ =>
             AwaitStatus {| aw_target := target_id i; aw_status := "TERMINATED";
                            aw_legal := ["TERMINATING"];
                            aw_options := options; aw_interval := 10000 |}
                         (Return tt)).

End DevOps.

(** ** A reference platform

    Definitions of the platform functions after ECMA-262 and Node, to
    evaluate the code on concrete inputs.  Text is a string of bytes
    (UTF-8).  Numbers are read and written exactly; a date is read in the
    format in which the serializer writes it, and white space is ASCII:
    what the language leaves to the implementation or to the time zone is
    not read. *)

Module Node.

Definition signed (neg : bool) (z : Z) : Z := if neg then - z else z.

(** The double nearest to [m * 10^e]: an exact integer is rounded as it
    is; a quotient is first cut to 64 bits and more, with a sticky last
    bit, and rounded from there. *)
Definition decimal_to_number (neg : bool) (m e : Z) : number :=
  if m <=? 0 then S754_zero neg
  else if 400 <? e then S754_infinity neg
  else if Z.log2 m + 1 + 3 * e <? -1080 then S754_zero neg
  else if 0 <=? e then binary_normalize prec emax (signed neg (m * 10 ^ e)) 0 neg
  else
    let d := 10 ^ (- e) in
    let s := Z.max 0 (Z.log2 d - Z.log2 m + 64) in
    let q := (m * 2 ^ s) / d in
    let sticky := if (m * 2 ^ s) mod d =? 0 then 0 else 1 in
    binary_normalize prec emax (signed neg (2 * q + sticky)) (- s - 1) neg.

Definition is_digit (c : ascii) : bool := in_range "0" "9" c.
Definition digit_value (c : ascii) : Z := Z.of_N (N_of_ascii c) - 48.

(** The digits at the head of [s]: their value, their count, the rest. *)
Fixpoint read_digits (acc : Z) (count : Z) (s : string) : Z * Z * string :=
  match s with
  | String c rest =>
      if is_digit c then read_digits (acc * 10 + digit_value c) (count + 1) rest
      else (acc, count, s)
  | EmptyString => (acc, count, s)
  end.

Definition string_of_Z (z : Z) : string :=
  (if z <? 0 then "-" else "") ++ NilZero.string_of_uint (N.to_uint (Z.abs_N z)).

(** *** [Number::toString] *)

(** [num / den] compared with [10^j]. *)
Definition below_pow10 (num den j : Z) : bool :=
  if 0 <=? j then num <? den * 10 ^ j else num * 10 ^ (- j) <? den.

(** The [n] with [10^(n-1) <= num/den < 10^n], from a guess. *)
Fixpoint magnitude (fuel : nat) (num den n : Z) : Z :=
  match fuel with
  | O => n
  | S f =>
      if below_pow10 num den (n - 1) then magnitude f num den (n - 1)
      else if below_pow10 num den n then n
      else magnitude f num den (n + 1)
  end.

Definition same_number (a b : number) : bool :=
  match a, b with
  | S754_finite s1 m1 e1, S754_finite s2 m2 e2 =>
      (Bool.eqb s1 s2 && Pos.eqb m1 m2 && (e1 =? e2))%bool
  | S754_zero s1, S754_zero s2 => Bool.eqb s1 s2
  | S754_infinity s1, S754_infinity s2 => Bool.eqb s1 s2
  | _, _ => false
  end.

(** The shortest [s * 10^t] that reads back as [x = num/den]: with [k]
    digits, the two neighbours of [x] are tried, the nearer first. *)
Fixpoint shortest (fuel : nat) (x : number) (num den n k : Z) : Z * Z :=
  let t := n - k in
  let lo := if 0 <=? t then num / (den * 10 ^ t) else (num * 10 ^ (- t)) / den in
  let hi := lo + 1 in
  (* twice the distance to the middle of [lo] and [hi], by sign *)
  let mid := if 0 <=? t then Z.compare (2 * num) ((2 * lo + 1) * den * 10 ^ t)
             else Z.compare (2 * num * 10 ^ (- t)) ((2 * lo + 1) * den) in
  let lo_ok := same_number (decimal_to_number false lo t) x in
  let hi_ok := same_number (decimal_to_number false hi t) x in
  let first_lo := match mid with
                  | Lt => true
                  | Gt => false
                  | Eq => Z.even lo
                  end in
  if (lo_ok && (first_lo || negb hi_ok))%bool then (lo, t)
  else if hi_ok then (hi, t)
  else match fuel with
       | O => (lo, t)
       | S f => shortest f x num den n (k + 1)
       end.

Fixpoint strip_zeros (fuel : nat) (s t : Z) : Z * Z :=
  match fuel with
  | O => (s, t)
  | S f => if ((s mod 10 =? 0) && negb (s =? 0))%bool then strip_zeros f (s / 10) (t + 1)
           else (s, t)
  end.

Fixpoint zeros (n : nat) : string :=
  match n with
  | O => ""
  | S n' => String "0" (zeros n')
  end.

Definition format_number (s t : Z) : string :=
  let ds := string_of_Z s in
  let k := Z.of_nat (String.length ds) in
  let n := k + t in
  if ((k <=? n) && (n <=? 21))%bool then ds ++ zeros (Z.to_nat (n - k))
  else if ((0 <? n) && (n <=? 21))%bool then
    take (Z.to_nat n) ds ++ "." ++ drop (Z.to_nat n) ds
  else if ((-6 <? n) && (n <=? 0))%bool then "0." ++ zeros (Z.to_nat (- n)) ++ ds
  else
    let ex := (if 0 <=? n - 1 then "+" else "-") ++ string_of_Z (Z.abs (n - 1)) in
    if k =? 1 then ds ++ "e" ++ ex
    else take 1 ds ++ "." ++ drop 1 ds ++ "e" ++ ex.

(** The text of [x] with the shortest digits that the search finds. *)
Definition shortest_text (x : number) : string :=
  match x with
  | S754_nan => "NaN"
  | S754_zero _ => "0"
  | S754_infinity neg => (if neg then "-" else "") ++ "Infinity"
  | S754_finite neg m e =>
      let num := if 0 <=? e then Zpos m * 2 ^ e else Zpos m in
      let den := if 0 <=? e then 1 else 2 ^ (- e) in
      let guess := ((Z.log2 num - Z.log2 den) * 30103) / 100000 in
      let n := magnitude 8 num den guess in
      let '(s, t) := shortest 17 (S754_finite false m e) num den n 1 in
      let '(s, t) := strip_zeros 400 s t in
      (if neg then "-" else "") ++ format_number s t
  end.

(** *** [JSON.parse] *)

Definition is_ws (c : ascii) : bool :=
  let n := N_of_ascii c in
  ((n =? 9) || (n =? 10) || (n =? 13) || (n =? 32))%N%bool.

Fixpoint skip_ws (s : string) : string :=
  match s with
  | String c rest => if is_ws c then skip_ws rest else s
  | EmptyString => s
  end.

Definition hex_value (c : ascii) : option N :=
  let n := N_of_ascii c in
  if in_range "0" "9" c then Some (n - 48)%N
  else if in_range "a" "f" c then Some (n - 87)%N
  else if in_range "A" "F" c then Some (n - 55)%N
  else None.

Definition hex4_value (a b c d : ascii) : option N :=
  match hex_value a, hex_value b, hex_value c, hex_value d with
  | Some x, Some y, Some z, Some w => Some (x * 4096 + y * 256 + z * 16 + w)%N
  | _, _, _, _ => None
  end.

(** The characters of a string literal after its opening quote: a byte of
    the text, or the code unit of a [\u] escape. *)
Fixpoint string_body (s : string) : option (list (N + N) * string) :=
  match s with
  | EmptyString => None
  | String c rest =>
      let n := N_of_ascii c in
      if (n =? 34)%N then Some ([], rest)
      else if (n =? 92)%N then
        match rest with
        | String e rest' =>
            let plain (b : N) :=
              match string_body rest' with
              | Some (l, r) => Some (inl b :: l, r)
              | None => None
              end in
            let m := N_of_ascii e in
            if (m =? 34)%N then plain 34%N
            else if (m =? 92)%N then plain 92%N
            else if (m =? 47)%N then plain 47%N
            else if (m =? 98)%N then plain 8%N
            else if (m =? 102)%N then plain 12%N
            else if (m =? 110)%N then plain 10%N
            else if (m =? 114)%N then plain 13%N
            else if (m =? 116)%N then plain 9%N
            else if (m =? 117)%N then
              match rest' with
              | String a (String b (String c' (String d rest''))) =>
                  match hex4_value a b c' d, string_body rest'' with
                  | Some u, Some (l, r) => Some (inr u :: l, r)
                  | _, _ => None
                  end
              | _ => None
              end
            else None
        | EmptyString => None
        end
      else if (n <? 32)%N then None
      else match string_body rest with
           | Some (l, r) => Some (inl n :: l, r)
           | None => None
           end
  end.

Definition utf8 (cp : N) : list N :=
  (if cp <? 128 then [cp]
   else if cp <? 2048 then [192 + cp / 64; 128 + cp mod 64]
   else if cp <? 65536 then [224 + cp / 4096; 128 + (cp / 64) mod 64; 128 + cp mod 64]
   else [240 + cp / 262144; 128 + (cp / 4096) mod 64; 128 + (cp / 64) mod 64;
         128 + cp mod 64])%N.

Definition is_high (u : N) : bool := ((55296 <=? u) && (u <? 56320))%N%bool.
Definition is_low (u : N) : bool := ((56320 <=? u) && (u <? 57344))%N%bool.

(** The bytes of a string: a pair of surrogates is one character. *)
Fixpoint string_bytes (l : list (N + N)) : list N :=
  match l with
  | [] => []
  | inl b :: rest => b :: string_bytes rest
  | inr u :: rest =>
      match rest with
      | inr w :: rest' =>
          if (is_high u && is_low w)%bool then
            (utf8 (65536 + (u - 55296) * 1024 + (w - 56320))%N ++ string_bytes rest')%list
          else (utf8 u ++ string_bytes rest)%list
      | _ => (utf8 u ++ string_bytes rest)%list
      end
  end.

Fixpoint string_of_bytes (l : list N) : string :=
  match l with
  | [] => ""
  | b :: rest => String (ascii_of_N b) (string_of_bytes rest)
  end.

Definition string_literal (s : string) : option (string * string) :=
  match string_body s with
  | Some (l, r) => Some (string_of_bytes (string_bytes l), r)
  | None => None
  end.

(** The optional exponent that follows a mantissa. *)
Definition exponent (s : string) : option (Z * string) :=
  match s with
  | String c rest =>
      if (Ascii.eqb c "e" || Ascii.eqb c "E")%bool then
        let '(neg, rest1) :=
          match rest with
          | String sg r => if Ascii.eqb sg "-" then (true, r)
                           else if Ascii.eqb sg "+" then (false, r)
                           else (false, rest)
          | EmptyString => (false, rest)
          end in
        let '(ex, cnt, rest2) := read_digits 0 0 rest1 in
        if cnt =? 0 then None else Some (signed neg ex, rest2)
      else Some (0, s)
  | EmptyString => Some (0, s)
  end.

(** A JSON number after its sign: an integer part without a leading zero,
    a fraction after a dot, an exponent after [e] or [E]. *)
Definition number_body (neg : bool) (s1 : string) : option (number * string) :=
  let '(ip, icnt, s2) := read_digits 0 0 s1 in
  let leading_zero :=
    match s1 with
    | String c _ => (Ascii.eqb c "0" && (1 <? icnt))%bool
    | EmptyString => false
    end in
  if ((icnt =? 0) || leading_zero)%bool then None
  else
    let frac :=
      match s2 with
      | String c rest =>
          if Ascii.eqb c "." then
            let '(m, fcnt, s3) := read_digits ip 0 rest in
            if fcnt =? 0 then None else Some (m, fcnt, s3)
          else Some (ip, 0, s2)
      | EmptyString => Some (ip, 0, s2)
      end in
    match frac with
    | None => None
    | Some (m, fcnt, s3) =>
        match exponent s3 with
        | None => None
        | Some (ex, s4) => Some (decimal_to_number neg m (ex - fcnt), s4)
        end
    end.

(** A JSON number: a sign, then its digits. *)
Definition number_literal (s : string) : option (number * string) :=
  match s with
  | String c rest => if Ascii.eqb c "-" then number_body true rest else number_body false s
  | EmptyString => number_body false s
  end.

(** [text] is a number of JSON that reads as [x]. *)
Definition reads_as (text : string) (x : number) : bool :=
  match number_literal text with
  | Some (y, EmptyString) => same_number y x
  | _ => false
  end.

(** The exact decimal expansion of [m * 2^e], digits and exponent. *)
Definition exact_text (neg : bool) (m : positive) (e : Z) : string :=
  (if neg then "-" else "")
    ++ (if 0 <=? e then string_of_Z (Zpos m * 2 ^ e)
        else string_of_Z (Zpos m * 5 ^ (- e)) ++ "e" ++ string_of_Z e).

(** [Number::toString]: its digits are, by their definition, digits that
    read back as the number.  The digits that the search found are checked
    to do so; the exact decimal expansion of the number, which reads back
    as the number as well, would stand in for digits that did not. *)
Definition Number_toString (x : number) : string :=
  match x with
  | S754_finite neg m e =>
      if reads_as (shortest_text x) x then shortest_text x else exact_text neg m e
  | _ => shortest_text x
  end.

Definition literal (word : string) (v : value) (s : string) : option (value * string) :=
  if String.prefix word s then Some (v, drop (String.length word) s) else None.

(** A value, the members of an array after its first, the members of an
    object; a later member of the same name overrides an earlier one. *)
Fixpoint parse_value (fuel : nat) (s : string) : option (value * string) :=
  match fuel with
  | O => None
  | S f =>
      match skip_ws s with
      | EmptyString => None
      | String c rest as s' =>
          if Ascii.eqb c dquote then
            match string_literal rest with
            | Some (t, r) => Some (VString t, r)
            | None => None
            end
          else if Ascii.eqb c "[" then
            match skip_ws rest with
            | String c' r =>
                if Ascii.eqb c' "]" then Some (VArray [], r)
                else match parse_elements f rest with
                     | Some (l, r') => Some (VArray l, r')
                     | None => None
                     end
            | EmptyString => None
            end
          else if Ascii.eqb c "{" then
            match skip_ws rest with
            | String c' r =>
                if Ascii.eqb c' "}" then Some (VObject [], r)
                else match parse_members f [] rest with
                     | Some (l, r') => Some (VObject l, r')
                     | None => None
                     end
            | EmptyString => None
            end
          else if Ascii.eqb c "n" then literal "null" VNull s'
          else if Ascii.eqb c "t" then literal "true" (VBool true) s'
          else if Ascii.eqb c "f" then literal "false" (VBool false) s'
          else match number_literal s' with
               | Some (n, r) => Some (VNumber n, r)
               | None => None
               end
      end
  end
with parse_elements (fuel : nat) (s : string) : option (list value * string) :=
  match fuel with
  | O => None
  | S f =>
      match parse_value f s with
      | None => None
      | Some (v, r) =>
          match skip_ws r with
          | String c r' =>
              if Ascii.eqb c "]" then Some ([v], r')
              else if Ascii.eqb c "," then
                match parse_elements f r' with
                | Some (l, r'') => Some (v :: l, r'')
                | None => None
                end
              else None
          | EmptyString => None
          end
      end
  end
with parse_members (fuel : nat) (acc : list (string * value)) (s : string)
  : option (list (string * value) * string) :=
  match fuel with
  | O => None
  | S f =>
      match skip_ws s with
      | String q r0 =>
          if Ascii.eqb q dquote then
            match string_literal r0 with
            | None => None
            | Some (k, r1) =>
                match skip_ws r1 with
                | String colon r2 =>
                    if Ascii.eqb colon ":" then
                      match parse_value f r2 with
                      | None => None
                      | Some (v, r3) =>
                          let acc' := if existsb (fun kv => String.eqb k (fst kv)) acc
                                      then update k v acc else (acc ++ [(k, v)])%list in
                          match skip_ws r3 with
                          | String c r4 =>
                              if Ascii.eqb c "}" then Some (acc', r4)
                              else if Ascii.eqb c "," then parse_members f acc' r4
                              else None
                          | EmptyString => None
                          end
                      end
                    else None
                | EmptyString => None
                end
            end
          else None
      | EmptyString => None
      end
  end.

Definition JSON_parse (text : string) : option value :=
  match parse_value (2 * String.length text + 2) text with
  | Some (v, r) => match skip_ws r with
                   | EmptyString => Some v
                   | _ => None
                   end
  | None => None
  end.

(** *** [Number(s)] *)

Definition is_space (c : ascii) : bool :=
  let n := N_of_ascii c in
  (((9 <=? n) && (n <=? 13)) || (n =? 32))%N%bool.

Fixpoint trim_left (s : string) : string :=
  match s with
  | String c rest => if is_space c then trim_left rest else s
  | EmptyString => s
  end.

Fixpoint reverse (acc s : string) : string :=
  match s with
  | String c rest => reverse (String c acc) rest
  | EmptyString => acc
  end.

(** ASCII white space goes from both ends. *)
Definition trim (s : string) : string :=
  reverse "" (trim_left (reverse "" (trim_left s))).

(** The digits of base [b] at the head of [s]. *)
Fixpoint read_radix (b : N) (acc : Z) (count : Z) (s : string) : Z * Z * string :=
  match s with
  | String c rest =>
      match hex_value c with
      | Some d => if (d <? b)%N then read_radix b (acc * Z.of_N b + Z.of_N d) (count + 1) rest
                  else (acc, count, s)
      | None => (acc, count, s)
      end
  | EmptyString => (acc, count, s)
  end.

Definition radix_literal (b : N) (s : string) : number :=
  match read_radix b 0 0 s with
  | (v, cnt, EmptyString) => if cnt =? 0 then NaN else Number_of_bigint v
  | _ => NaN
  end.

(** A decimal literal without its sign: digits with an optional fraction,
    or a fraction alone, and an optional exponent. *)
Definition decimal_literal (neg : bool) (s : string) : number :=
  if String.eqb s "Infinity" then S754_infinity neg
  else
    let '(ip, icnt, s2) := read_digits 0 0 s in
    let '(m, fcnt, s3) :=
      match s2 with
      | String c rest => if Ascii.eqb c "." then read_digits ip 0 rest else (ip, 0, s2)
      | EmptyString => (ip, 0, s2)
      end in
    if (icnt + fcnt =? 0) then NaN
    else match exponent s3 with
         | Some (ex, EmptyString) => decimal_to_number neg m (ex - fcnt)
         | _ => NaN
         end.

Definition StringToNumber (text : string) : number :=
  match trim text with
  | EmptyString => pos_zero
  | String c rest as s =>
      if Ascii.eqb c "-" then decimal_literal true rest
      else if Ascii.eqb c "+" then decimal_literal false rest
      else if (String.prefix "0x" s || String.prefix "0X" s)%bool then radix_literal 16 (drop 2 s)
      else if (String.prefix "0o" s || String.prefix "0O" s)%bool then radix_literal 8 (drop 2 s)
      else if (String.prefix "0b" s || String.prefix "0B" s)%bool then radix_literal 2 (drop 2 s)
      else decimal_literal false s
  end.

(** *** Dates *)

(** Days from 1970-01-01 to the day [d] of month [m] of year [y]. *)
Definition days_from_civil (y m d : Z) : Z :=
  let y' := if m <=? 2 then y - 1 else y in
  let era := y' / 400 in
  let yoe := y' - era * 400 in
  let doy := (153 * (if 2 <? m then m - 3 else m + 9) + 2) / 5 + d - 1 in
  let doe := yoe * 365 + yoe / 4 - yoe / 100 + doy in
  era * 146097 + doe - 719468.

Definition days_in_month (y m : Z) : Z :=
  if m =? 2 then
    if ((y mod 4 =? 0) && (negb (y mod 100 =? 0) || (y mod 400 =? 0)))%bool then 29 else 28
  else if ((m =? 4) || (m =? 6) || (m =? 9) || (m =? 11))%bool then 30
  else 31.

Definition field (width : Z) (s : string) : option (Z * string) :=
  let '(v, cnt, rest) := read_digits 0 0 (take (Z.to_nat width) s) in
  if ((cnt =? width) && String.eqb rest "")%bool
  then Some (v, drop (Z.to_nat width) s) else None.

Definition expect (c : ascii) (s : string) : option string :=
  match s with
  | String c' rest => if Ascii.eqb c c' then Some rest else None
  | EmptyString => None
  end.

(** [YYYY-MM-DDTHH:mm:ss.sssZ], the fraction optional: the text of a date
    in this document.  Other texts read [None]. *)
Definition iso_time (s : string) : option Z :=
  match field 4 s with
  | Some (y, s) =>
  match expect "-" s with Some s =>
  match field 2 s with Some (mo, s) =>
  match expect "-" s with Some s =>
  match field 2 s with Some (d, s) =>
  match expect "T" s with Some s =>
  match field 2 s with Some (hh, s) =>
  match expect ":" s with Some s =>
  match field 2 s with Some (mi, s) =>
  match expect ":" s with Some s =>
  match field 2 s with Some (ss, s) =>
    let tail :=
      match expect "." s with
      | Some s' => field 3 s'
      | None => Some (0, s)
      end in
    match tail with
    | Some (ms, s) =>
        if (String.eqb s "Z" && (1 <=? mo) && (mo <=? 12) && (1 <=? d)
            && (d <=? days_in_month y mo) && (hh <=? 23) && (mi <=? 59) && (ss <=? 59))%bool
        then Some (((days_from_civil y mo d * 24 + hh) * 60 + mi) * 60000 + ss * 1000 + ms)
        else None
    | None => None
    end
  | None => None end | None => None end | None => None end | None => None end
  | None => None end | None => None end | None => None end | None => None end
  | None => None end | None => None end
  | None => None
  end.

(** The integer part of a finite number. *)
Definition truncate (n : number) : option Z :=
  match n with
  | S754_zero _ => Some 0
  | S754_finite neg m e =>
      Some (signed neg (if 0 <=? e then Zpos m * 2 ^ e else Zpos m / 2 ^ (- e)))
  | _ => None
  end.

Definition TimeClip (t : option Z) : number :=
  match t with
  | Some z => if Z.abs z <=? 8640000000000000 then Number_of_bigint z else NaN
  | None => NaN
  end.

Definition Date_valueOf (v : value) : result number :=
  match v with
  | VString s => Ok (TimeClip (iso_time s))
  | VNumber n => Ok (TimeClip (truncate n))
  | VUndefined => Ok NaN
  | VNull => Ok pos_zero
  | VBool b => Ok (if b then Number_of_bigint 1 else pos_zero)
  | VBigInt _ => Throw (TypeError "Cannot convert a BigInt value to a number")
  | VArray _ | VObject _ => Ok NaN
  end.

(** *** The remaining conversions *)

(** The text of a value inside [Array.prototype.join]. *)
Fixpoint element_text (v : value) : string :=
  match v with
  | VUndefined | VNull => ""
  | VBool b => if b then "true" else "false"
  | VNumber n => Number_toString n
  | VBigInt z => string_of_Z z
  | VString s => s
  | VArray l => String.concat "," (map element_text l)
  | VObject _ => "[object Object]"
  end.

Definition ToPrimitive (v : value) : result value :=
  match v with
  | VArray _ | VObject _ => Ok (VString (element_text v))
  | _ => Ok v
  end.

Definition Buffer_from_object (v : value) : result (list byte) :=
  match v with
  | VArray l =>
      Ok (map (fun e => match e with
                        | VNumber n =>
                            match truncate n with
                            | Some z => Z.to_N (z mod 256)
                            | None => 0%N
                            end
                        | _ => 0%N
                        end) l)
  | _ => Throw (TypeError "The first argument must be of type string or an instance of Buffer, ArrayBuffer, or Array or an Array-like Object")
  end.

Fixpoint find_sub (pat s : string) : option nat :=
  if String.prefix pat s then Some O
  else match s with
       | EmptyString => None
       | String _ rest => option_map S (find_sub pat rest)
       end.

Fixpoint authority (s : string) : string :=
  match s with
  | String c rest =>
      if (Ascii.eqb c "/" || Ascii.eqb c "?" || Ascii.eqb c "#")%bool then ""
      else String c (authority rest)
  | EmptyString => ""
  end.

(** The origin of an absolute URL: its scheme and its authority. *)
Definition URL_origin (u : string) : result string :=
  match find_sub "://" u with
  | Some (S i) => Ok (take (S i + 3) u ++ authority (drop (S i + 3) u))
  | _ => Throw (TypeError "Invalid URL")
  end.

Definition form_byte (c : ascii) : string :=
  if (in_range "a" "z" c || in_range "A" "Z" c || in_range "0" "9" c
      || Ascii.eqb c "*" || Ascii.eqb c "-" || Ascii.eqb c "." || Ascii.eqb c "_")%bool
  then String c ""
  else if Ascii.eqb c " " then "+"
  else
    let upper (n : N) : ascii := if (n <? 10)%N then ascii_of_N (48 + n) else ascii_of_N (55 + n) in
    String "%" (String (upper (N_of_ascii c / 16)%N) (String (upper (N_of_ascii c mod 16)%N) "")).

Fixpoint form_encode (s : string) : string :=
  match s with
  | EmptyString => ""
  | String c rest => form_byte c ++ form_encode rest
  end.

Definition URLSearchParams_toString (ps : list (string * string)) : string :=
  String.concat "&" (map (fun kv => form_encode (fst kv) ++ "=" ++ form_encode (snd kv)) ps).

Definition platform : Platform :=
  Build_Platform Date_valueOf StringToNumber ToPrimitive Buffer_from_object
                 Number_toString JSON_parse URL_origin URLSearchParams_toString.
End Node.

(** ** Vocabulary of the properties *)

(** The descriptor of an error entry. *)
Definition descriptor_of (e : value) : DevOps.DevOpsAPIErrorDescriptor :=
  {| DevOps.id := get e "ID"; DevOps.message := get e "message" |}.

(** The body of the specification's example,
    [{"errors":[{"ID":1,"message":"bad"},{"ID":2}]}]. *)
Definition example_error_body : string :=
  "{" ++ String dquote "errors" ++ String dquote ":[{" ++ String dquote "ID"
    ++ String dquote ":1," ++ String dquote "message" ++ String dquote ":"
    ++ String dquote "bad" ++ String dquote "},{" ++ String dquote "ID"
    ++ String dquote ":2}]}".

Definition example_error_response : DevOps.GuaranteedAPIResponse :=
  {| DevOps.g_data := match Node.JSON_parse example_error_body with
                      | Some d => d
                      | None => VUndefined
                      end;
     DevOps.g_status := 409 |}.

Definition example_error_entries : list value :=
  [VObject [("ID", VNumber (Number_of_bigint 1)); ("message", VString "bad")];
   VObject [("ID", VNumber (Number_of_bigint 2))]].

(** A database record of the lifecycle test, after [createNamespace]. *)
Definition example_database : DevOps.FullDatabaseInfo :=
  {| DevOps.db_id := "a6a1d8d6-31bc-4af8-be57-377566f345bf";
     DevOps.db_status := "ACTIVE";
     DevOps.info := {| DevOps.info_name := "astra-test-db";
                       DevOps.cloudProvider := "GCP";
                       DevOps.region := "us-east1";
                       DevOps.keyspace := Some "my_namespace";
                       DevOps.additionalKeyspaces := Some ["other_namespace"] |} |}.

(** The stream of an exchange has no listener left. *)
Definition listeners_cleared (x : Http2.Exchange) : Prop :=
  match Http2.ex_stream x with
  | Some req => Http2.stream_listeners req = []
  | None => True
  end.

(** [text] occurs in [message]. *)
Definition contains (message text : string) : Prop :=
  exists before after, message = before ++ text ++ after.

(** The depth of a document. *)
Fixpoint height (v : value) : nat :=
  match v with
  | VArray l => S (fold_right (fun e n => Nat.max (height e) n) O l)
  | VObject props => S (fold_right (fun kv n => Nat.max (let '(_, e) := kv in height e) n) O props)
  | _ => O
  end.

(** The serializer of a request: [serializeCommand] on the reference
    platform, with fuel for the depth of the document. *)
Definition example_serializer (d : value) : result string :=
  match @serializeCommand Node.platform (S (height d)) d false with
  | Some (Ok (Some text)) => Ok text
  | Some (Throw e) => Throw e
  | _ => Throw (TypeError "The chunk argument must be of type string")
  end.

(** A strategy as its constructor leaves it, and a [findOne] request. *)
Definition example_strategy : Http2.HTTP2Strategy :=
  {| Http2.origin := "https://db-region.apps.astra.datastax.com";
     Http2.closed := false; Http2.session := 0%nat |}.

Definition example_heap : Http2.heap :=
  [{| Http2.session_origin := "https://db-region.apps.astra.datastax.com";
      Http2.session_closed := false;
      Http2.session_handlers := ["error"; "socketError"] |}].

Definition example_info : Http2.InternalHTTPRequestInfo :=
  {| Http2.url := "https://db-region.apps.astra.datastax.com/api/json/v1/ks/users";
     Http2.data := VObject [("findOne", VObject [("filter", VObject [])])];
     Http2.timeout := 30000;
     Http2.method := "POST";
     Http2.params := Some [];
     Http2.token := "AstraCS:token";
     Http2.userAgent := "astra-db-ts/1.0.0";
     Http2.serializer := example_serializer |}.

(** The exchange [x], had its stream been opened on session [s]. *)
Definition on_session (s : nat) (x : Http2.Exchange) : Http2.Exchange :=
  {| Http2.ex_info := Http2.ex_info x; Http2.ex_promise := Http2.ex_promise x;
     Http2.ex_timer := Http2.ex_timer x;
     Http2.ex_stream :=
       option_map (fun req =>
                     {| Http2.stream_session := s;
                        Http2.stream_headers := Http2.stream_headers req;
                        Http2.stream_written := Http2.stream_written req;
                        Http2.stream_ended := Http2.stream_ended req;
                        Http2.stream_encoding := Http2.stream_encoding req;
                        Http2.stream_listeners := Http2.stream_listeners req |})
                  (Http2.ex_stream x);
     Http2.ex_status := Http2.ex_status x;
     Http2.ex_responseBody := Http2.ex_responseBody x |}.

(** The message of the error for a body that is not JSON. *)
Definition parse_error_message (body : string) : string :=
  "Unable to parse response as JSON, got: " ++ String dquote "" ++ body ++ String dquote "".

(** The text of the chunks of a response, one after the other. *)
Definition chunks_text (chunks : list string) : string := fold_right String.append "" chunks.

(** *** The observable value of a document *)

Definition is_lower_hex (c : ascii) : bool :=
  (in_range "0" "9" c || in_range "a" "f" c)%bool.

Fixpoint all_chars (p : ascii -> bool) (s : string) : bool :=
  match s with
  | EmptyString => true
  | String c rest => (p c && all_chars p rest)%bool
  end.

(** The bytes that a string of hexadecimal digits spells, two digits a
    byte. *)
Fixpoint bytes_of_hex (s : string) : option (list byte) :=
  match s with
  | EmptyString => Some []
  | String a (String b rest) =>
      match Node.hex_value a, Node.hex_value b, bytes_of_hex rest with
      | Some x, Some y, Some bs => Some ((x * 16 + y)%N :: bs)
      | _, _, _ => None
      end
  | String _ EmptyString => None
  end.

(** The text of a 16-byte identifier: the lowercase hexadecimal digits of
    its bytes, in groups of 4, 2, 2, 2 and 6 bytes with a hyphen between
    two groups. *)
Definition uuid_text (bs : list byte) : string :=
  Buffer_toString_hex (firstn 4 bs) ++ "-"
    ++ Buffer_toString_hex (firstn 2 (skipn 4 bs)) ++ "-"
    ++ Buffer_toString_hex (firstn 2 (skipn 6 bs)) ++ "-"
    ++ Buffer_toString_hex (firstn 2 (skipn 8 bs)) ++ "-"
    ++ Buffer_toString_hex (skipn 10 bs).

(** The keys by which the serializer tags a value that is not JSON. *)
Definition reserved (k : string) : bool :=
  (String.eqb k "$oid" || String.eqb k "$numberDecimal"
   || String.eqb k "$binary" || String.eqb k "$date")%bool.

(** A tagged value is an object with one property, of a reserved key. *)
Definition tag_of (props : list (string * value)) : option (string * value) :=
  match props with
  | [(k, x)] => if reserved k then Some (k, x) else None
  | _ => None
  end.

(** The payload of a binary identifier: [{base64: b, subType: "03" | "04"}]. *)
Definition identifier_payload (x : value) : option string :=
  match x with
  | VObject [(k1, VString b); (k2, VString t)] =>
      if (String.eqb k1 "base64" && String.eqb k2 "subType"
          && (String.eqb t "03" || String.eqb t "04"))%bool
      then Some b else None
  | _ => None
  end.

(** [JSON.stringify] without a replacer. *)
Definition no_replacer (v : value) : result value := Ok v.

(** A number of JSON: finite, not the negative zero, and a double in its
    canonical form. *)
Definition json_number (n : number) : bool :=
  match n with
  | S754_zero s => negb s
  | S754_finite _ m e => bounded prec emax m e
  | _ => false
  end.

Fixpoint distinct (ks : list string) : bool :=
  match ks with
  | [] => true
  | k :: rest => (negb (existsb (String.eqb k) rest) && distinct rest)%bool
  end.

(** A value of JSON: [null], a boolean, a string, a number of JSON, an
    array of values of JSON, an object of them whose keys differ. *)
Fixpoint json (v : value) : bool :=
  match v with
  | VNull | VBool _ | VString _ => true
  | VNumber n => json_number n
  | VArray l => forallb json l
  | VObject props =>
      (distinct (map fst props)
       && forallb (fun kv => let '(_, e) := kv in json e) props)%bool
  | _ => false
  end.

(** The document that the first pass of [EJSON.stringify] makes of a
    document of the round trip: its large integers are numbers. *)
Fixpoint wire (v : value) : value :=
  match v with
  | VBigInt z => VNumber (Number_of_bigint z)
  | VArray l => VArray (map wire l)
  | VObject props =>
      match tag_of props with
      | Some _ => v
      | None => VObject (map (fun kv => let '(k, e) := kv in (k, wire e)) props)
      end
  | _ => v
  end.

Section Observable.
Context {P : Platform}.

(** What section 4.1 of the specification makes of a tagged value. *)
Definition observable_tagged (k : string) (x : value) (v : value) : value :=
  if String.eqb k "$oid" then x
  else if String.eqb k "$numberDecimal" then
    match x with
    | VString d => VNumber (StringToNumber d)
    | _ => v
    end
  else if String.eqb k "$binary" then
    match identifier_payload x with
    | Some b => VString (uuid_text (Buffer_from_base64 b))
    | None => v
    end
  else
    match Date_valueOf x with
    | Ok d => VObject [("$date", VNumber d)]
    | Throw _ => v
    end.

(** The observable value of a document: a large integer is the number
    nearest to it, a tagged value is what [observable_tagged] says, the
    rest is as it is. *)
Fixpoint observable (v : value) : value :=
  match v with
  | VBigInt z => VNumber (Number_of_bigint z)
  | VArray l => VArray (map observable l)
  | VObject props =>
      match tag_of props with
      | Some (k, x) => observable_tagged k x v
      | None => VObject (map (fun kv => let '(k, e) := kv in (k, observable e)) props)
      end
  | _ => v
  end.

Definition supported_tagged (k : string) (x : value) : bool :=
  if String.eqb k "$oid" then
    match x with
    | VString s => negb (String.eqb s "")
    | _ => false
    end
  else if String.eqb k "$numberDecimal" then
    match x with
    | VString d => (negb (String.eqb d "") && json_number (StringToNumber d))%bool
    | _ => false
    end
  else if String.eqb k "$binary" then
    match identifier_payload x with
    | Some b => Nat.eqb (List.length (Buffer_from_base64 b)) 16
    | None => false
    end
  else
    match x with
    | VString t =>
        (negb (String.eqb t "")
         && match Date_valueOf x with
            | Ok d => json_number d
            | Throw _ => false
            end)%bool
    | _ => false
    end.

(** The documents of the round trip: [null], booleans, strings, numbers
    of JSON, large integers below [limit] in magnitude, identifiers,
    decimals that read as a number of JSON and dates that can be read, in
    their tagged form, and arrays and objects of these; the keys of a plain
    object differ from each other, and none of them is reserved or
    [_bsontype]. *)
Fixpoint supported (limit : Z) (v : value) : bool :=
  match v with
  | VUndefined => false
  | VNull | VBool _ | VString _ => true
  | VNumber n => json_number n
  | VBigInt z => Z.abs z <? limit
  | VArray l => forallb (supported limit) l
  | VObject props =>
      match tag_of props with
      | Some (k, x) => supported_tagged k x
      | None =>
          (distinct (map fst props)
           && forallb (fun kv => let '(k, e) := kv in
                                 (negb (reserved k) && negb (String.eqb k "_bsontype")
                                  && supported limit e)%bool)
                      props)%bool
      end
  end.

(** [agrees v j]: the JSON value [j] is the observable value of [v]. *)
Inductive agrees : value -> value -> Prop :=
| agrees_null : agrees VNull VNull
| agrees_bool b : agrees (VBool b) (VBool b)
| agrees_string s : agrees (VString s) (VString s)
| agrees_number n : agrees (VNumber n) (VNumber n)
| agrees_bigint z n : number_to_Z n = Some z -> agrees (VBigInt z) (VNumber n)
| agrees_oid s : agrees (VObject [("$oid", VString s)]) (VString s)
| agrees_decimal d :
    agrees (VObject [("$numberDecimal", VString d)]) (VNumber (StringToNumber d))
| agrees_identifier b t :
    t = "03" \/ t = "04" ->
    List.length (Buffer_from_base64 b) = 16%nat ->
    agrees (VObject [("$binary", VObject [("base64", VString b); ("subType", VString t)])])
           (VString (uuid_text (Buffer_from_base64 b)))
| agrees_date t d :
    Date_valueOf (VString t) = Ok d ->
    agrees (VObject [("$date", VString t)]) (VObject [("$date", VNumber d)])
| agrees_array l l' : Forall2 agrees l l' -> agrees (VArray l) (VArray l')
| agrees_object props props' :
    tag_of props = None ->
    Forall2 (fun a b => fst a = fst b /\ agrees (snd a) (snd b)) props props' ->
    agrees (VObject props) (VObject props').

(** [JSON.parse] reads back what [JSON.stringify] writes, without a
    replacer and with the indentation of [serializeCommand], for a value
    of JSON. *)
Definition JSON_law : Prop :=
  forall (pretty : bool) (fuel : nat) (j : value) (text : string),
    json j = true ->
    JSON_stringify no_replacer (if pretty then "  " else "") fuel j = Some (Ok (Some text)) ->
    JSON_parse text = Some j.
End Observable.

(** ** The texts that [JSON.parse] reads *)

(** What may follow a number in a text of JSON. *)
Definition number_end (rest : string) : bool :=
  match rest with
  | String c _ =>
      negb (Node.is_digit c || Ascii.eqb c "." || Ascii.eqb c "e" || Ascii.eqb c "E")
  | EmptyString => true
  end.

(** What follows a value in a text that [JSON.stringify] wrote. *)
Definition value_end (rest : string) : bool :=
  match rest with
  | String c _ =>
      (Ascii.eqb c "," || Ascii.eqb c "]" || Ascii.eqb c "}" || (N_of_ascii c =? 10)%N)%bool
  | EmptyString => true
  end.

(** The first character of a value in such a text. *)
Definition value_start (text : string) : bool :=
  match text with
  | String c _ => (negb (Node.is_ws c) && negb (Ascii.eqb c "]"))%bool
  | EmptyString => false
  end.

(** What the reader of strings makes of a character as the writer of
    strings wrote it: a byte of the text, or the code unit of an escape. *)
Definition item (c : ascii) : N + N :=
  let n := N_of_ascii c in
  if ((n <? 32) && negb ((n =? 8) || (n =? 9) || (n =? 10) || (n =? 12) || (n =? 13)))%N%bool
  then inr n else inl n.

(** [t] is a text that the reader of values reads as [e], whatever
    follows it. *)
Definition reads_value (e : value) (t : string) : Prop :=
  value_start t = true
  /\ forall (pf : nat) (rest : string),
       value_end rest = true -> (String.length t < pf)%nat ->
       Node.parse_value pf (t ++ rest) = Some (e, rest).

(** [mt] is the text of a member: its name, a colon, its value. *)
Definition reads_member (kv : string * value) (mt : string) : Prop :=
  exists t sp,
    mt = QuoteJSONString (fst kv) ++ ":" ++ sp ++ t
    /\ Node.skip_ws sp = "" /\ reads_value (snd kv) t.

(** The safe integers are below [2^53] in magnitude. *)
Definition safe_limit : Z := 2 ^ 53.

(** A command with a safe large integer, an identifier, a decimal, a date
    and plain values. *)
Definition example_command : value :=
  VObject [("insertOne", VObject [("document", VObject [
    ("_id", VObject [("$oid", VString "65f0a1b2c3d4e5f601234567")]);
    ("count", VBigInt 9007199254740991);
    ("uuid", VObject [("$binary", VObject [("base64", VString "ABEiM0RVZneImaq7zN3u/w==");
                                            ("subType", VString "04")])]);
    ("price", VObject [("$numberDecimal", VString "1.5")]);
    ("at", VObject [("$date", VString "2024-02-29T12:34:56.789Z")]);
    ("tags", VArray [VNull; VBool true; VString "a"; VNumber (Number_of_bigint 7)])])])].

(** A document with the large integer [z]. *)
Definition count_document (z : Z) : value := VObject [("count", VBigInt z)].

(** ** The HTTP client ([src/api/http-client.ts]) *)

(** The number of bytes of the white space or line terminator at the head
    of [s], [0] when there is none: the characters that
    [String.prototype.trim] removes, in UTF-8 (U+0009 to U+000D, U+0020,
    U+00A0, U+1680, U+2000 to U+200A, U+2028, U+2029, U+202F, U+205F,
    U+3000, U+FEFF). *)
Definition white_space_length (s : string) : nat :=
  match s with
  | String a rest =>
      let x := N_of_ascii a in
      if (((9 <=? x) && (x <=? 13)) || (x =? 32))%N%bool then 1%nat
      else
        match rest with
        | String b rest' =>
            let y := N_of_ascii b in
            if ((x =? 194) && (y =? 160))%N%bool then 2%nat
            else
              match rest' with
              | String c _ =>
                  let z := N_of_ascii c in
                  if (((x =? 225) && (y =? 154) && (z =? 128))
                      || ((x =? 226) && (y =? 128)
                          && (((128 <=? z) && (z <=? 138)) || (z =? 168) || (z =? 169)
                              || (z =? 175)))
                      || ((x =? 226) && (y =? 129) && (z =? 159))
                      || ((x =? 227) && (y =? 128) && (z =? 128))
                      || ((x =? 239) && (y =? 187) && (z =? 191)))%N%bool
                  then 3%nat else 0%nat
              | EmptyString => 0%nat
              end
        | EmptyString => 0%nat
        end
  | EmptyString => 0%nat
  end.

Fixpoint trim_start (fuel : nat) (s : string) : string :=
  match fuel with
  | O => s
  | S f =>
      match white_space_length s with
      | O => s
      | n => trim_start f (drop n s)
      end
  end.

(** [s.trimStart()]. *)
Definition String_trimStart (s : string) : string := trim_start (String.length s) s.

(** [s.trimEnd()]: what is white space to its end goes. *)
Fixpoint String_trimEnd (s : string) : string :=
  match s with
  | EmptyString => ""
  | String c rest =>
      if String.eqb (String_trimStart s) "" then "" else String c (String_trimEnd rest)
  end.

(** [s.trim()]. *)
Definition String_trim (s : string) : string := String_trimEnd (String_trimStart s).

Module Client.

(** A [Caller] is the pair [[name, version?]]. *)
Definition Caller : Type := (string * option string)%type.

(** The [caller] argument: absent, one caller, or a list of callers. *)
Inductive caller_option : Type :=
| NoCaller
| OneCaller (c : Caller)
| ManyCallers (cs : list Caller).

(** [c[1] ? `${c[0]}/${c[1]}` : c[0]]. *)
Definition caller_text (c : Caller) : string :=
  match snd c with
  | Some v => if String.eqb v "" then fst c else fst c ++ "/" ++ v
  | None => fst c
  end.

(** [buildUserAgent].  An empty list of callers is not a list for
    [Array.isArray(caller[0])]: it is taken for one caller without a name,
    whose text is empty, as is the text of no caller at all. *)
Definition buildUserAgent (client : string) (caller : caller_option) : string :=
  let callers :=
    match caller with
    | NoCaller => []
    | OneCaller c => [c]
    | ManyCallers cs => cs
    end in
  let callerString := String.concat " " (map caller_text callers) in
  String_trim (callerString ++ " " ++ client).

(** A request strategy object.
    Modelled from the spec: the class [HTTP1Strategy] is not among the
    sources; [close] and [closed] are optional in the contract of a
    strategy, and the simple strategy is taken to have neither. *)
Inductive HTTPRequestStrategy : Type :=
| StrategyHTTP2 (s : Http2.HTTP2Strategy)
| StrategyHTTP1 (authHeaderFactory : string).

(** [InternalHTTPClientOptions]; an absent option is [None], and
    [requestStrategy] refers to a strategy object of the world. *)
Record InternalHTTPClientOptions : Type := {
  o_baseUrl : option string;
  o_applicationToken : option string;
  o_logSkippedOptions : option bool;
  o_requestStrategy : option nat;
  o_useHttp2 : option bool;
  o_logLevel : option string;
  o_baseApiPath : option string;
  o_userAgent : option string;
  o_caller : caller_option
}.

(** What the clients share: the strategy objects, the sessions they opened,
    and the level of the logger. *)
Record World : Type := {
  strategies : list HTTPRequestStrategy;
  sessions : Http2.heap;
  log_level : option string
}.

(** [HttpClient]; [requestStrategy] refers to a strategy object of the
    world, [applicationToken] is the property under the private symbol. *)
Record HttpClient : Type := {
  baseUrl : string;
  requestStrategy : nat;
  logSkippedOptions : bool;
  userAgent : string;
  applicationToken : string
}.

(** [!s] for a string that may be absent. *)
Definition missing (s : option string) : bool :=
  match s with
  | Some t => String.eqb t ""
  | None => true
  end.

Definition or_empty (s : option string) : string :=
  match s with
  | Some t => t
  | None => ""
  end.

(** [l[i] = x]. *)
Fixpoint replace_at {A : Type} (i : nat) (x : A) (l : list A) : list A :=
  match i, l with
  | _, [] => []
  | O, _ :: rest => x :: rest
  | S i', y :: rest => y :: replace_at i' x rest
  end.

Section HttpClient.
Context {P : Platform}.

(** [typeof window !== "undefined"]. *)
Variable window_defined : bool.

(** [CLIENT_USER_AGENT] of [src/api/constants], which is not among the
    sources. *)
Variable CLIENT_USER_AGENT : string.

(** The constructor of [HttpClient]. *)
Definition HttpClient_new (options : InternalHTTPClientOptions) (w : World)
  : result (HttpClient * World) :=
  if window_defined then Throw (Error "not for use in a web browser")
  else if missing (o_baseUrl options) then Throw (Error "baseUrl required for initialization")
  else if missing (o_applicationToken options) then
    Throw (Error "applicationToken required for initialization")
  else
    let base := or_empty (o_baseUrl options) in
    chosen <-
      match o_requestStrategy options with
      | Some r => Ok (r, w)
      | None =>
          match o_useHttp2 options with
          | Some false =>
              Ok (List.length (strategies w),
                  {| strategies := (strategies w ++ [StrategyHTTP1 "DataApi"])%list;
                     sessions := sessions w; log_level := log_level w |})
          | _ =>
              made <- Http2.HTTP2Strategy_new base (sessions w) ;;
              Ok (List.length (strategies w),
                  {| strategies := (strategies w ++ [StrategyHTTP2 (fst made)])%list;
                     sessions := snd made; log_level := log_level w |})
          end
      end ;;
    let w1 := snd chosen in
    let w2 :=
      if missing (o_logLevel options) then w1
      else {| strategies := strategies w1; sessions := sessions w1;
              log_level := o_logLevel options |} in
    Ok ({| baseUrl := if missing (o_baseApiPath options) then base
                      else base ++ "/" ++ or_empty (o_baseApiPath options);
           requestStrategy := fst chosen;
           logSkippedOptions := match o_logSkippedOptions options with
                                | Some b => b
                                | None => false
                                end;
           userAgent := match o_userAgent options with
                        | Some u => u
                        | None => buildUserAgent CLIENT_USER_AGENT (o_caller options)
                        end;
           applicationToken := or_empty (o_applicationToken options) |},
        w2).

(** [close]: [this.requestStrategy.close?.()]. *)
Definition HttpClient_close (this : HttpClient) (w : World) : World :=
  match nth_error (strategies w) (requestStrategy this) with
  | Some (StrategyHTTP2 s) =>
      let '(s', h') := Http2.close s (sessions w) in
      {| strategies := replace_at (requestStrategy this) (StrategyHTTP2 s') (strategies w);
         sessions := h'; log_level := log_level w |}
  | _ => w
  end.

(** [isClosed]: [this.requestStrategy.closed]. *)
Definition isClosed (this : HttpClient) (w : World) : option bool :=
  match nth_error (strategies w) (requestStrategy this) with
  | Some (StrategyHTTP2 s) => Some (Http2.closed s)
  | _ => None
  end.

(** [isUsingHttp2]. *)
Definition isUsingHttp2 (this : HttpClient) (w : World) : bool :=
  match nth_error (strategies w) (requestStrategy this) with
  | Some (StrategyHTTP2 _) => true
  | _ => false
  end.

(** [cloneInto(cons, initialize)]. *)
Definition cloneInto {C : Type}
           (cons : InternalHTTPClientOptions -> World -> result (C * World))
           (initialize : C -> C) (this : HttpClient) (w : World) : result (C * World) :=
  made <- cons {| o_baseUrl := Some (baseUrl this);
                  o_applicationToken := Some (applicationToken this);
                  o_logSkippedOptions := Some (logSkippedOptions this);
                  o_requestStrategy := Some (requestStrategy this);
                  o_useHttp2 := None; o_logLevel := None; o_baseApiPath := None;
                  o_userAgent := Some (userAgent this);
                  o_caller := NoCaller |} w ;;
  Ok (initialize (fst made), snd made).
End HttpClient.

End Client.

(** ** Vocabulary of the further properties *)

(** Of the sessions of the heap, only the one of the strategy can be open. *)
Definition single_live (st : Http2.HTTP2Strategy * Http2.heap) : Prop :=
  (Http2.session (fst st) < List.length (snd st))%nat
  /\ forall i, i <> Http2.session (fst st) -> Http2.is_closed (snd st) i = true.

(** An event that neither ends the stream nor fails it. *)
Definition quiet (ev : Http2.event) : Prop :=
  match ev with
  | Http2.OnEnd | Http2.OnError _ => False
  | _ => True
  end.

(** An event of the stream that neither ends it nor fails it. *)
Definition flowing (ev : Http2.event) : Prop :=
  match ev with
  | Http2.OnResponse _ | Http2.OnData _ => True
  | _ => False
  end.

(** A request whose serializer throws. *)
Definition failing_info : Http2.InternalHTTPRequestInfo :=
  {| Http2.url := "https://db-region.apps.astra.datastax.com/api/json/v1/ks/users";
     Http2.data := VObject [("_id", VObject [("$binary", VObject [("subType", VString "04")])])];
     Http2.timeout := 30000;
     Http2.method := "POST";
     Http2.params := None;
     Http2.token := "AstraCS:token";
     Http2.userAgent := "astra-db-ts/1.0.0";
     Http2.serializer := example_serializer |}.

(** A response whose list of errors has a hole. *)
Definition broken_error_response : DevOps.GuaranteedAPIResponse :=
  {| DevOps.g_data :=
       VObject [("errors", VArray [VObject [("ID", VNumber (Number_of_bigint 1));
                                            ("message", VString "bad")];
                                   VNull])];
     DevOps.g_status := 500 |}.

(** A response whose only message is a number. *)
Definition numeric_error_response : DevOps.GuaranteedAPIResponse :=
  {| DevOps.g_data :=
       VObject [("errors", VArray [VObject [("ID", VNumber (Number_of_bigint 7));
                                            ("message", VNumber (Number_of_bigint 5))]])];
     DevOps.g_status := 400 |}.

(** A response without a body. *)
Definition empty_error_response : DevOps.GuaranteedAPIResponse :=
  {| DevOps.g_data := VUndefined; DevOps.g_status := 502 |}.

(** A database configuration with a namespace. *)
Definition example_config : list (string * value) :=
  [("name", VString "astra-test-db"); ("cloudProvider", VString "GCP");
   ("region", VString "us-east1"); ("namespace", VString "my_namespace")].

(** A document of JSON as it is: no [undefined], no large integer, no
    number that is not finite, and no property of a reserved key or of the
    key [_bsontype]. *)
Fixpoint plain (v : value) : bool :=
  match v with
  | VUndefined | VBigInt _ => false
  | VNumber n => is_finite n
  | VArray l => forallb plain l
  | VObject props =>
      forallb (fun kv => let '(k, e) := kv in
                         (negb (reserved k) && negb (String.eqb k "_bsontype") && plain e)%bool)
              props
  | _ => true
  end.

(** A document of JSON. *)
Definition plain_document : value :=
  VObject [("find", VObject [("filter", VObject [("name", VString "a"); ("age", VNull)]);
                             ("options", VObject [("limit", VNumber (Number_of_bigint 20));
                                                  ("ids", VArray [VNull; VArray []; VBool false])])])].

(** A visible character of ASCII. *)
Definition visible (c : ascii) : bool :=
  ((33 <=? N_of_ascii c) && (N_of_ascii c <=? 126))%N%bool.

Definition first_visible (s : string) : bool :=
  match s with
  | String c _ => visible c
  | EmptyString => false
  end.

Fixpoint last_visible (s : string) : bool :=
  match s with
  | EmptyString => false
  | String c EmptyString => visible c
  | String _ rest => last_visible rest
  end.

(** The options of a client of the Data API, and a world without
    strategies. *)
Definition example_options : Client.InternalHTTPClientOptions :=
  {| Client.o_baseUrl := Some "https://db-region.apps.astra.datastax.com";
     Client.o_applicationToken := Some "AstraCS:token";
     Client.o_logSkippedOptions := None;
     Client.o_requestStrategy := None;
     Client.o_useHttp2 := None;
     Client.o_logLevel := None;
     Client.o_baseApiPath := Some "api/json/v1";
     Client.o_userAgent := None;
     Client.o_caller := Client.OneCaller ("my-app", Some "1.2.0") |}.

Definition empty_world : Client.World :=
  {| Client.strategies := []; Client.sessions := []; Client.log_level := None |}.

(** The client of [example_options] in [empty_world], and the world it
    leaves. *)
Definition example_client : Client.HttpClient :=
  {| Client.baseUrl := "https://db-region.apps.astra.datastax.com/api/json/v1";
     Client.requestStrategy := 0;
     Client.logSkippedOptions := false;
     Client.userAgent := "my-app/1.2.0 astra-db-ts/1.0.0";
     Client.applicationToken := "AstraCS:token" |}.

Definition example_world : Client.World :=
  {| Client.strategies := [Client.StrategyHTTP2 example_strategy];
     Client.sessions := example_heap; Client.log_level := None |}.

(** An [initialize] that sets the base URL of the clone, as the one of the
    constructor of [AstraDbAdmin] does. *)
Definition to_devops (c : Client.HttpClient) : Client.HttpClient :=
  {| Client.baseUrl := "https://api.astra.datastax.com/v2";
     Client.requestStrategy := Client.requestStrategy c;
     Client.logSkippedOptions := Client.logSkippedOptions c;
     Client.userAgent := Client.userAgent c;
     Client.applicationToken := Client.applicationToken c |}.

(** * Properties *)

(** ** DevOps errors *)

Section ErrorExtraction.
Import DevOps.
Context {P : Platform}.

Lemma member_defined (e : value) (k : string) :
  nullish e = false -> member e k = Ok (get e k).
Proof. destruct e; simpl; intros H; try discriminate; reflexivity. Qed.

Lemma map_descriptors_defined (es : list value) :
  Forall (fun e => nullish e = false) es ->
  map_descriptors es = Ok (map descriptor_of es).
Proof.
  induction 1 as [|e es He _ IH]; simpl; [reflexivity|].
  rewrite !(member_defined _ _ He). simpl. rewrite IH. reflexivity.
Qed.

Lemma find_with_message_defined (es : list value) :
  Forall (fun e => nullish e = false) es ->
  find_with_message es
  = Ok (match find (fun e => truthy (get e "message")) es with
        | Some e => e
        | None => VUndefined
        end).
Proof.
  induction 1 as [|e es He _ IH]; simpl; [reflexivity|].
  rewrite (member_defined _ _ He). simpl.
  destruct (truthy (get e "message")); [reflexivity | exact IH].
Qed.

Lemma truthy_not_nullish (v : value) : truthy v = true -> nullish v = false.
Proof. destruct v; simpl; intros H; try discriminate; reflexivity. Qed.

Lemma find_descriptor (es : list value) :
  find (fun d => truthy (message d)) (map descriptor_of es)
  = option_map descriptor_of (find (fun e => truthy (get e "message")) es).
Proof.
  induction es as [|e es IH]; simpl; [reflexivity|].
  destruct (truthy (get e "message")); [reflexivity | exact IH].
Qed.

(** The error of a response with a list of entries that are objects. *)
Lemma error_with_entries (resp : GuaranteedAPIResponse) (es : list value) :
  get_opt (g_data resp) "errors" = VArray es ->
  Forall (fun e => nullish e = false) es ->
  DevOpsAPIResponseError_new resp
  = Ok {| error_message :=
            match find (fun e => truthy (get e "message")) es with
            | Some e => ToString (get e "message")
            | None => "Something went wrong"
            end;
          errors := map descriptor_of es;
          status := g_status resp; name := "DevOpsAPIResponseError" |}.
Proof.
  intros Herrs Hes. unfold DevOpsAPIResponseError_new, extractErrorDescriptors.
  rewrite Herrs. cbn [nullish truthy].
  rewrite (find_with_message_defined _ Hes), (map_descriptors_defined _ Hes).
  cbn [bind]. f_equal.
  destruct (find (fun e => truthy (get e "message")) es) as [e|] eqn:Hf; [|reflexivity].
  apply find_some in Hf. destruct Hf as [Hin Ht].
  pose proof (truthy_not_nullish _ Ht) as Hn.
  assert (He : nullish e = false) by (rewrite Forall_forall in Hes; exact (Hes e Hin)).
  destruct e; try discriminate He; cbn [get_opt]; rewrite Hn; reflexivity.
Qed.

End ErrorExtraction.

Example error_example :
  @DevOps.DevOpsAPIResponseError_new Node.platform example_error_response
  = Ok {| DevOps.error_message := "bad";
          DevOps.errors :=
            [{| DevOps.id := VNumber (Number_of_bigint 1); DevOps.message := VString "bad" |};
             {| DevOps.id := VNumber (Number_of_bigint 2); DevOps.message := VUndefined |}];
          DevOps.status := 409;
          DevOps.name := "DevOpsAPIResponseError" |}.
Proof. vm_compute. reflexivity. Qed.



(** ** DevOps administration *)

Section Administration.
Import DevOps.

Lemma filter_Boolean_Some (l : list string) :
  filter Boolean (map Some l) = map Some (filter (fun s => negb (String.eqb s "")) l).
Proof.
  induction l as [|s l IH]; simpl; [reflexivity|].
  destruct (String.eqb s ""); simpl; rewrite IH; reflexivity.
Qed.

(** C10.  [listNamespaces] answers the primary keyspace, when it is there
    and not empty, followed by the non-empty additional keyspaces in their
    order; no entry of the answer is absent or empty; a record without
    keyspace and without additional keyspaces gives the empty list. *)
Theorem listNamespaces_spec (i : FullDatabaseInfo) :
  listNamespaces i
  = (match keyspace (info i) with
     | Some k => if String.eqb k "" then [] else [Some k]
     | None => []
     end
     ++ map Some (filter (fun s => negb (String.eqb s ""))
                    (match additionalKeyspaces (info i) with
                     | Some l => l
                     | None => []
                     end)))%list
  /\ Forall (fun x => exists s, x = Some s /\ s <> "") (listNamespaces i)
  /\ (keyspace (info i) = None -> additionalKeyspaces (info i) = None ->
      listNamespaces i = []).
Proof.
  split; [|split].
  - unfold listNamespaces. cbn [filter].
    rewrite filter_Boolean_Some.
    destruct (keyspace (info i)) as [k|]; cbn [Boolean]; [|reflexivity].
    destruct (String.eqb k ""); reflexivity.
  - unfold listNamespaces. apply Forall_forall. intros x Hx.
    apply filter_In in Hx. destruct Hx as [_ Hb].
    destruct x as [s|]; [|discriminate Hb].
    exists s. split; [reflexivity|]. intros ->. discriminate Hb.
  - intros Hk Ha. unfold listNamespaces. rewrite Hk, Ha. reflexivity.
Qed.

(** C4, what holds of it.  [createDatabase] polls once, for ['ACTIVE']
    through [['INITIALIZING', 'PENDING']], and [dropDatabase] polls once,
    for ['TERMINATED'] through [['TERMINATING']]; [createNamespace] and
    [dropNamespace] send their request and return without any poll. *)
Theorem namespace_operations_do_not_poll
        (resp : DevopsRequest -> value) (config : list (string * value))
        (options : value) (dbid namespace : string) :
  map (fun c => (aw_status c, aw_legal c)) (awaited resp (createDatabase config options))
  = [("ACTIVE", ["INITIALIZING"; "PENDING"])]
  /\ map (fun c => (aw_status c, aw_legal c)) (awaited resp (dropDatabase dbid options))
     = [("TERMINATED", ["TERMINATING"])]
  /\ awaited resp (createNamespace dbid namespace) = []
  /\ awaited resp (dropNamespace dbid namespace) = []
  /\ map req_method (requested resp (createNamespace dbid namespace)) = [Post]
  /\ map req_method (requested resp (dropNamespace dbid namespace)) = [Delete].
Proof. repeat split. Qed.
End Administration.

Example listNamespaces_example :
  DevOps.listNamespaces example_database = [Some "my_namespace"; Some "other_namespace"].
Proof. reflexivity. Qed.

(** ** The HTTP/2 strategy *)

Example constructor_example :
  @Http2.HTTP2Strategy_new Node.platform
    "https://db-region.apps.astra.datastax.com/api/json/v1" []
  = Ok (example_strategy, example_heap).
Proof. reflexivity. Qed.

Example request_example :
  option_map (fun req => (Http2.stream_headers req, Http2.stream_written req,
                          Http2.stream_listeners req))
             (Http2.ex_stream
                (snd (@Http2.request Node.platform example_strategy example_heap example_info)))
  = Some ({| Http2.h_path := "/api/json/v1/ks/users?"; Http2.h_method := "POST";
             Http2.h_token := "AstraCS:token";
             Http2.h_user_agent := "astra-db-ts/1.0.0" |},
          Some ("{" ++ String dquote "findOne" ++ String dquote ":{"
                  ++ String dquote "filter" ++ String dquote ":{}}}"),
          ["response"; "error"; "data"; "end"]).
Proof. vm_compute. reflexivity. Qed.

Section Strategy.
Import Http2.
Context {P : Platform}.

Lemma request_when_closed (this : HTTP2Strategy) (h : heap) (info : InternalHTTPRequestInfo) :
  closed this = true ->
  request this h info
  = (this, h,
     {| ex_info := info;
        ex_promise := Rejected (Error "Cannot make http2 request when client is closed");
        ex_timer := NoTimer;
        ex_stream := None; ex_status := 0; ex_responseBody := "" |}).
Proof. intros H. unfold request. rewrite H. reflexivity. Qed.

Lemma request_keeps_closed (this : HTTP2Strategy) (h : heap) (info : InternalHTTPRequestInfo) :
  closed (fst (fst (request this h info))) = closed this.
Proof.
  unfold request. destruct (closed this) eqn:Hc; [exact Hc|].
  destruct (is_closed h (session this)).
  - destruct (_reviveSession (origin this) (Some (session this)) h) as [s h1].
    destruct (truthy (data info)); [destruct (serializer info (data info))|]; reflexivity.
  - destruct (truthy (data info)); [destruct (serializer info (data info))|]; reflexivity.
Qed.

Lemma apply_keeps_closed (st : HTTP2Strategy * heap) (op : operation) :
  closed (fst st) = true -> closed (fst (apply st op)) = true.
Proof.
  intros H. destruct op as [info| |s]; simpl.
  - rewrite request_keeps_closed. exact H.
  - reflexivity.
  - exact H.
Qed.

Lemma apply_all_keeps_closed (ops : list operation) (st : HTTP2Strategy * heap) :
  closed (fst st) = true -> closed (fst (apply_all st ops)) = true.
Proof.
  revert st. induction ops as [|op ops IH]; intros st H; simpl; [exact H|].
  apply IH. apply apply_keeps_closed. exact H.
Qed.

(** C6.  After [close()], whatever happens next (calls of [request], of
    [close], sessions closed by the peer), the [closed] flag is [true],
    and a call of [request] gives a promise that is already rejected with
    the error of the closed client: the strategy and the sessions are as
    before, no stream is opened and no timer is set. *)
Theorem closed_is_terminal (this : HTTP2Strategy) (h : heap) (ops : list operation)
        (info : InternalHTTPRequestInfo) :
  let st := apply_all (close this h) ops in
  closed (fst st) = true
  /\ request (fst st) (snd st) info
     = (fst st, snd st,
        {| ex_info := info;
           ex_promise := Rejected (Error "Cannot make http2 request when client is closed");
           ex_timer := NoTimer; ex_stream := None; ex_status := 0;
           ex_responseBody := "" |}).
Proof.
  intros st.
  assert (Hc : closed (fst st) = true) by (apply apply_all_keeps_closed; reflexivity).
  split; [exact Hc|]. apply request_when_closed. exact Hc.
Qed.
End Strategy.

Lemma append_assoc (a b c : string) : (a ++ b) ++ c = a ++ (b ++ c).
Proof. induction a as [|ch a IH]; simpl; [reflexivity | rewrite IH; reflexivity]. Qed.

Lemma append_empty_r (a : string) : a ++ "" = a.
Proof. induction a as [|ch a IH]; simpl; [reflexivity | rewrite IH; reflexivity]. Qed.

Lemma prefix_append (a b : string) : String.prefix a (a ++ b) = true.
Proof.
  induction a as [|c a IH]; cbn; [destruct b; reflexivity|].
  destruct (ascii_dec c c) as [_|Hn]; [exact IH | contradiction].
Qed.

Lemma drop_append (a b : string) : drop (String.length a) (a ++ b) = b.
Proof. induction a as [|c a IH]; cbn; [destruct b; reflexivity | exact IH]. Qed.

Section Exchanges.
Import Http2.
Context {P : Platform}.

Lemma revive_closed (o : string) (s : nat) (h : heap) :
  is_closed h s = true -> _reviveSession o (Some s) h = connect o h.
Proof. intros H. unfold _reviveSession. rewrite H. reflexivity. Qed.

Lemma is_closed_fresh (x : ClientHttp2Session) (h : heap) :
  is_closed (h ++ [x])%list (List.length h) = session_closed x.
Proof.
  unfold is_closed. rewrite nth_error_app2 by apply Nat.le_refl.
  rewrite Nat.sub_diag. reflexivity.
Qed.

Lemma listens_on_session (s : nat) (x : Exchange) (ev : string) :
  listens (on_session s x) ev = listens x ev.
Proof. unfold listens, on_session. cbn. destruct (ex_stream x); reflexivity. Qed.

Lemma handle_on_session (s : nat) (x : Exchange) (ev : event) :
  handle (on_session s x) ev = on_session s (handle x ev).
Proof.
  destruct ev as [|st|e|chunk|]; cbn [handle].
  - cbn [on_session ex_timer]. destruct (ex_timer x); reflexivity.
  - rewrite listens_on_session. destruct (listens x "response"); reflexivity.
  - rewrite listens_on_session. destruct (listens x "error"); reflexivity.
  - rewrite listens_on_session. destruct (listens x "data"); reflexivity.
  - rewrite listens_on_session. destruct (listens x "end"); [|reflexivity].
    cbn [on_session ex_responseBody].
    destruct (JSON_parse (ex_responseBody x)); reflexivity.
Qed.

Lemma run_on_session (s : nat) (evs : list event) (x : Exchange) :
  run (on_session s x) evs = on_session s (run x evs).
Proof.
  revert x. induction evs as [|ev evs IH]; intros x; [reflexivity|].
  cbn [run fold_left]. rewrite handle_on_session. apply IH.
Qed.

Lemma request_on_session (this : HTTP2Strategy) (h h0 : heap)
      (info : InternalHTTPRequestInfo) :
  closed this = false ->
  is_closed h (session this) = true ->
  is_closed h0 (session this) = false ->
  snd (request this h info) = on_session (List.length h) (snd (request this h0 info)).
Proof.
  intros Hc Hs H0. unfold request. rewrite Hc, Hs, H0.
  rewrite (revive_closed _ _ _ Hs). unfold connect.
  destruct (truthy (data info)); [destruct (serializer info (data info))|]; reflexivity.
Qed.

(** C3.  A request on a strategy that was not closed, whose session is
    marked closed: a fresh session is opened and becomes the session of the
    strategy, the stream of the request is opened on it, and whatever the
    stream then emits, the promise settles as it would have on a session
    that was still open, with the same [{status, data}] or the same
    error. *)
Theorem closed_session_is_revived (this : HTTP2Strategy) (h : heap)
        (info : InternalHTTPRequestInfo) :
  closed this = false ->
  is_closed h (session this) = true ->
  let this' := fst (fst (request this h info)) in
  let h' := snd (fst (request this h info)) in
  let x := snd (request this h info) in
  session this' = List.length h
  /\ h' = (h ++ [{| session_origin := origin this; session_closed := false;
                   session_handlers := ["error"; "socketError"] |}])%list
  /\ is_closed h' (session this') = false
  /\ closed this' = false
  /\ (exists req, ex_stream x = Some req /\ stream_session req = session this')
  /\ (forall h0 evs, is_closed h0 (session this) = false ->
      ex_promise (run x evs) = ex_promise (run (snd (request this h0 info)) evs)).
Proof.
  intros Hc Hs. cbv zeta.
  assert (Hshape :
            fst (request this h info)
            = ({| origin := origin this; closed := false; session := List.length h |},
               (h ++ [{| session_origin := origin this; session_closed := false;
                         session_handlers := ["error"; "socketError"] |}])%list)
            /\ exists req, ex_stream (snd (request this h info)) = Some req
                           /\ stream_session req = List.length h).
  { unfold request. rewrite Hc, Hs. rewrite (revive_closed _ _ _ Hs). unfold connect.
    destruct (truthy (data info)); [destruct (serializer info (data info))|];
      (split; [reflexivity | eexists; split; reflexivity]). }
  destruct Hshape as [Hfst Hreq]. rewrite Hfst. cbn [fst snd session closed].
  repeat split; try assumption.
  - apply is_closed_fresh.
  - intros h0 evs H0.
    rewrite (request_on_session this h h0 info Hc Hs H0), run_on_session.
    reflexivity.
Qed.
End Exchanges.

(** ** The HTTP/2 strategy on the reference platform *)

Lemma closed_session_is_revived_witness :
  let h := Http2.close_at 0 example_heap in
  let r := @Http2.request Node.platform example_strategy h example_info in
  Http2.session (fst (fst r)) = 1%nat
  /\ snd (fst r)
     = (h ++ [{| Http2.session_origin := "https://db-region.apps.astra.datastax.com";
                 Http2.session_closed := false;
                 Http2.session_handlers := ["error"; "socketError"] |}])%list
  /\ Http2.is_closed (snd (fst r)) (Http2.session (fst (fst r))) = false
  /\ Http2.closed (fst (fst r)) = false
  /\ (exists req, Http2.ex_stream (snd r) = Some req
                  /\ Http2.stream_session req = Http2.session (fst (fst r)))
  /\ (forall h0 evs, Http2.is_closed h0 (Http2.session example_strategy) = false ->
      Http2.ex_promise (Http2.run (P:=Node.platform) (snd r) evs)
      = Http2.ex_promise
          (Http2.run (P:=Node.platform) (snd (@Http2.request Node.platform example_strategy h0 example_info)) evs)).
Proof.
  exact (@closed_session_is_revived Node.platform example_strategy
           (Http2.close_at 0 example_heap) example_info eq_refl eq_refl).
Defined.

Section Settling.
Import Http2.
Context {P : Platform}.

Lemma request_sent (this : HTTP2Strategy) (h : heap) (info : InternalHTTPRequestInfo) :
  closed this = false ->
  ex_promise (snd (request this h info)) = Pending ->
  exists s w,
    snd (request this h info)
    = listening info (stream_write w (session_request s (request_headers this info))).
Proof.
  intros Hc. unfold request. rewrite Hc.
  destruct (if is_closed h (session this) then _ else _) as [s h1].
  destruct (truthy (data info)).
  - destruct (serializer info (data info)) as [text|e]; cbn [snd ex_promise].
    + intros _. exists s, (Some text). reflexivity.
    + discriminate.
  - intros _. exists s, None. reflexivity.
Qed.

Lemma handle_info (x : Exchange) (ev : event) : ex_info (handle x ev) = ex_info x.
Proof.
  destruct ev; cbn [handle];
    repeat match goal with
           | |- context [match ?c with _ => _ end] => destruct c
           end; reflexivity.
Qed.

Lemma handle_stream (x : Exchange) (ev : event) : ex_stream (handle x ev) = ex_stream x.
Proof.
  destruct ev; cbn [handle];
    repeat match goal with
           | |- context [match ?c with _ => _ end] => destruct c
           end; reflexivity.
Qed.

Lemma run_stream (evs : list event) (x : Exchange) : ex_stream (run x evs) = ex_stream x.
Proof.
  revert x. induction evs as [|ev evs IH]; intros x; [reflexivity|].
  cbn [run fold_left]. fold (run (handle x ev) evs). rewrite IH. apply handle_stream.
Qed.

Lemma run_info (evs : list event) (x : Exchange) : ex_info (run x evs) = ex_info x.
Proof.
  revert x. induction evs as [|ev evs IH]; intros x; [reflexivity|].
  cbn [run fold_left]. fold (run (handle x ev) evs). rewrite IH. apply handle_info.
Qed.

(** A settled promise stays as it is. *)
Lemma handle_settled (x : Exchange) (ev : event) :
  ex_promise x <> Pending -> ex_promise (handle x ev) = ex_promise x.
Proof.
  intros H. destruct ev; cbn [handle];
    repeat match goal with
           | |- context [match ?c with _ => _ end] => destruct c
           end; cbn [with_promise ex_promise]; try reflexivity;
    destruct (ex_promise x); try reflexivity; contradiction.
Qed.

Lemma run_settled (evs : list event) (x : Exchange) :
  ex_promise x <> Pending -> ex_promise (run x evs) = ex_promise x.
Proof.
  revert x. induction evs as [|ev evs IH]; intros x H; [reflexivity|].
  cbn [run fold_left]. fold (run (handle x ev) evs).
  rewrite IH; rewrite (handle_settled _ _ H); [reflexivity | exact H].
Qed.

Lemma clearTimeout_not_armed (t : timer_state) : clearTimeout t <> Armed.
Proof. destruct t; discriminate. Qed.

(** While the timer is armed nothing has settled the promise. *)
Lemma handle_armed (x : Exchange) (ev : event) :
  ex_timer (handle x ev) = Armed ->
  ex_timer x = Armed /\ ex_promise (handle x ev) = ex_promise x.
Proof.
  destruct ev; cbn [handle];
    repeat match goal with
           | |- context [match ?c with _ => _ end] => destruct c eqn:?
           end; cbn [with_promise ex_timer ex_promise]; intros H;
    try (split; [assumption | reflexivity]);
    try discriminate H;
    try (exfalso; exact (clearTimeout_not_armed _ H));
    congruence.
Qed.

Lemma run_armed (evs : list event) (x : Exchange) :
  (ex_timer x = Armed -> ex_promise x = Pending) ->
  ex_timer (run x evs) = Armed -> ex_promise (run x evs) = Pending.
Proof.
  revert x. induction evs as [|ev evs IH]; intros x Hx; [exact Hx|].
  cbn [run fold_left]. fold (run (handle x ev) evs). apply IH.
  intros H. destruct (handle_armed _ _ H) as [Ht Hp]. rewrite Hp. exact (Hx Ht).
Qed.

(** C2, as the code has it.  For a request that was sent: when its timer
    fires (it is still armed: no [response], [error] or [end] came
    before), the promise is rejected with [DataAPITimeout] of the body and
    the timeout of the request; whatever the stream emits afterwards, the
    promise keeps that rejection; the stream keeps its four listeners. *)
Theorem timeout_rejects_once (this : HTTP2Strategy) (h : heap)
        (info : InternalHTTPRequestInfo) (before later : list event) :
  closed this = false ->
  let x := snd (request this h info) in
  ex_promise x = Pending ->
  ex_timer (run x before) = Armed ->
  let y := handle (run x before) TimerFires in
  ex_promise y = Rejected (DataAPITimeout (data info) (timeout info))
  /\ ex_timer y = Fired
  /\ ex_promise (run y later) = Rejected (DataAPITimeout (data info) (timeout info))
  /\ exists req, ex_stream (run y later) = Some req
                 /\ stream_listeners req = ["response"; "error"; "data"; "end"].
Proof.
  intros Hc x Hp Ht y.
  destruct (request_sent this h info Hc Hp) as (s & w & Hx).
  fold x in Hx.
  assert (Hpend : ex_promise (run x before) = Pending).
  { apply run_armed; [|exact Ht]. intros _. exact Hp. }
  assert (Hy : ex_promise y = Rejected (DataAPITimeout (data info) (timeout info))).
  { unfold y. cbn [handle]. rewrite Ht. cbn [with_promise ex_promise].
    rewrite Hpend, run_info. rewrite Hx. reflexivity. }
  split; [exact Hy|]. split.
  { unfold y. cbn [handle]. rewrite Ht. reflexivity. }
  split.
  { rewrite run_settled; [exact Hy|]. rewrite Hy. discriminate. }
  rewrite run_stream. unfold y. rewrite handle_stream, run_stream, Hx.
  eexists. split; reflexivity.
Qed.

Lemma run_data (chunks : list string) (x : Exchange) :
  listens x "data" = true ->
  ex_responseBody (run x (map OnData chunks)) = ex_responseBody x ++ chunks_text chunks
  /\ ex_promise (run x (map OnData chunks)) = ex_promise x
  /\ ex_status (run x (map OnData chunks)) = ex_status x.
Proof.
  revert x. induction chunks as [|c chunks IH]; intros x Hl.
  - cbn. rewrite append_empty_r. repeat split.
  - cbn [map run fold_left]. fold (run (handle x (OnData c)) (map OnData chunks)).
    assert (Hl' : listens (handle x (OnData c)) "data" = true).
    { unfold listens. rewrite handle_stream. exact Hl. }
    destruct (IH _ Hl') as (Hb & Hp & Hs). rewrite Hb, Hp, Hs.
    cbn [handle]. rewrite Hl. cbn [ex_responseBody ex_promise ex_status chunks_text fold_right].
    rewrite append_assoc. repeat split.
Qed.

(** C7.  A request that was sent and whose exchange completes (the
    response starts, chunks arrive, the stream ends) with a body that
    [JSON.parse] refuses is rejected with an [Error] whose message holds
    the body as it was received; and the listener of [end] of a pending
    promise never fulfils it on such a body. *)
Theorem malformed_body_rejects (this : HTTP2Strategy) (h : heap)
        (info : InternalHTTPRequestInfo) (st : option Z) (chunks : list string) :
  closed this = false ->
  let x := snd (request this h info) in
  ex_promise x = Pending ->
  JSON_parse (chunks_text chunks) = None ->
  ex_promise (run x (OnResponse st :: map OnData chunks ++ [OnEnd])%list)
  = Rejected (Error (parse_error_message (chunks_text chunks)))
  /\ contains (parse_error_message (chunks_text chunks)) (chunks_text chunks)
  /\ (forall z : Exchange,
        listens z "end" = true -> ex_promise z = Pending ->
        JSON_parse (ex_responseBody z) = None ->
        ex_promise (handle z OnEnd)
        = Rejected (Error (parse_error_message (ex_responseBody z)))).
Proof.
  intros Hc x Hp Hbad.
  destruct (request_sent this h info Hc Hp) as (s & w & Hx).
  fold x in Hx.
  assert (Hend : forall z, listens z "end" = true -> ex_promise z = Pending ->
                           JSON_parse (ex_responseBody z) = None ->
                           ex_promise (handle z OnEnd)
                           = Rejected (Error (parse_error_message (ex_responseBody z)))).
  { intros z Hl Hz Hj. cbn [handle]. rewrite Hl, Hj. cbn [with_promise ex_promise].
    rewrite Hz. reflexivity. }
  split; [|split; [|exact Hend]].
  - cbn [run fold_left]. rewrite fold_left_app. cbn [fold_left].
    set (x1 := handle x (OnResponse st)).
    fold (run x1 (map OnData chunks)).
    assert (Hl1 : listens x1 "data" = true).
    { unfold listens, x1. rewrite handle_stream, Hx. reflexivity. }
    destruct (run_data chunks x1 Hl1) as (Hb & Hpr & _).
    assert (Hb1 : ex_responseBody x1 = "") by (unfold x1; rewrite Hx; reflexivity).
    assert (Hp1 : ex_promise x1 = Pending) by (unfold x1; rewrite Hx; reflexivity).
    rewrite Hb1 in Hb. cbn [String.append] in Hb.
    rewrite Hend.
    + rewrite Hb. reflexivity.
    + unfold listens. rewrite run_stream. unfold x1. rewrite handle_stream, Hx. reflexivity.
    + rewrite Hpr. exact Hp1.
    + rewrite Hb. exact Hbad.
  - unfold contains, parse_error_message.
    exists ("Unable to parse response as JSON, got: " ++ String dquote ""), (String dquote "").
    rewrite append_assoc. reflexivity.
Qed.
End Settling.

(** The timer fires at once; the response comes late. *)
Lemma timeout_rejects_once_witness :
  let x := snd (@Http2.request Node.platform example_strategy example_heap example_info) in
  let y := Http2.handle (P:=Node.platform) x Http2.TimerFires in
  let late := Http2.run (P:=Node.platform) y [Http2.OnResponse (Some 200); Http2.OnData "{}"; Http2.OnEnd] in
  Http2.ex_promise y = Http2.Rejected (DataAPITimeout (Http2.data example_info) 30000)
  /\ Http2.ex_timer y = Http2.Fired
  /\ Http2.ex_promise late = Http2.Rejected (DataAPITimeout (Http2.data example_info) 30000)
  /\ exists req, Http2.ex_stream late = Some req
                 /\ Http2.stream_listeners req = ["response"; "error"; "data"; "end"].
Proof.
  exact (@timeout_rejects_once Node.platform example_strategy example_heap example_info []
           [Http2.OnResponse (Some 200); Http2.OnData "{}"; Http2.OnEnd]
           eq_refl eq_refl eq_refl).
Defined.

(** C2 as it is stated fails: when the timer of the example request fires,
    the promise is rejected with the timeout error, and the stream still has
    its four listeners. *)
Lemma timeout_leaves_listeners :
  Http2.ex_promise
    (Http2.handle (P:=Node.platform) (snd (@Http2.request Node.platform example_strategy example_heap example_info))
                  Http2.TimerFires)
  = Http2.Rejected (DataAPITimeout (Http2.data example_info) 30000)
  /\ ~ listeners_cleared
        (Http2.handle (P:=Node.platform)
           (snd (@Http2.request Node.platform example_strategy example_heap example_info))
           Http2.TimerFires).
Proof.
  split; [reflexivity|]. unfold listeners_cleared. cbn. discriminate.
Qed.

(** An empty body, and a body that is a page of HTML. *)
Lemma malformed_body_rejects_witness :
  let x := snd (@Http2.request Node.platform example_strategy example_heap example_info) in
  (Http2.ex_promise (Http2.run (P:=Node.platform) x [Http2.OnResponse (Some 200); Http2.OnEnd])
   = Http2.Rejected (Error (parse_error_message ""))
   /\ contains (parse_error_message "") ""
   /\ (forall z : Http2.Exchange,
         Http2.listens z "end" = true -> Http2.ex_promise z = Http2.Pending ->
         Node.JSON_parse (Http2.ex_responseBody z) = None ->
         Http2.ex_promise (@Http2.handle Node.platform z Http2.OnEnd)
         = Http2.Rejected (Error (parse_error_message (Http2.ex_responseBody z)))))
  /\ Http2.ex_promise
       (Http2.run (P:=Node.platform) x [Http2.OnResponse (Some 502); Http2.OnData "<html>"; Http2.OnData "</html>";
                     Http2.OnEnd])
     = Http2.Rejected (Error (parse_error_message "<html></html>")).
Proof.
  split.
  - exact (@malformed_body_rejects Node.platform example_strategy example_heap example_info
             (Some 200) [] eq_refl eq_refl eq_refl).
  - exact (proj1 (@malformed_body_rejects Node.platform example_strategy example_heap
                    example_info (Some 502) ["<html>"; "</html>"] eq_refl eq_refl eq_refl)).
Defined.

(** ** The codec: identifiers *)

Lemma unbase64_bound (c : ascii) (d : N) : unbase64 c = Some d -> (d < 64)%N.
Proof.
  unfold unbase64, in_range.
  change (N_of_ascii "A") with 65%N. change (N_of_ascii "Z") with 90%N.
  change (N_of_ascii "a") with 97%N. change (N_of_ascii "z") with 122%N.
  change (N_of_ascii "0") with 48%N. change (N_of_ascii "9") with 57%N.
  generalize (N_of_ascii c) as n. intros n.
  repeat match goal with
         | |- context [N.leb ?a ?b] => destruct (N.leb_spec a b)
         end; cbn [andb orb];
    repeat match goal with
           | |- context [if ?c then _ else _] => destruct c
           end;
    intros Hd; inversion Hd; subst; lia.
Qed.

Lemma base64_digits_bound (s : string) : Forall (fun d => (d < 64)%N) (base64_digits s).
Proof.
  induction s as [|c s IH]; cbn [base64_digits]; [constructor|].
  destruct (Ascii.eqb c "="); [constructor|].
  destruct (unbase64 c) as [d|] eqn:Hd; [|exact IH].
  constructor; [exact (unbase64_bound _ _ Hd) | exact IH].
Qed.

Lemma sextets_to_bytes (a b : N) :
  (a < 64)%N -> (b < 64)%N ->
  (a * 4 + b / 16 < 256 /\ (a mod 16) * 16 + b / 4 < 256 /\ (a mod 4) * 64 + b < 256)%N.
Proof.
  intros Ha Hb.
  assert (b / 16 < 4)%N by (apply N.Div0.div_lt_upper_bound; lia).
  assert (b / 4 < 16)%N by (apply N.Div0.div_lt_upper_bound; lia).
  assert (a mod 16 < 16)%N by (apply N.mod_lt; lia).
  assert (a mod 4 < 4)%N by (apply N.mod_lt; lia).
  lia.
Qed.

Lemma base64_bytes_bound_aux (n : nat) :
  forall ds, (List.length ds <= n)%nat ->
             Forall (fun d => (d < 64)%N) ds ->
             Forall (fun x => (x < 256)%N) (base64_bytes ds).
Proof.
  induction n as [|n IH]; intros ds Hlen Hds.
  - destruct ds; [constructor | cbn in Hlen; lia].
  - destruct ds as [|a [|b [|c [|d rest]]]]; cbn [base64_bytes]; try constructor.
    + inversion Hds as [|? ? Ha Hr]; subst. inversion Hr as [|? ? Hb _]; subst.
      apply (sextets_to_bytes a b Ha Hb).
    + constructor.
    + inversion Hds as [|? ? Ha Hr]; subst. inversion Hr as [|? ? Hb _]; subst.
      apply (sextets_to_bytes a b Ha Hb).
    + inversion Hds as [|? ? Ha Hr]; subst. inversion Hr as [|? ? Hb Hr']; subst.
      inversion Hr' as [|? ? Hc _]; subst.
      constructor; [apply (sextets_to_bytes b c Hb Hc) | constructor].
    + inversion Hds as [|? ? Ha Hr]; subst. inversion Hr as [|? ? Hb _]; subst.
      apply (sextets_to_bytes a b Ha Hb).
    + inversion Hds as [|? ? Ha Hr]; subst. inversion Hr as [|? ? Hb Hr']; subst.
      inversion Hr' as [|? ? Hc Hr'']; subst. inversion Hr'' as [|? ? Hd Hrest]; subst.
      constructor; [apply (sextets_to_bytes b c Hb Hc)|].
      constructor; [apply (sextets_to_bytes c d Hc Hd)|].
      apply IH; [cbn in Hlen; lia | exact Hrest].
Qed.

(** A buffer read from base64 holds bytes. *)
Lemma Buffer_from_base64_bytes (s : string) :
  Forall (fun x => (x < 256)%N) (Buffer_from_base64 s).
Proof.
  unfold Buffer_from_base64.
  apply (base64_bytes_bound_aux (List.length (base64_digits s)));
    [apply Nat.le_refl | apply base64_digits_bound].
Qed.

Lemma nibble_cases (n : N) :
  (n < 16)%N ->
  In n [0; 1; 2; 3; 4; 5; 6; 7; 8; 9; 10; 11; 12; 13; 14; 15]%N.
Proof.
  intros H. cbn [In]. lia.
Qed.

Lemma hex_digit_lower (n : N) :
  (n < 16)%N ->
  is_lower_hex (hex_digit n) = true /\ Node.hex_value (hex_digit n) = Some n.
Proof.
  intros H. apply nibble_cases in H. cbn [In] in H.
  repeat (destruct H as [<-|H]; [split; reflexivity|]). contradiction.
Qed.

Lemma hex_of_bytes (bs : list byte) :
  Forall (fun x => (x < 256)%N) bs ->
  all_chars is_lower_hex (Buffer_toString_hex bs) = true
  /\ bytes_of_hex (Buffer_toString_hex bs) = Some bs
  /\ String.length (Buffer_toString_hex bs) = (2 * List.length bs)%nat.
Proof.
  induction 1 as [|b bs Hb _ IH]; [repeat split|].
  destruct IH as (IH1 & IH2 & IH3).
  assert (Hhi : (b / 16 < 16)%N) by (apply N.Div0.div_lt_upper_bound; lia).
  assert (Hlo : (b mod 16 < 16)%N) by (apply N.mod_lt; lia).
  destruct (hex_digit_lower _ Hhi) as [Hl1 Hv1].
  destruct (hex_digit_lower _ Hlo) as [Hl2 Hv2].
  cbn [Buffer_toString_hex all_chars bytes_of_hex String.length List.length].
  rewrite Hl1, Hl2, Hv1, Hv2, IH1, IH2, IH3. repeat split.
  - f_equal. f_equal. rewrite N.mul_comm. symmetry. apply N.div_mod. lia.
  - lia.
Qed.

(** On sixteen bytes the replacement of the code writes the text of the
    identifier. *)
Lemma uuid_replace_sixteen (bs : list byte) :
  List.length bs = 16%nat ->
  uuid_replace (Buffer_toString_hex bs) = uuid_text bs
  /\ String.length (uuid_text bs) = 36%nat
  /\ uuid_text bs
     = (let h := Buffer_toString_hex bs in
        take 8 h ++ "-" ++ take 4 (drop 8 h) ++ "-" ++ take 4 (drop 12 h) ++ "-"
          ++ take 4 (drop 16 h) ++ "-" ++ drop 20 h).
Proof.
  intros H.
  do 16 (destruct bs as [|? bs]; [discriminate H|]).
  destruct bs; [|discriminate H]. repeat split.
Qed.

Section Identifiers.
Context {P : Platform}.

Lemma handleValues_identifier (b t : string) :
  t = "03" \/ t = "04" ->
  handleValues
    (VObject [("$binary", VObject [("base64", VString b); ("subType", VString t)])])
  = Ok (VString (uuid_replace (Buffer_toString_hex (Buffer_from_base64 b)))).
Proof.
  intros Ht. unfold handleValues.
  cbn [truthy typeof jstype_eqb andb get lookup String.eqb Ascii.eqb Bool.eqb
       get_opt strict_eq_string].
  destruct Ht as [-> | ->]; reflexivity.
Qed.

(** C8.  The replacer turns [{$binary: {base64: b, subType: s}}] with [s]
    one of ["03"] and ["04"], whose base64 text decodes to 16 bytes, into
    a string of 36 characters: the 32 lowercase hexadecimal digits of the
    bytes, in groups of 8, 4, 4, 4 and 12 with a hyphen between two
    groups. *)
Theorem identifier_encoding (b t : string) :
  t = "03" \/ t = "04" ->
  List.length (Buffer_from_base64 b) = 16%nat ->
  let bs := Buffer_from_base64 b in
  let h := Buffer_toString_hex bs in
  handleValues
    (VObject [("$binary", VObject [("base64", VString b); ("subType", VString t)])])
  = Ok (VString (take 8 h ++ "-" ++ take 4 (drop 8 h) ++ "-" ++ take 4 (drop 12 h) ++ "-"
                   ++ take 4 (drop 16 h) ++ "-" ++ drop 20 h))
  /\ String.length h = 32%nat
  /\ all_chars is_lower_hex h = true
  /\ bytes_of_hex h = Some bs
  /\ String.length (take 8 h ++ "-" ++ take 4 (drop 8 h) ++ "-" ++ take 4 (drop 12 h)
                      ++ "-" ++ take 4 (drop 16 h) ++ "-" ++ drop 20 h) = 36%nat.
Proof.
  intros Ht Hlen bs h.
  destruct (uuid_replace_sixteen bs Hlen) as (Hr & Hl & Hu). fold h in Hu. cbv zeta in Hu.
  destruct (hex_of_bytes bs (Buffer_from_base64_bytes b)) as (Hlow & Hbytes & Hhl).
  fold bs in Hlen. rewrite Hlen in Hhl. fold h in Hlow, Hbytes, Hhl.
  rewrite <- Hu. repeat split; try assumption.
  rewrite (handleValues_identifier b t Ht). fold bs. rewrite Hr. reflexivity.
Qed.
End Identifiers.

Lemma identifier_encoding_witness :
  @handleValues Node.platform
    (VObject [("$binary", VObject [("base64", VString "ABEiM0RVZneImaq7zN3u/w==");
                                   ("subType", VString "04")])])
  = Ok (VString "00112233-4455-6677-8899-aabbccddeeff")
  /\ String.length "00112233445566778899aabbccddeeff" = 32%nat
  /\ all_chars is_lower_hex "00112233445566778899aabbccddeeff" = true
  /\ bytes_of_hex "00112233445566778899aabbccddeeff"
     = Some [0; 17; 34; 51; 68; 85; 102; 119; 136; 153; 170; 187; 204; 221; 238; 255]%N
  /\ String.length "00112233-4455-6677-8899-aabbccddeeff" = 36%nat.
Proof.
  exact (@identifier_encoding Node.platform "ABEiM0RVZneImaq7zN3u/w==" "04"
           (or_intror eq_refl) eq_refl).
Defined.

(** ** The codec: large integers *)

Lemma digits2_size p : digits2_pos p = Pos.size p.
Proof. induction p; simpl; congruence. Qed.

Lemma digits2_bounds p : 2 ^ (Zpos (digits2_pos p) - 1) <= Zpos p < 2 ^ Zpos (digits2_pos p).
Proof.
  rewrite digits2_size. split.
  - pose proof (Pos.size_le p) as H.
    assert (Zpos (2 ^ Pos.size p) <= Zpos p~0) by exact H.
    rewrite Pos2Z.inj_pow in H0. 
    replace (Zpos (Pos.size p)) with (Z.succ (Zpos (Pos.size p) - 1)) in H0 by lia.
    rewrite Z.pow_succ_r in H0 by lia. lia.
  - pose proof (Pos.size_gt p) as H.
    assert (Zpos p < Zpos (2 ^ Pos.size p)) by exact H.
    rewrite Pos2Z.inj_pow in H0. exact H0.
Qed.

Lemma iter_xO_value p k : Zpos (Pos.iter xO p k) = Zpos p * 2 ^ Zpos k.
Proof.
  induction k using Pos.peano_ind.
  - simpl. lia.
  - rewrite Pos.iter_succ. rewrite Pos2Z.inj_xO, IHk, Pos2Z.inj_succ, Z.pow_succ_r by lia. lia.
Qed.

Lemma iter_xO_digits p k : Zpos (digits2_pos (Pos.iter xO p k)) = Zpos (digits2_pos p) + Zpos k.
Proof.
  induction k using Pos.peano_ind.
  - simpl. lia.
  - rewrite Pos.iter_succ. cbn [digits2_pos]. rewrite Pos2Z.inj_succ, IHk. lia.
Qed.

Lemma round_aux_canonical (s : bool) (m : positive) (e : Z) :
  Zpos (digits2_pos m) = 53 -> -1074 <= e <= 971 ->
  binary_round_aux prec emax s (Zpos m) e loc_Exact = S754_finite s m e.
Proof.
  intros Hd He.
  assert (Hf : fexp prec emax (Zpos (digits2_pos m) + e) - e = 0).
  { rewrite Hd. unfold fexp, emin, prec, emax. lia. }
  unfold binary_round_aux, shr_fexp. cbn [Zdigits2 shr_record_of_loc].
  rewrite Hf. cbn [shr shr_m loc_of_shr_record round_nearest_even Zdigits2 shr_record_of_loc].
  rewrite Hf. cbn [shr shr_m].
  replace (e <=? emax - prec) with true; [reflexivity|].
  symmetry. apply Z.leb_le. unfold emax, prec. lia.
Qed.

Lemma round_exact (s : bool) (p : positive) :
  Zpos p < 2 ^ 53 ->
  exists m e, binary_round prec emax s p 0 = S754_finite s m e
              /\ e <= 0 /\ Zpos m = Zpos p * 2 ^ (- e).
Proof.
  intros Hp.
  pose proof (digits2_bounds p) as [Hlo Hhi].
  set (d := Zpos (digits2_pos p)) in *.
  assert (Hd : 1 <= d <= 53).
  { split; [unfold d; lia|].
    destruct (Z_le_gt_dec d 53) as [|Hgt]; [assumption|].
    assert (2 ^ 53 <= 2 ^ (d - 1)) by (apply Z.pow_le_mono_r; lia). lia. }
  unfold binary_round.
  assert (Hf : fexp prec emax (d + 0) = d - 53).
  { unfold fexp, emin, prec, emax. lia. }
  fold d. rewrite Hf.
  unfold shl_align.
  destruct (d - 53 - 0) as [|k|k] eqn:Hk; try lia.
  - exists p, 0. rewrite round_aux_canonical; [|fold d; lia|lia].
    split; [reflexivity|]. split; [lia|]. cbn. lia.
  - exists (Pos.iter xO p k), (d - 53).
    rewrite round_aux_canonical.
    + split; [reflexivity|]. split; [lia|].
      rewrite iter_xO_value. f_equal. f_equal. lia.
    + rewrite iter_xO_digits. fold d. lia.
    + lia.
Qed.

Lemma Number_of_bigint_safe (z : Z) :
  z <> 0 -> Z.abs z < 2 ^ 53 ->
  number_to_Z (Number_of_bigint z) = Some z /\ is_finite (Number_of_bigint z) = true.
Proof.
  intros Hz Hs. unfold Number_of_bigint, binary_normalize.
  destruct z as [|p|p]; [contradiction| |].
  - destruct (round_exact false p Hs) as (m & e & -> & He & Hm).
    split; [|reflexivity]. cbn [number_to_Z].
    destruct (Z.leb_spec 0 e).
    + replace e with 0 in * by lia. cbn [option_map]. f_equal. cbn in Hm. lia.
    + rewrite Hm. rewrite Z.mod_mul by (apply Z.pow_nonzero; lia).
      cbn [Z.eqb option_map]. f_equal. apply Z.div_mul. apply Z.pow_nonzero; lia.
  - destruct (round_exact true p Hs) as (m & e & -> & He & Hm).
    split; [|reflexivity]. cbn [number_to_Z].
    destruct (Z.leb_spec 0 e).
    + replace e with 0 in * by lia. cbn [option_map]. f_equal. cbn in Hm. lia.
    + rewrite Hm. rewrite Z.mod_mul by (apply Z.pow_nonzero; lia).
      cbn [Z.eqb option_map]. f_equal. rewrite Z.div_mul by (apply Z.pow_nonzero; lia). lia.
Qed.

(** ** The codec: the walk of the serializer *)

Section Walks.
Context {P : Platform}.

Lemma handleValues_leaf (v : value) :
  match v with VArray _ | VObject _ | VBigInt _ => False | _ => True end ->
  handleValues v = Ok v.
Proof.
  destruct v; intros H; try contradiction; try reflexivity.
  - unfold handleValues. destruct b; reflexivity.
  - unfold handleValues. cbn [typeof jstype_eqb]. rewrite !andb_false_r. reflexivity.
  - unfold handleValues. cbn [typeof jstype_eqb]. rewrite !andb_false_r. reflexivity.
Qed.

Lemma handleValues_bigint (z : Z) :
  z <> 0 -> handleValues (VBigInt z) = Ok (VNumber (Number_of_bigint z)).
Proof.
  intros Hz. unfold handleValues. cbn [truthy typeof jstype_eqb].
  apply Z.eqb_neq in Hz. rewrite Hz. reflexivity.
Qed.

Lemma handleValues_array (l : list value) : handleValues (VArray l) = Ok (VArray l).
Proof. reflexivity. Qed.

Lemma lookup_unreserved (k : string) (props : list (string * value)) :
  forallb (fun kv => negb (reserved (fst kv))) props = true ->
  reserved k = true -> lookup k props = None.
Proof.
  intros Hall Hk. induction props as [|[k' x] props IH]; [reflexivity|].
  cbn [forallb fst] in Hall. apply andb_true_iff in Hall. destruct Hall as [Hk' Hall].
  cbn [lookup]. destruct (String.eqb_spec k k') as [->|_].
  - rewrite Hk in Hk'. discriminate.
  - exact (IH Hall).
Qed.

Lemma handleValues_plain_object (props : list (string * value)) :
  forallb (fun kv => negb (reserved (fst kv))) props = true ->
  handleValues (VObject props) = Ok (VObject props).
Proof.
  intros H. unfold handleValues. cbn [truthy typeof jstype_eqb andb get].
  rewrite !(lookup_unreserved _ _ H) by reflexivity. reflexivity.
Qed.

Lemma walk_step (rep : value -> result value) (gap : string) (f : nat) (indent : string) (v : value) :
  SerializeJSONProperty rep gap (S f) indent v
  = match rep v with
    | Throw x => Some (Throw x)
    | Ok v' =>
        match v' with
        | VUndefined => Some (Ok None)
        | VNull => Some (Ok (Some "null"))
        | VBool b => Some (Ok (Some (if b then "true" else "false")))
        | VString s => Some (Ok (Some (QuoteJSONString s)))
        | VNumber n => Some (Ok (Some (if is_finite n then Number_toString n else "null")))
        | VBigInt _ => Some (Throw (TypeError "Do not know how to serialize a BigInt"))
        | VArray elems =>
            match SerializeJSONArray (SerializeJSONProperty rep gap f (indent ++ gap)) elems with
            | None => None
            | Some (Throw x) => Some (Throw x)
            | Some (Ok partial) => Some (Ok (Some (wrap gap "[" "]" indent partial)))
            end
        | VObject props =>
            match SerializeJSONObject gap (SerializeJSONProperty rep gap f (indent ++ gap)) props with
            | None => None
            | Some (Throw x) => Some (Throw x)
            | Some (Ok partial) => Some (Ok (Some (wrap gap "{" "}" indent partial)))
            end
        end
    end.
Proof. reflexivity. Qed.

Lemma array_walk (f g : value -> option (result (option string))) (l : list value) :
  Forall (fun e => exists t, f e = Some (Ok (Some t)) /\ g (observable e) = Some (Ok (Some t))) l ->
  exists partial, SerializeJSONArray f l = Some (Ok partial)
                  /\ SerializeJSONArray g (map observable l) = Some (Ok partial).
Proof.
  induction 1 as [|e l (t & Hf & Hg) _ (partial & IH1 & IH2)].
  - exists []. split; reflexivity.
  - exists (t :: partial). cbn [map SerializeJSONArray]. rewrite Hf, Hg, IH1, IH2. split; reflexivity.
Qed.

Lemma object_walk (gap : string) (f g : value -> option (result (option string)))
      (props : list (string * value)) :
  Forall (fun kv => exists t, f (snd kv) = Some (Ok (Some t))
                              /\ g (observable (snd kv)) = Some (Ok (Some t))) props ->
  exists partial,
    SerializeJSONObject gap f props = Some (Ok partial)
    /\ SerializeJSONObject gap g (map (fun kv => let '(k, e) := kv in (k, observable e)) props)
       = Some (Ok partial).
Proof.
  induction 1 as [|[k e] props (t & Hf & Hg) _ (partial & IH1 & IH2)].
  - exists []. split; reflexivity.
  - cbn [snd] in Hf, Hg. eexists. cbn [map SerializeJSONObject].
    rewrite Hf, Hg, IH1, IH2. split; reflexivity.
Qed.

Lemma height_element (e : value) (l : list value) :
  In e l -> (height e <= fold_right (fun e n => Nat.max (height e) n) O l)%nat.
Proof.
  induction l as [|a l IH]; [contradiction|]. intros [->|H]; cbn [fold_right]; [lia|].
  specialize (IH H). lia.
Qed.

Lemma height_property (kv : string * value) (props : list (string * value)) :
  In kv props ->
  (height (snd kv)
   <= fold_right (fun kv n => Nat.max (let '(_, e) := kv in height e) n) O props)%nat.
Proof.
  induction props as [|[k a] props IH]; [contradiction|].
  intros [<-|H]; cbn [fold_right snd]; [lia|].
  specialize (IH H). lia.
Qed.

Lemma tag_of_some (props : list (string * value)) (k : string) (x : value) :
  tag_of props = Some (k, x) -> props = [(k, x)] /\ reserved k = true.
Proof.
  destruct props as [|[k' x'] [|? ?]]; cbn [tag_of]; try discriminate.
  destruct (reserved k') eqn:Hr; [|discriminate]. intros H. inversion H; subst. split; [reflexivity | exact Hr].
Qed.

Lemma identifier_payload_some (x : value) (b : string) :
  identifier_payload x = Some b ->
  exists t, x = VObject [("base64", VString b); ("subType", VString t)]
            /\ (t = "03" \/ t = "04").
Proof.
  destruct x as [| | | | | | |props]; try discriminate.
  destruct props as [|[k1 v1] props]; [discriminate|].
  destruct props as [|[k2 v2] props]; [destruct v1; discriminate|].
  destruct props as [|? ?]; [|destruct v1, v2; discriminate].
  destruct v1 as [| | | | |b'| |]; destruct v2 as [| | | | |t| |];
    cbn [identifier_payload]; try discriminate.
  destruct (String.eqb_spec k1 "base64") as [->|]; cbn [andb]; [|discriminate].
  destruct (String.eqb_spec k2 "subType") as [->|]; cbn [andb]; [|discriminate].
  destruct (String.eqb_spec t "03") as [->|]; cbn [orb].
  - intros H. inversion H; subst. exists "03". split; [reflexivity | left; reflexivity].
  - destruct (String.eqb_spec t "04") as [->|]; [|discriminate].
    intros H. inversion H; subst. exists "04". split; [reflexivity | right; reflexivity].
Qed.

Lemma handleValues_oid (s : string) :
  negb (String.eqb s "") = true ->
  handleValues (VObject [("$oid", VString s)]) = Ok (VString s).
Proof.
  intros Hs. unfold handleValues.
  cbn [truthy typeof jstype_eqb andb get lookup String.eqb Ascii.eqb Bool.eqb].
  rewrite Hs. reflexivity.
Qed.

Lemma handleValues_decimal (d : string) :
  negb (String.eqb d "") = true ->
  handleValues (VObject [("$numberDecimal", VString d)]) = Ok (VNumber (StringToNumber d)).
Proof.
  intros Hd. unfold handleValues.
  cbn [truthy typeof jstype_eqb andb get lookup String.eqb Ascii.eqb Bool.eqb].
  rewrite Hd. reflexivity.
Qed.

Lemma handleValues_date (t : string) (d : number) :
  negb (String.eqb t "") = true ->
  Date_valueOf (VString t) = Ok d ->
  handleValues (VObject [("$date", VString t)]) = Ok (VObject [("$date", VNumber d)]).
Proof.
  intros Ht Hd. unfold handleValues.
  cbn [truthy typeof jstype_eqb andb get lookup String.eqb Ascii.eqb Bool.eqb
       get_opt strict_eq_string orb].
  rewrite Ht, Hd. reflexivity.
Qed.

Lemma walk_tagged (gap : string) (f : nat) (indent : string) (k : string) (x : value) :
  reserved k = true -> supported_tagged k x = true -> (1 <= f)%nat ->
  exists text,
    SerializeJSONProperty handleValues gap (S f) indent (VObject [(k, x)]) = Some (Ok (Some text))
    /\ SerializeJSONProperty no_replacer gap (S f) indent
         (observable_tagged k x (VObject [(k, x)])) = Some (Ok (Some text)).
Proof.
  intros Hr Hs Hf. unfold supported_tagged in Hs. unfold observable_tagged.
  rewrite !walk_step.
  destruct (String.eqb_spec k "$oid") as [->|Hk1].
  { destruct x as [| | | | |s| |]; try discriminate Hs.
    rewrite (handleValues_oid s Hs). cbn [no_replacer]. eexists. split; reflexivity. }
  destruct (String.eqb_spec k "$numberDecimal") as [->|Hk2].
  { destruct x as [| | | | |d| |]; try discriminate Hs.
    apply andb_true_iff in Hs. destruct Hs as [Hs _].
    rewrite (handleValues_decimal d Hs). cbn [no_replacer]. eexists. split; reflexivity. }
  destruct (String.eqb_spec k "$binary") as [->|Hk3].
  { destruct (identifier_payload x) as [b|] eqn:Hb; [|discriminate Hs].
    destruct (identifier_payload_some x b Hb) as (t & -> & Ht).
    apply Nat.eqb_eq in Hs.
    rewrite (handleValues_identifier b t Ht). cbn [no_replacer].
    destruct (uuid_replace_sixteen _ Hs) as (-> & _).
    eexists. split; reflexivity. }
  assert (k = "$date") as ->.
  { unfold reserved in Hr.
    destruct (String.eqb_spec k "$oid"); [contradiction|].
    destruct (String.eqb_spec k "$numberDecimal"); [contradiction|].
    destruct (String.eqb_spec k "$binary"); [contradiction|].
    cbn [orb] in Hr. apply String.eqb_eq. exact Hr. }
  destruct x as [| | | | |t| |]; try discriminate Hs.
  apply andb_true_iff in Hs. destruct Hs as [Ht Hd].
  destruct (Date_valueOf (VString t)) as [d|] eqn:Hdate; [|discriminate Hd].
  rewrite (handleValues_date t d Ht Hdate). cbn [no_replacer].
  destruct f as [|f']; [lia|].
  cbn [SerializeJSONObject]. rewrite !walk_step.
  rewrite handleValues_leaf by exact I. cbn [no_replacer].
  eexists. split; reflexivity.
Qed.

Lemma supported_plain_object (limit : Z) (props : list (string * value)) :
  tag_of props = None -> supported limit (VObject props) = true ->
  distinct (map fst props) = true
  /\ forallb (fun kv => negb (reserved (fst kv))) props = true
  /\ lookup "_bsontype" props = None
  /\ Forall (fun kv => supported limit (snd kv) = true) props.
Proof.
  intros Ht. cbn [supported]. rewrite Ht. clear Ht. intros H.
  apply andb_true_iff in H. destruct H as [Hd H]. split; [exact Hd|]. clear Hd.
  induction props as [|[k e] props IH]; cbn [forallb fst lookup];
    [repeat split; constructor|].
  apply andb_true_iff in H. destruct H as [H1 H2].
  apply andb_true_iff in H1. destruct H1 as [H1 He].
  apply andb_true_iff in H1. destruct H1 as [Hk Hb].
  destruct (IH H2) as (IH1 & IH2 & IH3). rewrite Hk, IH1.
  split; [reflexivity|]. split.
  - apply negb_true_iff in Hb. rewrite String.eqb_sym, Hb. exact IH2.
  - constructor; [exact He | exact IH3].
Qed.

Lemma observable_plain_object (props : list (string * value)) :
  tag_of props = None ->
  observable (VObject props)
  = VObject (map (fun kv => let '(k, e) := kv in (k, observable e)) props).
Proof. intros Ht. cbn [observable]. rewrite Ht. reflexivity. Qed.

Lemma wire_plain_object (props : list (string * value)) :
  tag_of props = None ->
  wire (VObject props) = VObject (map (fun kv => let '(k, e) := kv in (k, wire e)) props).
Proof. intros Ht. cbn [wire]. rewrite Ht. reflexivity. Qed.

Lemma asIntN_small (z : Z) : - 2 ^ 63 <= z < 2 ^ 63 -> BigInt_asIntN 64 z = z.
Proof.
  intros H. unfold BigInt_asIntN.
  change (2 ^ (64 - 1)) with (2 ^ 63).
  destruct (Z_lt_le_dec z 0) as [Hneg|Hpos].
  - assert (Hm : z mod 2 ^ 64 = z + 2 ^ 64).
    { symmetry. apply Z.mod_unique with (q := -1); lia. }
    rewrite Hm. replace (z + 2 ^ 64 <? 2 ^ 63) with false; [lia|].
    symmetry. apply Z.ltb_ge. lia.
  - rewrite Z.mod_small by lia.
    replace (z <? 2 ^ 63) with true; [reflexivity|]. symmetry. apply Z.ltb_lt. lia.
Qed.

Lemma json_number_finite (n : number) : json_number n = true -> is_finite n = true.
Proof. destruct n; cbn; intros H; try discriminate; reflexivity. Qed.

Lemma traverse_map {A B : Type} (f : A -> result B) (g : A -> B) (l : list A) :
  Forall (fun a => f a = Ok (g a)) l -> traverse f l = Ok (map g l).
Proof.
  induction 1 as [|a l Ha _ IH]; [reflexivity|].
  cbn [traverse map]. rewrite Ha. cbn [bind]. fold (traverse f l). rewrite IH. reflexivity.
Qed.

Lemma serializeArray_map (f : value -> value) (l : list value) :
  Forall (fun e => EJSON_serializeValue e = Ok (f e)) l ->
  EJSON_serializeValue (VArray l) = Ok (VArray (map f l)).
Proof.
  intros H. cbn [EJSON_serializeValue]. rewrite (traverse_map _ f l H). reflexivity.
Qed.

Lemma serializeDocument_map (f : value -> value) (props : list (string * value)) :
  lookup "_bsontype" props = None ->
  Forall (fun kv => EJSON_serializeValue (snd kv) = Ok (f (snd kv))) props ->
  EJSON_serializeValue (VObject props)
  = Ok (VObject (map (fun kv => let '(k, e) := kv in (k, f e)) props)).
Proof.
  intros Hb H. cbn [EJSON_serializeValue get]. rewrite Hb. cbn [typeof].
  rewrite (traverse_map _ (fun kv => let '(k, e) := kv in (k, f e)) props); [reflexivity|].
  apply Forall_forall. intros [k e] Hin. rewrite Forall_forall in H.
  specialize (H _ Hin). cbn [snd] in H. rewrite H. reflexivity.
Qed.

(** The first pass on a document of the round trip. *)
Lemma ejson_wire (limit : Z) :
  limit <= 2 ^ 63 ->
  forall (n : nat) (v : value),
    (height v < n)%nat -> supported limit v = true ->
    EJSON_serializeValue v = Ok (wire v).
Proof.
  intros Hlimit. induction n as [|n IH]; intros v Hh Hs; [lia|].
  destruct v as [| |b|x|z|s|l|props]; try reflexivity.
  - discriminate Hs.
  - cbn [supported] in Hs. cbn [EJSON_serializeValue wire].
    rewrite (json_number_finite x Hs). reflexivity.
  - cbn [supported] in Hs. apply Z.ltb_lt in Hs.
    cbn [EJSON_serializeValue wire]. rewrite asIntN_small by lia. reflexivity.
  - cbn [wire]. apply serializeArray_map.
    cbn [supported] in Hs. rewrite forallb_forall in Hs.
    apply Forall_forall. intros e He. apply IH; [|exact (Hs e He)].
    pose proof (height_element e l He). cbn [height] in Hh. lia.
  - destruct (tag_of props) as [[k x]|] eqn:Ht.
    + destruct (tag_of_some props k x Ht) as [-> Hr].
      cbn [supported] in Hs. rewrite Ht in Hs. cbn [wire]. rewrite Ht.
      assert (Hb : lookup "_bsontype" [(k, x)] = None).
      { cbn [lookup]. destruct (String.eqb_spec "_bsontype" k) as [<-|]; [|reflexivity].
        discriminate Hr. }
      assert (Hx : EJSON_serializeValue x = Ok x).
      { unfold supported_tagged in Hs.
        destruct (String.eqb k "$oid"); [destruct x; try discriminate Hs; reflexivity|].
        destruct (String.eqb k "$numberDecimal");
          [destruct x; try discriminate Hs; reflexivity|].
        destruct (String.eqb k "$binary");
          [|destruct x; try discriminate Hs; reflexivity].
        destruct (identifier_payload x) as [b|] eqn:Hp; [|discriminate Hs].
        destruct (identifier_payload_some x b Hp) as (t & -> & _). reflexivity. }
      rewrite (serializeDocument_map (fun e => e) [(k, x)] Hb).
      * reflexivity.
      * constructor; [exact Hx | constructor].
    + destruct (supported_plain_object limit props Ht Hs) as (_ & _ & Hb & Hp).
      rewrite (wire_plain_object props Ht). apply (serializeDocument_map wire props Hb).
      rewrite Forall_forall in Hp. apply Forall_forall. intros kv Hin.
      apply IH; [|exact (Hp kv Hin)].
      pose proof (height_property kv props Hin). cbn [height] in Hh. lia.
Qed.

Lemma array_walk2 (f g : value -> option (result (option string))) (l : list value) :
  Forall (fun e => exists t, f (wire e) = Some (Ok (Some t))
                             /\ g (observable e) = Some (Ok (Some t))) l ->
  exists partial, SerializeJSONArray f (map wire l) = Some (Ok partial)
                  /\ SerializeJSONArray g (map observable l) = Some (Ok partial).
Proof.
  induction 1 as [|e l (t & Hf & Hg) _ (partial & IH1 & IH2)].
  - exists []. split; reflexivity.
  - exists (t :: partial). cbn [map SerializeJSONArray]. rewrite Hf, Hg, IH1, IH2. split; reflexivity.
Qed.

Lemma object_walk2 (gap : string) (f g : value -> option (result (option string)))
      (props : list (string * value)) :
  Forall (fun kv => exists t, f (wire (snd kv)) = Some (Ok (Some t))
                              /\ g (observable (snd kv)) = Some (Ok (Some t))) props ->
  exists partial,
    SerializeJSONObject gap f (map (fun kv => let '(k, e) := kv in (k, wire e)) props)
    = Some (Ok partial)
    /\ SerializeJSONObject gap g (map (fun kv => let '(k, e) := kv in (k, observable e)) props)
       = Some (Ok partial).
Proof.
  induction 1 as [|[k e] props (t & Hf & Hg) _ (partial & IH1 & IH2)].
  - exists []. split; reflexivity.
  - cbn [snd] in Hf, Hg. eexists. cbn [map SerializeJSONObject].
    rewrite Hf, Hg, IH1, IH2. split; reflexivity.
Qed.

Lemma unreserved_wire (props : list (string * value)) :
  forallb (fun kv => negb (reserved (fst kv))) props = true ->
  forallb (fun kv => negb (reserved (fst kv)))
          (map (fun kv => let '(k, e) := kv in (k, wire e)) props) = true.
Proof.
  induction props as [|[k e] props IH]; cbn [map forallb fst]; [reflexivity|].
  intros H. apply andb_true_iff in H. destruct H as [Hk H]. rewrite Hk, (IH H). reflexivity.
Qed.

(** The walk of the replacer over what the first pass made of a document
    writes the text of the observable value of the document. *)
Lemma walk_wire (gap : string) (limit : Z) :
  forall (fuel : nat) (v : value) (indent : string),
    supported limit v = true -> (height v < fuel)%nat ->
    exists text,
      SerializeJSONProperty handleValues gap fuel indent (wire v) = Some (Ok (Some text))
      /\ SerializeJSONProperty no_replacer gap fuel indent (observable v) = Some (Ok (Some text)).
Proof.
  induction fuel as [|f IH]; intros v indent Hs Hh; [lia|].
  destruct v as [| |b|n|z|s|l|props].
  - discriminate Hs.
  - rewrite !walk_step. cbn [wire]. rewrite handleValues_leaf by exact I.
    eexists. split; reflexivity.
  - rewrite !walk_step. cbn [wire]. rewrite handleValues_leaf by exact I.
    eexists. split; reflexivity.
  - rewrite !walk_step. cbn [wire]. rewrite handleValues_leaf by exact I.
    eexists. split; reflexivity.
  - rewrite !walk_step. cbn [wire]. rewrite handleValues_leaf by exact I.
    eexists. split; reflexivity.
  - rewrite !walk_step. cbn [wire]. rewrite handleValues_leaf by exact I.
    eexists. split; reflexivity.
  - rewrite !walk_step. cbn [wire]. rewrite handleValues_array. cbn [observable no_replacer].
    cbn [supported] in Hs. rewrite forallb_forall in Hs.
    destruct (array_walk2 (SerializeJSONProperty handleValues gap f (indent ++ gap))
                          (SerializeJSONProperty no_replacer gap f (indent ++ gap)) l)
      as (partial & H1 & H2).
    { apply Forall_forall. intros e He. apply IH; [exact (Hs e He)|].
      pose proof (height_element e l He). cbn [height] in Hh. lia. }
    rewrite H1, H2. eexists. split; reflexivity.
  - destruct (tag_of props) as [[k x]|] eqn:Ht.
    + destruct (tag_of_some props k x Ht) as [-> Hr].
      cbn [supported] in Hs. rewrite Ht in Hs. cbn [observable wire]. rewrite Ht.
      apply walk_tagged; [exact Hr | exact Hs | cbn [height] in Hh; cbn; lia].
    + destruct (supported_plain_object limit props Ht Hs) as (_ & Hk & _ & Hp).
      rewrite !walk_step.
      rewrite (wire_plain_object props Ht), (observable_plain_object props Ht).
      rewrite (handleValues_plain_object _ (unreserved_wire props Hk)).
      cbn [no_replacer].
      destruct (object_walk2 gap (SerializeJSONProperty handleValues gap f (indent ++ gap))
                             (SerializeJSONProperty no_replacer gap f (indent ++ gap)) props)
        as (partial & H1 & H2).
      { rewrite Forall_forall in Hp. apply Forall_forall. intros kv Hin.
        apply IH; [exact (Hp kv Hin)|].
        pose proof (height_property kv props Hin). cbn [height] in Hh. lia. }
      rewrite H1, H2. eexists. split; reflexivity.
Qed.

Lemma Forall2_map_r {A B : Type} (R : A -> B -> Prop) (f : A -> B) (l : list A) :
  Forall (fun a => R a (f a)) l -> Forall2 R l (map f l).
Proof. induction 1; cbn [map]; constructor; assumption. Qed.

Lemma reserved_date (k : string) :
  reserved k = true -> k <> "$oid" -> k <> "$numberDecimal" -> k <> "$binary" -> k = "$date".
Proof.
  intros Hr H1 H2 H3. unfold reserved in Hr.
  destruct (String.eqb_spec k "$oid"); [contradiction|].
  destruct (String.eqb_spec k "$numberDecimal"); [contradiction|].
  destruct (String.eqb_spec k "$binary"); [contradiction|].
  cbn [orb] in Hr. apply String.eqb_eq. exact Hr.
Qed.

Lemma Number_of_bigint_zero : Number_of_bigint 0 = S754_zero false.
Proof. reflexivity. Qed.

(** The observable value of a supported document agrees with it. *)
Lemma observable_agrees (limit : Z) :
  limit <= 2 ^ 53 ->
  forall (n : nat) (v : value),
    (height v < n)%nat -> supported limit v = true -> agrees v (observable v).
Proof.
  intros Hlimit. induction n as [|n IH]; intros v Hh Hs; [lia|].
  destruct v as [| |b|x|z|s|l|props]; try (constructor; fail).
  - discriminate Hs.
  - cbn [supported] in Hs. apply Z.ltb_lt in Hs.
    cbn [observable]. constructor.
    destruct (Z.eq_dec z 0) as [->|Hz]; [reflexivity|].
    apply Number_of_bigint_safe; [exact Hz | lia].
  - cbn [observable]. constructor. apply Forall2_map_r.
    cbn [supported] in Hs. rewrite forallb_forall in Hs.
    apply Forall_forall. intros e He. apply IH; [|exact (Hs e He)].
    pose proof (height_element e l He). cbn [height] in Hh. lia.
  - destruct (tag_of props) as [[k x]|] eqn:Ht.
    + destruct (tag_of_some props k x Ht) as [-> Hr].
      cbn [supported] in Hs. rewrite Ht in Hs. cbn [observable]. rewrite Ht.
      unfold supported_tagged in Hs. unfold observable_tagged.
      destruct (String.eqb_spec k "$oid") as [->|Hk1].
      { destruct x; try discriminate Hs. constructor. }
      destruct (String.eqb_spec k "$numberDecimal") as [->|Hk2].
      { destruct x; try discriminate Hs. constructor. }
      destruct (String.eqb_spec k "$binary") as [->|Hk3].
      { destruct (identifier_payload x) as [b|] eqn:Hb; [|discriminate Hs].
        destruct (identifier_payload_some x b Hb) as (t & -> & Htag).
        apply Nat.eqb_eq in Hs. constructor; assumption. }
      rewrite (reserved_date k Hr Hk1 Hk2 Hk3) in *.
      destruct x as [| | | | |t| |]; try discriminate Hs.
      apply andb_true_iff in Hs. destruct Hs as [_ Hd].
      destruct (Date_valueOf (VString t)) as [d|] eqn:Hdate; [|discriminate Hd].
      constructor. exact Hdate.
    + destruct (supported_plain_object limit props Ht Hs) as (_ & _ & _ & Hp).
      rewrite (observable_plain_object props Ht). constructor; [exact Ht|].
      apply Forall2_map_r. rewrite Forall_forall in Hp. apply Forall_forall.
      intros [k e] Hin. cbn [fst snd]. split; [reflexivity|].
      apply IH; [|exact (Hp _ Hin)].
      pose proof (height_property _ props Hin) as Hle. cbn [snd height] in Hle, Hh. lia.
Qed.

Lemma bounded_53 (m : positive) (e : Z) :
  Zpos (digits2_pos m) = 53 -> -1074 <= e <= 971 -> bounded prec emax m e = true.
Proof.
  intros Hd He. unfold bounded, canonical_mantissa. rewrite Hd.
  apply andb_true_iff. split.
  - apply Z.eqb_eq. unfold fexp, emin, prec, emax. lia.
  - apply Z.leb_le. unfold emax, prec. lia.
Qed.

(** The number of a safe integer is a number of JSON. *)
Lemma Number_of_bigint_json (z : Z) :
  Z.abs z < 2 ^ 53 -> json_number (Number_of_bigint z) = true.
Proof.
  intros Hz. unfold Number_of_bigint, binary_normalize.
  assert (Hround : forall (s : bool) (p : positive),
             Zpos p < 2 ^ 53 -> json_number (binary_round prec emax s p 0) = true).
  { intros s p Hp.
    pose proof (digits2_bounds p) as [Hlo Hhi].
    set (d := Zpos (digits2_pos p)) in *.
    assert (Hd : 1 <= d <= 53).
    { split; [unfold d; lia|].
      destruct (Z_le_gt_dec d 53) as [|Hgt]; [assumption|].
      assert (2 ^ 53 <= 2 ^ (d - 1)) by (apply Z.pow_le_mono_r; lia). lia. }
    unfold binary_round.
    assert (Hf : fexp prec emax (d + 0) = d - 53).
    { unfold fexp, emin, prec, emax. lia. }
    fold d. rewrite Hf. unfold shl_align.
    destruct (d - 53 - 0) as [|k|k] eqn:Hk; try lia.
    - rewrite round_aux_canonical; [|fold d; lia|lia].
      cbn [json_number]. apply bounded_53; [fold d; lia | lia].
    - rewrite round_aux_canonical; [|rewrite iter_xO_digits; fold d; lia|lia].
      cbn [json_number]. apply bounded_53; [rewrite iter_xO_digits; fold d; lia | lia]. }
  destruct z as [|p|p]; [reflexivity| |]; apply Hround; lia.
Qed.

Lemma distinct_observable (props : list (string * value)) :
  map fst (map (fun kv => let '(k, e) := kv in (k, observable e)) props) = map fst props.
Proof.
  induction props as [|[k e] props IH]; cbn [map fst]; [reflexivity|].
  rewrite IH. reflexivity.
Qed.

(** The observable value of a supported document is a value of JSON. *)
Lemma json_observable (limit : Z) :
  limit <= 2 ^ 53 ->
  forall (n : nat) (v : value),
    (height v < n)%nat -> supported limit v = true -> json (observable v) = true.
Proof.
  intros Hlimit. induction n as [|n IH]; intros v Hh Hs; [lia|].
  destruct v as [| |b|x|z|s|l|props]; try reflexivity.
  - discriminate Hs.
  - exact Hs.
  - cbn [supported] in Hs. apply Z.ltb_lt in Hs.
    cbn [observable json]. apply Number_of_bigint_json. lia.
  - cbn [observable json]. cbn [supported] in Hs. rewrite forallb_forall in Hs.
    apply forallb_forall. intros j Hj. apply in_map_iff in Hj.
    destruct Hj as (e & <- & He). apply IH; [|exact (Hs e He)].
    pose proof (height_element e l He). cbn [height] in Hh. lia.
  - destruct (tag_of props) as [[k x]|] eqn:Ht.
    + destruct (tag_of_some props k x Ht) as [-> Hr].
      cbn [supported] in Hs. rewrite Ht in Hs. cbn [observable]. rewrite Ht.
      unfold supported_tagged in Hs. unfold observable_tagged.
      destruct (String.eqb_spec k "$oid") as [->|Hk1].
      { destruct x; try discriminate Hs. reflexivity. }
      destruct (String.eqb_spec k "$numberDecimal") as [->|Hk2].
      { destruct x; try discriminate Hs.
        apply andb_true_iff in Hs. exact (proj2 Hs). }
      destruct (String.eqb_spec k "$binary") as [->|Hk3].
      { destruct (identifier_payload x) as [b|] eqn:Hb; [|discriminate Hs]. reflexivity. }
      rewrite (reserved_date k Hr Hk1 Hk2 Hk3) in *.
      destruct x as [| | | | |t| |]; try discriminate Hs.
      apply andb_true_iff in Hs. destruct Hs as [_ Hd].
      destruct (Date_valueOf (VString t)) as [d|] eqn:Hdate; [|discriminate Hd].
      cbn [json map fst distinct existsb negb andb forallb]. rewrite Hd. reflexivity.
    + destruct (supported_plain_object limit props Ht Hs) as (Hd & _ & _ & Hp).
      rewrite (observable_plain_object props Ht). cbn [json].
      rewrite distinct_observable, Hd. cbn [andb].
      apply forallb_forall. intros [k j] Hj. apply in_map_iff in Hj.
      destruct Hj as ([k' e] & Heq & He). inversion Heq; subst.
      rewrite Forall_forall in Hp. apply IH; [|exact (Hp _ He)].
      pose proof (height_property _ props He) as Hle. cbn [snd height] in Hle, Hh. lia.
Qed.

(** The round trip on a platform whose [JSON.parse] reads back what its
    [JSON.stringify] writes. *)
Lemma roundtrip_on_platform (v : value) (pretty : bool) (fuel : nat) :
  JSON_law ->
  supported safe_limit v = true ->
  (height v < fuel)%nat ->
  exists text j,
    serializeCommand fuel v pretty = Some (Ok (Some text))
    /\ JSON_parse text = Some j
    /\ agrees v j.
Proof.
  intros Hlaw Hs Hh.
  assert (H53 : safe_limit <= 2 ^ 53) by (unfold safe_limit; lia).
  assert (H63 : safe_limit <= 2 ^ 63) by (unfold safe_limit; lia).
  unfold serializeCommand. rewrite (ejson_wire safe_limit H63 fuel v Hh Hs).
  destruct (walk_wire (if pretty then "  " else "") safe_limit (S fuel) v "" Hs
                      (Nat.lt_lt_succ_r _ _ Hh))
    as (text & Hcode & Hplain).
  exists text, (observable v). split; [exact Hcode|]. split.
  - apply (Hlaw pretty (S fuel) (observable v) text); [|exact Hplain].
    apply (json_observable safe_limit H53 fuel v Hh Hs).
  - apply (observable_agrees safe_limit H53 fuel v Hh Hs).
Qed.

End Walks.



(** ** The reference platform reads back what it writes *)

Section Strings.
Import Node.

Lemma string_body_char (c : ascii) (tail : string) :
  string_body (escape_char c ++ tail)
  = match string_body tail with
    | Some (l, r) => Some (item c :: l, r)
    | None => None
    end.
Proof.
  destruct c as [[] [] [] [] [] [] [] []]; reflexivity.
Qed.

Lemma string_body_escape (s rest : string) :
  string_body (escape_string s ++ String dquote rest) = Some (map item (list_ascii_of_string s), rest).
Proof.
  induction s as [|c s IH]; [reflexivity|].
  cbn [escape_string list_ascii_of_string map].
  rewrite append_assoc, string_body_char, IH. reflexivity.
Qed.

Lemma string_bytes_item (c : ascii) (l : list (N + N)) :
  string_bytes (item c :: l) = N_of_ascii c :: string_bytes l.
Proof.
  destruct c as [[] [] [] [] [] [] [] []]; try reflexivity;
    destruct l as [|[b|w] l]; reflexivity.
Qed.

Lemma string_of_bytes_items (s : string) :
  string_of_bytes (string_bytes (map item (list_ascii_of_string s))) = s.
Proof.
  induction s as [|c s IH]; [reflexivity|].
  cbn [list_ascii_of_string map]. rewrite string_bytes_item. cbn [string_of_bytes].
  rewrite ascii_N_embedding, IH. reflexivity.
Qed.

Lemma string_literal_quote (s rest : string) :
  string_literal (escape_string s ++ String dquote rest) = Some (s, rest).
Proof.
  unfold string_literal. rewrite string_body_escape, string_of_bytes_items. reflexivity.
Qed.
End Strings.

(** ** The reference platform: a number is read back from its digits *)

Lemma iter_pos_nat {A : Type} (f : A -> A) (n : positive) (x : A) :
  iter_pos f n x = Nat.iter (Pos.to_nat n) f x.
Proof.
  revert x. induction n as [n IH|n IH|]; intros x; cbn [iter_pos].
  - rewrite !IH, Pos2Nat.inj_xI.
    replace (S (2 * Pos.to_nat n)) with (Pos.to_nat n + S (Pos.to_nat n))%nat by lia.
    rewrite Nat.iter_add, Nat.iter_succ_r. reflexivity.
  - rewrite !IH, Pos2Nat.inj_xO.
    replace (2 * Pos.to_nat n)%nat with (Pos.to_nat n + Pos.to_nat n)%nat by lia.
    rewrite Nat.iter_add. reflexivity.
  - reflexivity.
Qed.

Lemma shr_iter_xO (n : nat) (p : positive) :
  Nat.iter n shr_1 {| shr_m := Zpos (Nat.iter n xO p); shr_r := false; shr_s := false |}
  = {| shr_m := Zpos p; shr_r := false; shr_s := false |}.
Proof.
  induction n as [|n IH]; [reflexivity|].
  rewrite Nat.iter_succ_r. cbn [Nat.iter shr_1 orb]. exact IH.
Qed.

Lemma round_aux_bounded (s : bool) (m : positive) (e : Z) :
  bounded prec emax m e = true ->
  binary_round_aux prec emax s (Zpos m) e loc_Exact = S754_finite s m e.
Proof.
  intros Hb. unfold bounded, canonical_mantissa in Hb.
  apply andb_true_iff in Hb. destruct Hb as [Hc He]. apply Z.eqb_eq in Hc.
  assert (Hf : fexp prec emax (Zpos (digits2_pos m) + e) - e = 0) by lia.
  unfold binary_round_aux, shr_fexp. cbn [Zdigits2 shr_record_of_loc].
  rewrite Hf. cbn [shr shr_m loc_of_shr_record round_nearest_even Zdigits2 shr_record_of_loc].
  rewrite Hf. cbn [shr shr_m]. rewrite He. reflexivity.
Qed.

(** A number is the rounding of its mantissa with zeros after it. *)
Lemma round_shifted (s : bool) (m : positive) (e j : Z) (p : positive) :
  bounded prec emax m e = true -> 0 <= j -> Zpos p = Zpos m * 2 ^ j ->
  binary_round prec emax s p (e - j) = S754_finite s m e.
Proof.
  intros Hb Hj Hp.
  assert (Hc : fexp prec emax (Zpos (digits2_pos m) + e) = e).
  { unfold bounded, canonical_mantissa in Hb. apply andb_true_iff in Hb.
    apply Z.eqb_eq. exact (proj1 Hb). }
  destruct j as [|k|k]; [| |lia].
  - assert (p = m) by lia. subst p. rewrite Z.sub_0_r.
    unfold binary_round. rewrite Hc. unfold shl_align. rewrite Z.sub_diag.
    apply round_aux_bounded. exact Hb.
  - assert (p = Pos.iter xO m k).
    { apply Pos2Z.inj. rewrite Hp, iter_xO_value. reflexivity. }
    subst p. unfold binary_round.
    assert (Hd : Zpos (digits2_pos (Pos.iter xO m k)) + (e - Zpos k)
                 = Zpos (digits2_pos m) + e) by (rewrite iter_xO_digits; lia).
    rewrite Hd, Hc. unfold shl_align.
    replace (e - (e - Zpos k)) with (Zpos k) by lia.
    unfold binary_round_aux, shr_fexp. cbn [Zdigits2 shr_record_of_loc].
    rewrite Hd, Hc. replace (e - (e - Zpos k)) with (Zpos k) by lia.
    assert (Hi : Pos.iter xO m k = Nat.iter (Pos.to_nat k) xO m) by apply Pos2Nat.inj_iter.
    cbn [shr]. rewrite iter_pos_nat, Hi, shr_iter_xO.
    cbn [shr_m loc_of_shr_record round_nearest_even Zdigits2].
    replace (e - Zpos k + Zpos k) with e by lia.
    rewrite Hc, Z.sub_diag. cbn [shr shr_m].
    unfold bounded in Hb. apply andb_true_iff in Hb. rewrite (proj2 Hb). reflexivity.
Qed.

Lemma normalize_shifted (neg : bool) (m : positive) (e j : Z) :
  bounded prec emax m e = true -> 0 <= j ->
  binary_normalize prec emax (Node.signed neg (Zpos m * 2 ^ j)) (e - j) neg = S754_finite neg m e.
Proof.
  intros Hb Hj.
  assert (Hpos : 0 < Zpos m * 2 ^ j) by (apply Z.mul_pos_pos; [lia | apply Z.pow_pos_nonneg; lia]).
  destruct (Zpos m * 2 ^ j) as [|p|p] eqn:Hp; try lia.
  destruct neg; cbn [Node.signed Z.opp binary_normalize];
    apply round_shifted; [exact Hb | exact Hj | lia | exact Hb | exact Hj | lia].
Qed.

Lemma bounded_facts (m : positive) (e : Z) :
  bounded prec emax m e = true -> -1074 <= e <= 971 /\ Zpos m < 2 ^ 53.
Proof.
  intros Hb. unfold bounded, canonical_mantissa in Hb.
  apply andb_true_iff in Hb. destruct Hb as [Hc He].
  apply Z.eqb_eq in Hc. apply Z.leb_le in He.
  unfold fexp, emin, prec, emax in *.
  pose proof (digits2_bounds m) as [_ Hhi].
  split; [lia|].
  assert (Zpos (digits2_pos m) <= 53) by lia.
  assert (2 ^ Zpos (digits2_pos m) <= 2 ^ 53) by (apply Z.pow_le_mono_r; lia). lia.
Qed.

(** The exact integer of a number with an exponent that is not negative. *)
Lemma decimal_integer (neg : bool) (m : positive) (e : Z) :
  bounded prec emax m e = true -> 0 <= e ->
  Node.decimal_to_number neg (Zpos m * 2 ^ e) 0 = S754_finite neg m e.
Proof.
  intros Hb He. unfold Node.decimal_to_number.
  assert (Hpos : 0 < Zpos m * 2 ^ e) by (apply Z.mul_pos_pos; [lia | apply Z.pow_pos_nonneg; lia]).
  destruct (Z.leb_spec (Zpos m * 2 ^ e) 0); [lia|].
  change (400 <? 0) with false. cbv iota.
  pose proof (Z.log2_nonneg (Zpos m * 2 ^ e)).
  destruct (Z.ltb_spec (Z.log2 (Zpos m * 2 ^ e) + 1 + 3 * 0) (-1080)); [lia|].
  change (0 <=? 0) with true. cbv iota.
  rewrite Z.pow_0_r, Z.mul_1_r.
  pose proof (normalize_shifted neg m e e Hb He) as Hn.
  rewrite Z.sub_diag in Hn. exact Hn.
Qed.

(** The exact decimal expansion of a number with a negative exponent. *)
Lemma decimal_fraction (neg : bool) (m : positive) (k : Z) :
  bounded prec emax m (- k) = true -> 0 < k ->
  Node.decimal_to_number neg (Zpos m * 5 ^ k) (- k) = S754_finite neg m (- k).
Proof.
  intros Hb Hk. unfold Node.decimal_to_number.
  destruct (bounded_facts m (- k) Hb) as [He Hm].
  assert (H5 : 0 < 5 ^ k) by (apply Z.pow_pos_nonneg; lia).
  assert (Hpos : 0 < Zpos m * 5 ^ k) by (apply Z.mul_pos_pos; lia).
  destruct (Z.leb_spec (Zpos m * 5 ^ k) 0); [lia|].
  destruct (Z.ltb_spec 400 (- k)); [lia|].
  assert (H4 : 2 ^ (2 * k) <= 5 ^ k).
  { rewrite Z.pow_mul_r by lia. apply Z.pow_le_mono_l. cbn. lia. }
  assert (Hl5 : 2 * k <= Z.log2 (5 ^ k)).
  { apply Z.log2_le_pow2; lia. }
  assert (Hlm : Z.log2 (5 ^ k) <= Z.log2 (Zpos m * 5 ^ k)).
  { apply Z.log2_le_mono. nia. }
  destruct (Z.ltb_spec (Z.log2 (Zpos m * 5 ^ k) + 1 + 3 * - k) (-1080)); [lia|].
  destruct (Z.leb_spec 0 (- k)); [lia|].
  rewrite Z.opp_involutive.
  assert (H10 : 10 ^ k = 5 ^ k * 2 ^ k).
  { change 10 with (5 * 2). apply Z.pow_mul_l. }
  assert (Hld : Z.log2 (10 ^ k) = k + Z.log2 (5 ^ k)).
  { rewrite H10. rewrite Z.log2_mul_pow2 by lia. reflexivity. }
  assert (Hlm' : Z.log2 (Zpos m * 5 ^ k) <= Z.log2 (Zpos m) + Z.log2 (5 ^ k) + 1).
  { apply Z.log2_mul_above; lia. }
  assert (Hlog : Z.log2 (Zpos m) < 53) by (apply Z.log2_lt_pow2; lia).
  set (s := Z.max 0 (Z.log2 (10 ^ k) - Z.log2 (Zpos m * 5 ^ k) + 64)).
  assert (Hs : k < s) by (unfold s; lia).
  assert (Hq : Zpos m * 5 ^ k * 2 ^ s = (Zpos m * 2 ^ (s - k)) * 10 ^ k).
  { rewrite H10. replace s with ((s - k) + k) at 1 by lia.
    rewrite Z.pow_add_r by lia. ring. }
  assert (Hd : 10 ^ k <> 0) by (rewrite H10; nia).
  rewrite Hq, Z.mod_mul, Z.div_mul by exact Hd.
  cbn [Z.eqb]. rewrite Z.add_0_r.
  replace (2 * (Zpos m * 2 ^ (s - k))) with (Zpos m * 2 ^ (s - k + 1))
    by (rewrite Z.pow_add_r by lia; ring).
  replace (- s - 1) with (- k - (s - k + 1)) by lia.
  apply normalize_shifted; [exact Hb | lia].
Qed.

(** ** The reference platform: the digits of an integer *)

Lemma read_digits_step (acc cnt : Z) (c : ascii) (s : string) :
  Node.is_digit c = true ->
  Node.read_digits acc cnt (String c s)
  = Node.read_digits (acc * 10 + Node.digit_value c) (cnt + 1) s.
Proof. intros H. cbn [Node.read_digits]. rewrite H. reflexivity. Qed.

Ltac read_digit IH :=
  match goal with
  | |- Node.read_digits _ _ (String ?c ?s) = _ => rewrite (read_digits_step _ _ c s eq_refl)
  end;
  match goal with
  | |- context [Node.digit_value ?c] =>
      let v := eval vm_compute in (Node.digit_value c) in
      change (Node.digit_value c) with v
  end;
  match goal with
  | |- Node.read_digits ?a _ _ = (Zpos (Pos.of_uint_acc _ ?p), _, _) =>
      replace a with (Zpos p) by lia
  end;
  rewrite IH; f_equal; f_equal; lia.

Lemma read_digits_acc (d : Decimal.uint) (acc : positive) (cnt : Z) :
  Node.read_digits (Zpos acc) cnt (NilEmpty.string_of_uint d)
  = (Zpos (Pos.of_uint_acc d acc), cnt + Z.of_nat (Decimal.nb_digits d), "").
Proof.
  revert acc cnt.
  induction d as [|d IH|d IH|d IH|d IH|d IH|d IH|d IH|d IH|d IH|d IH]; intros acc cnt;
    cbn [NilEmpty.string_of_uint Decimal.nb_digits Pos.of_uint_acc];
    [cbn [Node.read_digits]; f_equal; f_equal; lia | read_digit IH ..].
Qed.

Lemma read_digits_uint (d : Decimal.uint) (cnt : Z) :
  Node.read_digits 0 cnt (NilEmpty.string_of_uint d)
  = (Z.of_N (Pos.of_uint d), cnt + Z.of_nat (Decimal.nb_digits d), "").
Proof.
  revert cnt.
  induction d as [|d IH|d IH|d IH|d IH|d IH|d IH|d IH|d IH|d IH|d IH]; intros cnt;
    cbn [NilEmpty.string_of_uint Decimal.nb_digits Pos.of_uint];
    [cbn [Node.read_digits]; f_equal; f_equal; lia
    | match goal with
  | |- Node.read_digits _ _ (String ?c ?s) = _ => rewrite (read_digits_step _ _ c s eq_refl)
  end;
      change (0 * 10 + Node.digit_value "0") with 0; rewrite IH; f_equal; f_equal; lia
    | match goal with
  | |- Node.read_digits _ _ (String ?c ?s) = _ => rewrite (read_digits_step _ _ c s eq_refl)
  end;
      match goal with
      | |- context [Node.digit_value ?c] =>
          let v := eval vm_compute in (0 * 10 + Node.digit_value c) in
          change (0 * 10 + Node.digit_value c) with v
      end;
      rewrite read_digits_acc; cbn [Z.of_N]; f_equal; f_equal; lia ..].
Qed.

Lemma string_of_positive (p : positive) :
  Node.string_of_Z (Zpos p) = NilEmpty.string_of_uint (Pos.to_uint p).
Proof.
  unfold Node.string_of_Z. cbn [Z.ltb Z.compare Z.abs_N N.to_uint append].
  pose proof (DecimalPos.Unsigned.to_uint_nonnil p) as Hn.
  destruct (Pos.to_uint p); [contradiction | reflexivity ..].
Qed.

(** The digits of a positive integer do not start with a zero. *)
Lemma to_uint_head (p : positive) :
  exists c s, Node.string_of_Z (Zpos p) = String c s
              /\ Node.is_digit c = true /\ Ascii.eqb c "0" = false.
Proof.
  rewrite string_of_positive.
  pose proof (DecimalPos.Unsigned.of_to p) as Hof.
  pose proof (DecimalPos.Unsigned.to_of (Pos.to_uint p)) as Hto.
  rewrite Hof in Hto. cbn [N.to_uint] in Hto.
  pose proof (DecimalFacts.nzhead_nonzero (Pos.to_uint p)) as Hnz.
  unfold Decimal.unorm in Hto.
  destruct (Pos.to_uint p) as [|d|d|d|d|d|d|d|d|d|d] eqn:Hd;
    [discriminate Hof | | eexists; eexists; split; [reflexivity | split; reflexivity] ..].
  exfalso. destruct (Decimal.nzhead (Decimal.D0 d)) eqn:Hn.
  - inversion Hto; subst. discriminate Hof.
  - exact (Hnz _ (eq_sym Hto)).
  - discriminate Hto.
  - discriminate Hto.
  - discriminate Hto.
  - discriminate Hto.
  - discriminate Hto.
  - discriminate Hto.
  - discriminate Hto.
  - discriminate Hto.
  - discriminate Hto.
Qed.

(** The digits of a positive integer read as the integer. *)
Lemma read_digits_positive (p : positive) :
  exists cnt, Node.read_digits 0 0 (Node.string_of_Z (Zpos p)) = (Zpos p, cnt, "") /\ 0 < cnt.
Proof.
  rewrite string_of_positive, read_digits_uint, DecimalPos.Unsigned.of_to.
  eexists. split; [reflexivity|].
  pose proof (DecimalPos.Unsigned.to_uint_nonnil p) as Hn.
  destruct (Pos.to_uint p); [contradiction | cbn [Decimal.nb_digits]; lia ..].
Qed.

(** ** The reference platform: the text of a number *)

Lemma number_end_digit (rest : string) :
  number_end rest = true ->
  match rest with String c _ => Node.is_digit c = false | EmptyString => True end.
Proof.
  destruct rest as [|c r]; [trivial|]. cbn [number_end]. intros H.
  apply negb_true_iff in H. repeat (apply orb_false_iff in H; destruct H as [H ?]). exact H.
Qed.

Lemma read_digits_app (acc cnt : Z) (t rest : string) :
  match rest with String c _ => Node.is_digit c = false | EmptyString => True end ->
  Node.read_digits acc cnt (t ++ rest)
  = let '(a, c, r) := Node.read_digits acc cnt t in (a, c, r ++ rest).
Proof.
  intros Hd. revert acc cnt. induction t as [|c t IH]; intros acc cnt.
  - cbn [append]. destruct rest as [|c r]; [reflexivity|].
    cbn [Node.read_digits]. rewrite Hd. reflexivity.
  - cbn [append Node.read_digits]. destruct (Node.is_digit c); [apply IH | reflexivity].
Qed.

Lemma exponent_app (t rest : string) (ex : Z) :
  Node.exponent t = Some (ex, "") -> number_end rest = true ->
  Node.exponent (t ++ rest) = Some (ex, rest).
Proof.
  intros Ht Hr. pose proof (number_end_digit rest Hr) as Hd.
  destruct t as [|c t].
  - cbn in Ht. injection Ht as <-. cbn [append].
    destruct rest as [|c r]; [reflexivity|].
    cbn [number_end] in Hr. apply negb_true_iff in Hr.
    repeat (apply orb_false_iff in Hr; destruct Hr as [Hr ?]).
    cbn [Node.exponent]. rewrite H0, H. reflexivity.
  - cbn [append]. cbn [Node.exponent] in *.
    destruct (Ascii.eqb c "e" || Ascii.eqb c "E")%bool; [|discriminate Ht].
    destruct t as [|sg r].
    + cbn in Ht. discriminate Ht.
    + cbn [append].
      destruct (Ascii.eqb sg "-").
      * rewrite (read_digits_app 0 0 r rest Hd).
        destruct (Node.read_digits 0 0 r) as [[ex' cnt'] rest2].
        destruct (cnt' =? 0); [discriminate Ht|]. injection Ht as <- ->. reflexivity.
      * destruct (Ascii.eqb sg "+").
        -- rewrite (read_digits_app 0 0 r rest Hd).
           destruct (Node.read_digits 0 0 r) as [[ex' cnt'] rest2].
           destruct (cnt' =? 0); [discriminate Ht|]. injection Ht as <- ->. reflexivity.
        -- change (String sg (r ++ rest)) with (String sg r ++ rest).
           rewrite (read_digits_app 0 0 (String sg r) rest Hd).
           destruct (Node.read_digits 0 0 (String sg r)) as [[ex' cnt'] rest2].
           destruct (cnt' =? 0); [discriminate Ht|]. injection Ht as <- ->. reflexivity.
Qed.

(** The digits and the rest of a number, after its sign. *)
Lemma number_body_app (neg : bool) (s1 rest : string) (x : number) :
  number_end rest = true ->
  Node.number_body neg s1 = Some (x, "") ->
  Node.number_body neg (s1 ++ rest) = Some (x, rest).
Proof.
  intros Hr Ht. pose proof (number_end_digit rest Hr) as Hd.
  unfold Node.number_body in *.
  rewrite (read_digits_app 0 0 s1 rest Hd).
  destruct (Node.read_digits 0 0 s1) as [[ip icnt] s2] eqn:Hrd.
  destruct s1 as [|c1 r1].
  { cbn in Hrd. injection Hrd as <- <- <-. discriminate Ht. }
  cbn [append]. cbv zeta in *.
  destruct ((icnt =? 0) || (Ascii.eqb c1 "0" && (1 <? icnt)))%bool; [discriminate Ht|].
  destruct s2 as [|c2 r2].
  - cbn [append]. cbn [Node.exponent] in Ht. injection Ht as <-.
    destruct rest as [|c r]; [reflexivity|].
    cbn [number_end] in Hr. apply negb_true_iff in Hr.
    repeat (apply orb_false_iff in Hr; destruct Hr as [Hr ?]).
    rewrite H1. cbn [Node.exponent]. rewrite H0, H. reflexivity.
  - cbn [append]. destruct (Ascii.eqb c2 ".").
    + rewrite (read_digits_app ip 0 r2 rest Hd).
      destruct (Node.read_digits ip 0 r2) as [[m fcnt] s3].
      destruct (fcnt =? 0); [discriminate Ht|].
      destruct (Node.exponent s3) as [[ex s4]|] eqn:He; [|discriminate Ht].
      injection Ht as <- ->. rewrite (exponent_app s3 rest ex He Hr). reflexivity.
    + destruct (Node.exponent (String c2 r2)) as [[ex s4]|] eqn:He; [|discriminate Ht].
      injection Ht as <- ->.
      change (String c2 (r2 ++ rest)) with (String c2 r2 ++ rest).
      rewrite (exponent_app (String c2 r2) rest ex He Hr). reflexivity.
Qed.

(** A number that is all of a text is read from the text with more after
    it, where what follows cannot belong to a number. *)
Lemma number_literal_app (t rest : string) (x : number) :
  Node.number_literal t = Some (x, "") -> number_end rest = true ->
  Node.number_literal (t ++ rest) = Some (x, rest).
Proof.
  intros Ht Hr. destruct t as [|c t]; [discriminate Ht|].
  unfold Node.number_literal in *. cbn [append].
  destruct (Ascii.eqb c "-").
  - exact (number_body_app true t rest x Hr Ht).
  - exact (number_body_app false (String c t) rest x Hr Ht).
Qed.

Lemma number_literal_head (c : ascii) (t : string) (r : number * string) :
  Node.number_literal (String c t) = Some r -> Ascii.eqb c "-" = true \/ Node.is_digit c = true.
Proof.
  intros H. destruct (Ascii.eqb c "-") eqn:Hc; [left; reflexivity | right].
  unfold Node.number_literal in H. rewrite Hc in H.
  unfold Node.number_body in H. cbn [Node.read_digits] in H. destruct (Node.is_digit c); [reflexivity|]. discriminate H.
Qed.

Lemma number_literal_start (t : string) (r : number * string) :
  Node.number_literal t = Some r -> value_start t = true.
Proof.
  intros H. destruct t as [|c t]; [discriminate H|].
  destruct (number_literal_head c t r H) as [Hc|Hc]; clear H;
    destruct c as [[] [] [] [] [] [] [] []]; try discriminate Hc; reflexivity.
Qed.

(** A number at the head of a text is what the reader of values finds. *)
Lemma parse_number (t rest : string) (x : number) (pf : nat) :
  Node.number_literal t = Some (x, "") -> number_end rest = true ->
  Node.parse_value (S pf) (t ++ rest) = Some (VNumber x, rest).
Proof.
  intros Ht Hr. pose proof (number_literal_app t rest x Ht Hr) as Happ.
  destruct t as [|c t]; [discriminate Ht|].
  destruct (number_literal_head c t _ Ht) as [Hc|Hc]; cbn [append] in *;
    destruct c as [[] [] [] [] [] [] [] []]; try discriminate Hc;
    cbn [Node.parse_value Node.skip_ws];
    match goal with
    | |- context [Node.is_ws ?c] => change (Node.is_ws c) with false
    end; cbv iota;
    repeat match goal with
    | |- context [Ascii.eqb ?a ?b] =>
        let v := eval vm_compute in (Ascii.eqb a b) in change (Ascii.eqb a b) with v
    end; cbv iota; rewrite Happ; reflexivity.
Qed.

Lemma same_number_eq (a b : number) : Node.same_number a b = true -> a = b.
Proof.
  destruct a as [s1|s1| |s1 m1 e1], b as [s2|s2| |s2 m2 e2]; cbn [Node.same_number];
    try discriminate; intros H.
  - apply Bool.eqb_prop in H. congruence.
  - apply Bool.eqb_prop in H. congruence.
  - apply andb_true_iff in H. destruct H as [H He]. apply andb_true_iff in H.
    destruct H as [Hs Hm]. apply Bool.eqb_prop in Hs. apply Pos.eqb_eq in Hm.
    apply Z.eqb_eq in He. congruence.
Qed.

Lemma number_literal_signed (neg : bool) (c : ascii) (r : string) :
  Node.is_digit c = true ->
  Node.number_literal ((if neg then "-" else "") ++ String c r) = Node.number_body neg (String c r).
Proof.
  intros Hc. destruct neg; [reflexivity|]. cbn [append Node.number_literal].
  destruct (Ascii.eqb_spec c "-") as [->|_]; [discriminate Hc | reflexivity].
Qed.

(** The digits of a positive integer, alone or before an exponent. *)
Lemma number_body_integer (neg : bool) (p : positive) :
  Node.number_body neg (Node.string_of_Z (Zpos p))
  = Some (Node.decimal_to_number neg (Zpos p) 0, "").
Proof.
  destruct (read_digits_positive p) as (cnt & Hrd & Hcnt).
  destruct (to_uint_head p) as (c & s & Hs & Hdig & Hz).
  unfold Node.number_body. rewrite Hrd, Hs, Hz.
  destruct (Z.eqb_spec cnt 0) as [->|_]; [lia|]. reflexivity.
Qed.

Lemma number_body_scientific (neg : bool) (p k : positive) :
  Node.number_body neg (Node.string_of_Z (Zpos p) ++ "e" ++ Node.string_of_Z (Zneg k))
  = Some (Node.decimal_to_number neg (Zpos p) (Zneg k), "").
Proof.
  destruct (read_digits_positive p) as (cnt & Hrd & Hcnt).
  destruct (read_digits_positive k) as (cntk & Hrdk & Hcntk).
  destruct (to_uint_head p) as (c & s & Hs & Hdig & Hz).
  assert (Hk : Node.string_of_Z (Zneg k) = String "-" (Node.string_of_Z (Zpos k))) by reflexivity.
  unfold Node.number_body.
  rewrite (read_digits_app 0 0 _ ("e" ++ Node.string_of_Z (Zneg k)) eq_refl), Hrd.
  rewrite Hs at 1. cbn [append]. rewrite Hz.
  destruct (Z.eqb_spec cnt 0) as [->|_]; [lia|]. cbn [orb andb].
  change (Ascii.eqb "e" ".") with false. cbv iota.
  rewrite Hk. cbn [Node.exponent]. change (Ascii.eqb "e" "e" || Ascii.eqb "e" "E")%bool with true.
  change (Ascii.eqb "-" "-") with true. cbv iota. rewrite Hrdk.
  destruct (Z.eqb_spec cntk 0) as [->|_]; [lia|].
  cbn [Node.signed Z.opp]. rewrite Z.sub_0_r. reflexivity.
Qed.

(** The exact decimal expansion of a number reads back as the number. *)
Lemma exact_text_reads (neg : bool) (m : positive) (e : Z) :
  bounded prec emax m e = true ->
  Node.number_literal (Node.exact_text neg m e) = Some (S754_finite neg m e, "").
Proof.
  intros Hb. unfold Node.exact_text.
  destruct (Z.leb_spec 0 e) as [He|He].
  - assert (Hpos : 0 < Zpos m * 2 ^ e)
      by (apply Z.mul_pos_pos; [lia | apply Z.pow_pos_nonneg; lia]).
    destruct (Zpos m * 2 ^ e) as [|p|p] eqn:Hp; try lia.
    destruct (to_uint_head p) as (c & s & Hs & Hdig & Hz).
    rewrite Hs, (number_literal_signed neg c s Hdig), <- Hs, number_body_integer.
    rewrite <- Hp, (decimal_integer neg m e Hb He). reflexivity.
  - destruct e as [|k|k]; try lia.
    cbn [Z.opp].
    assert (Hpos : 0 < Zpos m * 5 ^ Zpos k)
      by (apply Z.mul_pos_pos; [lia | apply Z.pow_pos_nonneg; lia]).
    destruct (Zpos m * 5 ^ Zpos k) as [|p|p] eqn:Hp; try lia.
    destruct (to_uint_head p) as (c & s & Hs & Hdig & Hz).
    rewrite Hs. change ((String c s) ++ "e" ++ Node.string_of_Z (Zneg k))
      with (String c (s ++ "e" ++ Node.string_of_Z (Zneg k))).
    rewrite (number_literal_signed neg c _ Hdig).
    change (String c (s ++ "e" ++ Node.string_of_Z (Zneg k)))
      with ((String c s) ++ "e" ++ Node.string_of_Z (Zneg k)).
    rewrite <- Hs, number_body_scientific, <- Hp.
    change (Zneg k) with (- Zpos k).
    rewrite (decimal_fraction neg m (Zpos k)); [reflexivity | exact Hb | lia].
Qed.

Lemma Number_toString_finite (neg : bool) (m : positive) (e : Z) :
  Node.Number_toString (S754_finite neg m e)
  = if Node.reads_as (Node.shortest_text (S754_finite neg m e)) (S754_finite neg m e)
    then Node.shortest_text (S754_finite neg m e) else Node.exact_text neg m e.
Proof.
  reflexivity.
Qed.

(** Digits that are checked to read back, or digits that do. *)
Lemma checked_text_reads (found exact : string) (x : number) :
  Node.number_literal exact = Some (x, "") ->
  Node.number_literal (if Node.reads_as found x then found else exact) = Some (x, "").
Proof.
  intros He. destruct (Node.reads_as found x) eqn:Hr; [|exact He].
  unfold Node.reads_as in Hr.
  destruct (Node.number_literal found) as [[y [|c r]]|]; try discriminate Hr.
  apply same_number_eq in Hr. subst y. reflexivity.
Qed.

Lemma finite_text_reads (neg : bool) (m : positive) (e : Z) :
  bounded prec emax m e = true ->
  Node.number_literal (Node.Number_toString (S754_finite neg m e))
  = Some (S754_finite neg m e, "").
Proof.
  intros Hb. rewrite Number_toString_finite.
  apply checked_text_reads, exact_text_reads. exact Hb.
Qed.

(** The text of a number of JSON reads back as the number. *)
Lemma Number_toString_reads (n : number) :
  json_number n = true ->
  Node.number_literal (Node.Number_toString n) = Some (n, "").
Proof.
  intros Hn. destruct n as [[|]| | |neg m e].
  - discriminate Hn.
  - vm_compute. reflexivity.
  - discriminate Hn.
  - discriminate Hn.
  - exact (finite_text_reads neg m e Hn).
Qed.

(** ** The reference platform: arrays and objects *)

Lemma length_append (a b : string) :
  String.length (a ++ b) = (String.length a + String.length b)%nat.
Proof.
  induction a as [|c a IH]; cbn [append String.length]; [reflexivity | rewrite IH; reflexivity].
Qed.

Lemma skip_ws_app (ws s : string) :
  Node.skip_ws ws = "" -> Node.skip_ws (ws ++ s) = Node.skip_ws s.
Proof.
  induction ws as [|c ws IH]; [reflexivity|]. cbn [append Node.skip_ws].
  destruct (Node.is_ws c); [exact IH | discriminate].
Qed.

Lemma skip_ws_start (t s : string) : value_start t = true -> Node.skip_ws (t ++ s) = t ++ s.
Proof.
  destruct t as [|c t]; [discriminate|]. cbn [value_start append Node.skip_ws].
  intros H. apply andb_true_iff in H. destruct H as [H _].
  apply negb_true_iff in H. rewrite H. reflexivity.
Qed.

Lemma parse_value_ws (pf : nat) (ws s : string) :
  Node.skip_ws ws = "" -> Node.parse_value pf (ws ++ s) = Node.parse_value pf s.
Proof.
  intros H. destruct pf; [reflexivity|]. cbn [Node.parse_value].
  rewrite (skip_ws_app ws s H). reflexivity.
Qed.

Lemma value_start_length (t : string) : value_start t = true -> (0 < String.length t)%nat.
Proof. destruct t; [discriminate|]. cbn [String.length]. lia. Qed.

Lemma concat_cons (sep t t2 : string) (ts : list string) :
  String.concat sep (t :: t2 :: ts) = t ++ sep ++ String.concat sep (t2 :: ts).
Proof. reflexivity. Qed.

(** The elements of an array, written one after the other. *)
Lemma parse_elements_texts (l : list value) (ts : list string) :
  Forall2 reads_value l ts -> l <> [] ->
  forall (ws cl rest : string) (pf : nat),
    Node.skip_ws ws = "" -> Node.skip_ws cl = "" ->
    value_end (cl ++ "]" ++ rest) = true ->
    (String.length (ws ++ String.concat ("," ++ ws) ts ++ cl ++ "]") < pf)%nat ->
    Node.parse_elements pf (ws ++ String.concat ("," ++ ws) ts ++ cl ++ "]" ++ rest)
    = Some (l, rest).
Proof.
  induction 1 as [|e t l ts [Hst Hrd] Hrest IH]; [contradiction|].
  intros _ ws cl rest pf Hws Hcl Hend Hlen.
  destruct pf as [|f]; [lia|].
  pose proof (value_start_length t Hst) as Ht.
  destruct Hrest as [|e2 t2 l ts H2 Hrest].
  - cbn [String.concat] in *. rewrite !length_append in Hlen. cbn [String.length] in Hlen.
    cbn [Node.parse_elements].
    rewrite (parse_value_ws f ws _ Hws), (Hrd f _ Hend) by lia.
    rewrite (skip_ws_app cl _ Hcl). reflexivity.
  - rewrite concat_cons in *. rewrite !append_assoc in *.
    rewrite !length_append in Hlen. cbn [String.length] in Hlen.
    cbn [Node.parse_elements].
    rewrite (parse_value_ws f ws _ Hws).
    rewrite (Hrd f ("," ++ ws ++ String.concat ("," ++ ws) (t2 :: ts) ++ cl ++ "]" ++ rest) eq_refl)
      by lia.
    cbn [append Node.skip_ws].
    change (Node.is_ws ",") with false. cbv iota.
    change (Ascii.eqb "," "]") with false. change (Ascii.eqb "," ",") with true. cbv iota.
    assert (Hi : (String.length (ws ++ String.concat ("," ++ ws) (t2 :: ts) ++ cl ++ "]") < f)%nat).
    { rewrite !length_append. cbn [String.length]. lia. }
    pose proof (IH ltac:(discriminate) ws cl rest f Hws Hcl Hend Hi) as Hel.
    cbn [append] in Hel. rewrite Hel. reflexivity.
Qed.

Lemma existsb_absent (k : string) (acc : list (string * value)) :
  ~ In k (map fst acc) -> existsb (fun kv => String.eqb k (fst kv)) acc = false.
Proof.
  induction acc as [|[k' v] acc IH]; [reflexivity|]. cbn [map fst In existsb]. intros H.
  destruct (String.eqb_spec k k') as [->|_]; [exfalso; apply H; left; reflexivity|].
  apply IH. intros Hin. apply H. right. exact Hin.
Qed.

Lemma distinct_cons (k : string) (ks : list string) :
  distinct (k :: ks) = true -> ~ In k ks /\ distinct ks = true.
Proof.
  cbn [distinct]. intros H. apply andb_true_iff in H. destruct H as [H Hd].
  split; [|exact Hd]. intros Hin. apply negb_true_iff in H.
  assert (existsb (String.eqb k) ks = true); [|congruence].
  apply existsb_exists. exists k. split; [exact Hin | apply String.eqb_refl].
Qed.

(** The members of an object, written one after the other: with names
    that differ, they are read in their order. *)
Lemma parse_members_texts (props : list (string * value)) (ms : list string) :
  Forall2 reads_member props ms -> props <> [] ->
  forall (acc : list (string * value)) (ws cl rest : string) (pf : nat),
    distinct (map fst props) = true ->
    (forall k, In k (map fst props) -> ~ In k (map fst acc)) ->
    Node.skip_ws ws = "" -> Node.skip_ws cl = "" ->
    value_end (cl ++ "}" ++ rest) = true ->
    (String.length (ws ++ String.concat ("," ++ ws) ms ++ cl ++ "}") < pf)%nat ->
    Node.parse_members pf acc (ws ++ String.concat ("," ++ ws) ms ++ cl ++ "}" ++ rest)
    = Some ((acc ++ props)%list, rest).
Proof.
  induction 1 as [|[k e] mt props ms (t & sp & -> & Hsp & Hst & Hrd) Hrest IH]; [contradiction|].
  intros _ acc ws cl rest pf Hd Hacc Hws Hcl Hend Hlen.
  cbn [fst snd map] in *.
  destruct pf as [|f]; [lia|].
  pose proof (value_start_length t Hst) as Ht.
  destruct (distinct_cons _ _ Hd) as [Hk Hd'].
  assert (Hex : existsb (fun kv => String.eqb k (fst kv)) acc = false).
  { apply existsb_absent, Hacc. left. reflexivity. }
  destruct Hrest as [|[k2 e2] mt2 props ms H2 Hrest].
  - cbn [String.concat] in *. unfold QuoteJSONString in *.
    rewrite !append_assoc in *. rewrite !length_append in Hlen. cbn [String.length] in Hlen.
    cbn [Node.parse_members]. rewrite (skip_ws_app ws _ Hws).
    cbn [append Node.skip_ws].
    change (Node.is_ws dquote) with false. cbv iota.
    change (Ascii.eqb dquote dquote) with true. cbv iota.
    rewrite string_literal_quote. cbn [Node.skip_ws].
    change (Node.is_ws ":") with false. cbv iota.
    change (Ascii.eqb ":" ":") with true. cbv iota.
    rewrite (parse_value_ws f sp _ Hsp).
    pose proof (Hrd f _ Hend) as Hv. cbn [append] in Hv. rewrite Hv by lia.
    rewrite Hex. pose proof (skip_ws_app cl ("}" ++ rest) Hcl) as Hs.
    cbn [append] in Hs. rewrite Hs. reflexivity.
  - rewrite concat_cons in *. unfold QuoteJSONString in *.
    rewrite !append_assoc in *. rewrite !length_append in Hlen. cbn [String.length] in Hlen.
    assert (Hi : (String.length (ws ++ String.concat ("," ++ ws) (mt2 :: ms) ++ cl ++ "}") < f)%nat).
    { rewrite !length_append. cbn [String.length]. lia. }
    assert (Hacc' : forall k', In k' (map fst ((k2, e2) :: props))
                               -> ~ In k' (map fst (acc ++ [(k, e)])%list)).
    { intros k' Hin Hin'. rewrite map_app in Hin'. apply in_app_or in Hin'.
      destruct Hin' as [Hin'|[<-|[]]].
      - exact (Hacc k' (or_intror Hin) Hin').
      - exact (Hk Hin). }
    pose proof (IH ltac:(discriminate) (acc ++ [(k, e)])%list ws cl rest f Hd' Hacc'
                   Hws Hcl Hend Hi) as Hm.
    rewrite <- app_assoc in Hm. cbn [app append] in Hm.
    cbn [Node.parse_members]. rewrite (skip_ws_app ws _ Hws).
    cbn [append Node.skip_ws].
    change (Node.is_ws dquote) with false. cbv iota.
    change (Ascii.eqb dquote dquote) with true. cbv iota.
    rewrite string_literal_quote. cbn [Node.skip_ws].
    change (Node.is_ws ":") with false. cbv iota.
    change (Ascii.eqb ":" ":") with true. cbv iota.
    rewrite (parse_value_ws f sp _ Hsp).
    pose proof (Hrd f ("," ++ ws ++ String.concat ("," ++ ws) (mt2 :: ms) ++ cl ++ "}" ++ rest)
                    eq_refl) as Hv.
    cbn [append] in Hv. rewrite Hv by lia.
    rewrite Hex. cbn [Node.skip_ws].
    change (Node.is_ws ",") with false. cbv iota.
    change (Ascii.eqb "," "}") with false. change (Ascii.eqb "," ",") with true. cbv iota.
    exact Hm.
Qed.

Lemma value_end_number (rest : string) : value_end rest = true -> number_end rest = true.
Proof.
  destruct rest as [|c r]; [reflexivity|]. cbn [value_end number_end]. intros H.
  destruct c as [[] [] [] [] [] [] [] []]; try discriminate H; reflexivity.
Qed.

(** The text of an array or object that is not empty: an opening, the
    members with a comma between them, a closing, and white space. *)
Lemma wrap_shape (pretty : bool) (opening closing indent : string) (partial : list string) :
  partial <> [] -> Node.skip_ws indent = "" ->
  exists ws cl,
    Node.skip_ws ws = "" /\ Node.skip_ws cl = ""
    /\ (forall s, value_end s = true -> value_end (cl ++ s) = true)
    /\ forall rest,
         wrap (if pretty then "  " else "") opening closing indent partial ++ rest
         = opening ++ ws ++ String.concat ("," ++ ws) partial ++ cl ++ closing ++ rest.
Proof.
  intros Hp Hi. destruct partial as [|t ts]; [contradiction|]. destruct pretty.
  - exists (nl ++ indent ++ "  "), (nl ++ indent). split; [|split; [|split]].
    + cbn [nl append Node.skip_ws]. change (Node.is_ws (ascii_of_N 10)) with true. cbv iota.
      rewrite (skip_ws_app indent _ Hi). reflexivity.
    + cbn [nl append Node.skip_ws]. change (Node.is_ws (ascii_of_N 10)) with true. cbv iota.
      exact Hi.
    + intros s _. reflexivity.
    + intros rest. unfold wrap. change (String.eqb "  " "") with false. cbv iota.
      rewrite !append_assoc. reflexivity.
  - exists "", "". split; [reflexivity|]. split; [reflexivity|]. split.
    + intros s Hs. exact Hs.
    + intros rest. unfold wrap. change (String.eqb "" "") with true. cbv iota.
      rewrite !append_assoc. reflexivity.
Qed.

Lemma concat_head (sep t : string) (ts : list string) :
  exists more, String.concat sep (t :: ts) = t ++ more.
Proof.
  destruct ts as [|t2 ts].
  - exists "". cbn [String.concat]. rewrite append_empty_r. reflexivity.
  - eexists. apply concat_cons.
Qed.

(** An array and an object with members, from the reading of the members. *)
Lemma parse_array (pf : nat) (body t more rest : string) (l : list value) :
  value_start t = true -> Node.skip_ws body = t ++ more ->
  Node.parse_elements pf body = Some (l, rest) ->
  Node.parse_value (S pf) ("[" ++ body) = Some (VArray l, rest).
Proof.
  intros Ht Hs Hel. cbn [append Node.parse_value Node.skip_ws].
  change (Node.is_ws "[") with false. cbv iota.
  change (Ascii.eqb "[" dquote) with false. change (Ascii.eqb "[" "[") with true. cbv iota.
  rewrite Hs, Hel. destruct t as [|c t]; [discriminate Ht|].
  cbn [value_start] in Ht. apply andb_true_iff in Ht. destruct Ht as [_ Ht].
  apply negb_true_iff in Ht. cbn [append]. rewrite Ht. reflexivity.
Qed.

Lemma parse_object (pf : nat) (body more rest : string) (l : list (string * value)) :
  Node.skip_ws body = String dquote more ->
  Node.parse_members pf [] body = Some (l, rest) ->
  Node.parse_value (S pf) ("{" ++ body) = Some (VObject l, rest).
Proof.
  intros Hs Hel. cbn [append Node.parse_value Node.skip_ws].
  change (Node.is_ws "{") with false. cbv iota.
  change (Ascii.eqb "{" dquote) with false. change (Ascii.eqb "{" "[") with false.
  change (Ascii.eqb "{" "{") with true. cbv iota.
  rewrite Hs, Hel. change (Ascii.eqb dquote "}") with false. reflexivity.
Qed.

Lemma array_texts (F : value -> option (result (option string))) (l : list value)
      (partial : list string) :
  (forall e strP, In e l -> F e = Some (Ok strP) -> exists t, strP = Some t /\ reads_value e t) ->
  SerializeJSONArray F l = Some (Ok partial) -> Forall2 reads_value l partial.
Proof.
  revert partial. induction l as [|e l IH]; intros partial HF; cbn [SerializeJSONArray].
  - intros [= <-]. constructor.
  - destruct (F e) as [[strP|x]|] eqn:He; try discriminate.
    destruct (SerializeJSONArray F l) as [[p|x]|]; try discriminate.
    intros [= <-]. destruct (HF e strP (or_introl eq_refl) He) as (t & -> & Hr).
    constructor; [exact Hr|]. apply IH; [|reflexivity].
    intros e' s Hin. apply HF. right. exact Hin.
Qed.

Lemma object_texts (pretty : bool) (F : value -> option (result (option string)))
      (props : list (string * value)) (partial : list string) :
  (forall kv strP, In kv props -> F (snd kv) = Some (Ok strP)
                   -> exists t, strP = Some t /\ reads_value (snd kv) t) ->
  SerializeJSONObject (if pretty then "  " else "") F props = Some (Ok partial) ->
  Forall2 reads_member props partial.
Proof.
  revert partial. induction props as [|[k e] props IH]; intros partial HF; cbn [SerializeJSONObject].
  - intros [= <-]. constructor.
  - destruct (F e) as [[strP|x]|] eqn:He; try discriminate.
    destruct (SerializeJSONObject _ F props) as [[p|x]|]; try discriminate.
    destruct (HF (k, e) strP (or_introl eq_refl) He) as (t & -> & Hr).
    intros [= <-]. constructor.
    + exists t, (if String.eqb (if pretty then "  " else "") "" then "" else " ").
      split; [reflexivity|]. split; [destruct pretty; reflexivity | exact Hr].
    + apply IH; [|reflexivity]. intros kv s Hin. apply HF. right. exact Hin.
Qed.

Lemma literal_word (word : string) (v : value) (rest : string) :
  Node.literal word v (word ++ rest) = Some (v, rest).
Proof. unfold Node.literal. rewrite prefix_append, drop_append. reflexivity. Qed.

(** What [JSON.stringify] writes for a value of JSON is a text that the
    reader of values reads as the value. *)
Lemma written_value_reads (pretty : bool) :
  forall (f : nat) (v : value) (indent : string) (strP : option string),
    json v = true -> Node.skip_ws indent = "" ->
    SerializeJSONProperty (P := Node.platform) no_replacer (if pretty then "  " else "")
                          f indent v = Some (Ok strP) ->
    exists text, strP = Some text /\ reads_value v text.
Proof.
  induction f as [|f IH]; intros v indent strP Hj Hi Hw; [discriminate Hw|].
  rewrite walk_step in Hw. cbn [no_replacer] in Hw.
  assert (Hi' : Node.skip_ws (indent ++ (if pretty then "  " else "")) = "").
  { rewrite (skip_ws_app indent _ Hi). destruct pretty; reflexivity. }
  destruct v as [| |b|n|z|s|l|props]; try discriminate Hj.
  - injection Hw as <-. eexists. split; [reflexivity|]. split; [reflexivity|].
    intros pf rest _ Hlen. destruct pf as [|pf]; [cbn in Hlen; lia|].
    exact (literal_word "null" VNull rest).
  - injection Hw as <-. eexists. split; [reflexivity|]. split; [destruct b; reflexivity|].
    intros pf rest _ Hlen. destruct pf as [|pf]; [lia|].
    destruct b; [exact (literal_word "true" (VBool true) rest)
                | exact (literal_word "false" (VBool false) rest)].
  - cbn [json] in Hj. rewrite (json_number_finite n Hj) in Hw. injection Hw as <-.
    change (@Number_toString Node.platform n) with (Node.Number_toString n).
    pose proof (Number_toString_reads n Hj) as Hn.
    eexists. split; [reflexivity|]. split; [exact (number_literal_start _ _ Hn)|].
    intros pf rest Hend Hlen. destruct pf as [|pf]; [lia|].
    apply parse_number; [exact Hn | exact (value_end_number rest Hend)].
  - injection Hw as <-. eexists. split; [reflexivity|]. split; [reflexivity|].
    intros pf rest _ Hlen. destruct pf as [|pf]; [lia|].
    unfold QuoteJSONString. rewrite append_assoc. cbn [append Node.parse_value Node.skip_ws].
    change (Node.is_ws dquote) with false. cbv iota.
    change (Ascii.eqb dquote dquote) with true. cbv iota.
    rewrite string_literal_quote. reflexivity.
  - destruct (SerializeJSONArray _ l) as [[partial|x]|] eqn:Ha; try discriminate Hw.
    injection Hw as <-. eexists. split; [reflexivity|].
    assert (Hts : Forall2 reads_value l partial).
    { refine (array_texts _ l partial _ Ha).
      intros e strP Hin He. apply (IH e (indent ++ (if pretty then "  " else "")) strP); [|exact Hi'|exact He].
      cbn [json] in Hj. rewrite forallb_forall in Hj. exact (Hj e Hin). }
    destruct Hts as [|e t l ts He Hts].
    + split; [reflexivity|]. intros pf rest _ Hlen. destruct pf as [|pf]; [lia|]. reflexivity.
    + destruct (wrap_shape pretty "[" "]" indent (t :: ts) ltac:(discriminate) Hi)
        as (ws & cl & Hws & Hcl & Hce & Hshape).
      split.
      { pose proof (Hshape "") as H0. rewrite append_empty_r in H0. rewrite H0. reflexivity. }
      intros pf rest Hend Hlen. rewrite Hshape.
      pose proof (f_equal String.length (Hshape "")) as Hl.
      rewrite append_empty_r in Hl. rewrite Hl in Hlen. clear Hl.
      rewrite !length_append in Hlen. cbn [String.length] in Hlen.
      destruct pf as [|pf]; [lia|].
      destruct (concat_head ("," ++ ws) t ts) as (more & Hmore).
      apply (parse_array pf _ t (more ++ cl ++ "]" ++ rest)); [exact (proj1 He)| |].
      * rewrite (skip_ws_app ws _ Hws), Hmore, append_assoc.
        apply skip_ws_start. exact (proj1 He).
      * apply (parse_elements_texts (e :: l) (t :: ts)
                 (Forall2_cons _ _ He Hts) ltac:(discriminate) ws cl rest pf Hws Hcl).
        -- apply Hce. reflexivity.
        -- rewrite !length_append. cbn [String.length]. lia.
  - destruct (SerializeJSONObject _ _ props) as [[partial|x]|] eqn:Ha; try discriminate Hw.
    injection Hw as <-. eexists. split; [reflexivity|].
    cbn [json] in Hj. apply andb_true_iff in Hj. destruct Hj as [Hd Hj].
    assert (Hts : Forall2 reads_member props partial).
    { refine (object_texts pretty _ props partial _ Ha).
      intros [k e] strP Hin He. cbn [snd] in *. apply (IH e (indent ++ (if pretty then "  " else "")) strP); [|exact Hi'|exact He].
      rewrite forallb_forall in Hj. exact (Hj (k, e) Hin). }
    destruct Hts as [|[k e] mt props ms He Hts].
    + split; [reflexivity|]. intros pf rest _ Hlen. destruct pf as [|pf]; [lia|]. reflexivity.
    + destruct (wrap_shape pretty "{" "}" indent (mt :: ms) ltac:(discriminate) Hi)
        as (ws & cl & Hws & Hcl & Hce & Hshape).
      split.
      { pose proof (Hshape "") as H0. rewrite append_empty_r in H0. rewrite H0. reflexivity. }
      intros pf rest Hend Hlen. rewrite Hshape.
      pose proof (f_equal String.length (Hshape "")) as Hl.
      rewrite append_empty_r in Hl. rewrite Hl in Hlen. clear Hl.
      rewrite !length_append in Hlen. cbn [String.length] in Hlen.
      destruct pf as [|pf]; [lia|].
      destruct (concat_head ("," ++ ws) mt ms) as (more & Hmore).
      pose proof He as Hm.
      destruct He as (t & sp & Hmt & Hsp & Ht). cbn [fst snd] in Hmt.
      apply (parse_object pf _ (escape_string k ++ String dquote "" ++ ":" ++ sp ++ t
                                  ++ more ++ cl ++ "}" ++ rest)).
      * rewrite (skip_ws_app ws _ Hws), Hmore, Hmt. unfold QuoteJSONString.
        rewrite !append_assoc. reflexivity.
      * apply (parse_members_texts ((k, e) :: props) (mt :: ms)
                 (Forall2_cons _ _ Hm Hts)
                 ltac:(discriminate) [] ws cl rest pf Hd ltac:(intros ? _ []) Hws Hcl).
        -- apply Hce. reflexivity.
        -- rewrite !length_append. cbn [String.length]. lia.
Qed.

(** The reference platform reads back what it writes: its [JSON.parse]
    makes the value of JSON of the text that its [JSON.stringify] made of
    the value. *)
Lemma reference_JSON_law : JSON_law (P := Node.platform).
Proof.
  intros pretty fuel j text Hj Hw. unfold JSON_stringify in Hw.
  destruct (written_value_reads pretty fuel j "" (Some text) Hj eq_refl Hw)
    as (t & [= <-] & _ & Hrd).
  change (@JSON_parse Node.platform text) with (Node.JSON_parse text).
  unfold Node.JSON_parse.
  pose proof (Hrd (2 * String.length text + 2)%nat "" eq_refl ltac:(lia)) as Hp.
  rewrite append_empty_r in Hp. rewrite Hp. reflexivity.
Qed.




(** The same on the reference platform: 2^53 + 1 comes back as 2^53. *)
Example large_integer_example :
  @serializeCommand Node.platform 2 (count_document (2 ^ 53 + 1)) false
  = Some (Ok (Some ("{" ++ String dquote "count" ++ String dquote ":9007199254740992}")))
  /\ Node.JSON_parse ("{" ++ String dquote "count" ++ String dquote ":9007199254740992}")
     = Some (VObject [("count", VNumber (Number_of_bigint (2 ^ 53)))]).
Proof. split; vm_compute; reflexivity. Qed.

(** Outside the supported documents: -0 is written as 0 and read as 0, a
    number that is not finite is written as a [$numberDouble], a date that
    cannot be read is written as null, and so is [undefined]. *)
Example unsupported_values_example :
  @serializeCommand Node.platform 3 (VObject [("x", VNumber (S754_zero true))]) false
  = Some (Ok (Some ("{" ++ String dquote "x" ++ String dquote ":0}")))
  /\ Node.JSON_parse ("{" ++ String dquote "x" ++ String dquote ":0}")
     = Some (VObject [("x", VNumber (S754_zero false))])
  /\ @serializeCommand Node.platform 3 (VObject [("x", VNumber S754_nan)]) false
     = Some (Ok (Some ("{" ++ String dquote "x" ++ String dquote ":{"
                         ++ String dquote "$numberDouble" ++ String dquote ":"
                         ++ String dquote "NaN" ++ String dquote "}}")))
  /\ @serializeCommand Node.platform 3
       (VObject [("x", VObject [("$date", VString "tomorrow")])]) false
     = Some (Ok (Some ("{" ++ String dquote "x" ++ String dquote ":{"
                         ++ String dquote "$date" ++ String dquote ":null}}")))
  /\ @serializeCommand Node.platform 3 (VObject [("x", VUndefined)]) false
     = Some (Ok (Some ("{" ++ String dquote "x" ++ String dquote ":null}"))).
Proof. repeat split; vm_compute; reflexivity. Qed.

(** * Further properties *)

(** ** The HTTP/2 strategy: sessions *)

Section Sessions.
Import Http2.
Context {P : Platform}.

Lemma length_close_at (s : nat) (h : heap) : List.length (close_at s h) = List.length h.
Proof.
  revert s. induction h as [|x h IH]; intros [|s]; cbn [close_at List.length];
    try reflexivity. rewrite IH. reflexivity.
Qed.

Lemma is_closed_close_at (s i : nat) (h : heap) :
  is_closed (close_at s h) i = (Nat.eqb i s || is_closed h i)%bool.
Proof.
  unfold is_closed. revert s i. induction h as [|x h IH]; intros s i.
  - destruct s, i; cbn; rewrite ?orb_true_r; reflexivity.
  - destruct s as [|s], i as [|i]; cbn [close_at nth_error Nat.eqb session_closed orb];
      try reflexivity.
    apply IH.
Qed.

Lemma is_closed_beyond (h : heap) (i : nat) :
  (List.length h <= i)%nat -> is_closed h i = true.
Proof.
  intros H. unfold is_closed.
  apply nth_error_None in H. rewrite H. reflexivity.
Qed.

Lemma is_closed_older (h : heap) (x : ClientHttp2Session) (i : nat) :
  (i < List.length h)%nat -> is_closed (h ++ [x])%list i = is_closed h i.
Proof. intros H. unfold is_closed. rewrite nth_error_app1 by exact H. reflexivity. Qed.

Lemma same_strategy (this : HTTP2Strategy) :
  {| origin := origin this; closed := closed this; session := session this |} = this.
Proof. destruct this; reflexivity. Qed.

(** X1.  While the session of a strategy that was not closed is open, a
    request opens no session: the strategy and the sessions are as before,
    and the stream of the request is on the session of the strategy. *)
Theorem open_session_is_reused (this : HTTP2Strategy) (h : heap)
        (info : InternalHTTPRequestInfo) :
  closed this = false ->
  is_closed h (session this) = false ->
  fst (request this h info) = (this, h)
  /\ exists req, ex_stream (snd (request this h info)) = Some req
                 /\ stream_session req = session this
                 /\ stream_headers req = request_headers this info.
Proof.
  intros Hc Hs. unfold request. rewrite Hc, Hs.
  assert (Hh : forall t, request_headers
                 {| origin := origin this; closed := false; session := t |} info
               = request_headers this info) by reflexivity.
  destruct (truthy (data info)); [destruct (serializer info (data info))|];
    cbn [fst snd]; rewrite <- Hc at 1; rewrite same_strategy;
    (split; [reflexivity | eexists; repeat split; apply Hh]).
Qed.

Lemma apply_single_live (st : HTTP2Strategy * heap) (op : operation) :
  single_live st -> single_live (apply st op).
Proof.
  destruct st as [this h]. intros [Hlt Hothers]. cbn [fst snd] in Hlt, Hothers.
  destruct op as [info| |s]; cbn [apply fst snd].
  - unfold request. destruct (closed this) eqn:Hc; [split; assumption|].
    destruct (is_closed h (session this)) eqn:Hs.
    + unfold _reviveSession. rewrite Hs. cbn [negb]. unfold connect.
      assert (Hnew : single_live
                ({| origin := origin this; closed := false; session := List.length h |},
                 (h ++ [{| session_origin := origin this; session_closed := false;
                           session_handlers := ["error"; "socketError"] |}])%list)).
      { split; cbn [fst snd session].
        - rewrite length_app. cbn. lia.
        - intros i Hi. destruct (Nat.lt_ge_cases i (List.length h)) as [Hlow|Hhigh].
          + rewrite is_closed_older by exact Hlow.
            destruct (Nat.eq_dec i (session this)) as [->|Hne]; [exact Hs | exact (Hothers i Hne)].
          + apply is_closed_beyond. rewrite length_app. cbn. lia. }
      destruct (truthy (data info)); [destruct (serializer info (data info))|]; exact Hnew.
    + destruct (truthy (data info)); [destruct (serializer info (data info))|];
        (split; cbn [fst snd session]; assumption).
  - unfold close. split; cbn [fst snd session].
    + rewrite length_close_at. exact Hlt.
    + intros i Hi. rewrite is_closed_close_at, (Hothers i Hi). apply orb_true_r.
  - split; cbn [fst snd].
    + rewrite length_close_at. exact Hlt.
    + intros i Hi. rewrite is_closed_close_at, (Hothers i Hi). apply orb_true_r.
Qed.

(** X2.  A strategy never holds two live sessions: from its construction
    on, whatever is called on it and whichever sessions the peer closes,
    its session is one of the sessions opened, and every other session is
    closed. *)
Theorem one_live_session (baseURL : string) (st : HTTP2Strategy * heap)
        (ops : list operation) :
  HTTP2Strategy_new baseURL [] = Ok st ->
  single_live (apply_all st ops).
Proof.
  intros Hnew.
  assert (H0 : single_live st).
  { unfold HTTP2Strategy_new in Hnew. destruct (URL_origin baseURL) as [o|e]; [|discriminate].
    cbn [bind] in Hnew. destruct (connectable o); [|discriminate].
    cbn in Hnew. injection Hnew as <-. split; cbn.
    - lia.
    - intros [|i] Hi; [contradiction | apply is_closed_beyond; cbn; lia]. }
  clear Hnew. revert st H0. induction ops as [|op ops IH]; intros st H0; [exact H0|].
  cbn [apply_all fold_left]. apply IH. apply apply_single_live. exact H0.
Qed.

(** X3.  [close] marks the session of the strategy closed, and a second
    [close] changes nothing. *)
Theorem close_is_idempotent (this : HTTP2Strategy) (h : heap) :
  is_closed (snd (close this h)) (session this) = true
  /\ close (fst (close this h)) (snd (close this h)) = close this h.
Proof.
  unfold close. cbn [fst snd origin closed session]. split.
  - rewrite is_closed_close_at, Nat.eqb_refl. reflexivity.
  - f_equal. generalize (session this) as s. intros s. revert s.
    induction h as [|x h IH]; intros [|s]; cbn [close_at]; try reflexivity.
    rewrite IH. reflexivity.
Qed.
End Sessions.

Lemma one_live_session_witness :
  single_live
    (@Http2.apply_all Node.platform (example_strategy, example_heap)
       [Http2.CallRequest example_info; Http2.PeerCloses 0; Http2.CallRequest example_info;
        Http2.CallRequest example_info; Http2.CallClose]).
Proof.
  exact (@one_live_session Node.platform
           "https://db-region.apps.astra.datastax.com/api/json/v1"
           (example_strategy, example_heap) _ eq_refl).
Defined.

Lemma open_session_is_reused_witness :
  fst (@Http2.request Node.platform example_strategy example_heap example_info)
  = (example_strategy, example_heap)
  /\ exists req,
      Http2.ex_stream (snd (@Http2.request Node.platform example_strategy example_heap
                              example_info)) = Some req
      /\ Http2.stream_session req = Http2.session example_strategy
      /\ Http2.stream_headers req
         = @Http2.request_headers Node.platform example_strategy example_info.
Proof.
  exact (@open_session_is_reused Node.platform example_strategy example_heap example_info
           eq_refl eq_refl).
Defined.

(** ** The HTTP/2 strategy: exchanges *)

Section Exchanges.
Import Http2.
Context {P : Platform}.

Lemma run_app (x : Exchange) (evs later : list event) :
  run x (evs ++ later)%list = run (run x evs) later.
Proof. unfold run. apply fold_left_app. Qed.

(** X4.  A request that was sent and whose exchange completes with a body
    that [JSON.parse] accepts is fulfilled with the status of the response
    headers ([0] when they carry none) and the value parsed; nothing that
    the timer or the stream does afterwards changes that. *)
Theorem well_formed_body_fulfils (this : HTTP2Strategy) (h : heap)
        (info : InternalHTTPRequestInfo) (st : option Z) (chunks : list string)
        (d : value) (later : list event) :
  closed this = false ->
  let x := snd (request this h info) in
  ex_promise x = Pending ->
  JSON_parse (chunks_text chunks) = Some d ->
  let y := run x (OnResponse st :: map OnData chunks ++ [OnEnd])%list in
  ex_promise y
  = Fulfilled {| resp_status := match st with Some c => c | None => 0 end; resp_data := d |}
  /\ ex_promise (run y later) = ex_promise y
  /\ ex_timer (run y later) = Cleared.
Proof.
  intros Hc x Hp Hgood y.
  destruct (request_sent this h info Hc Hp) as (s & w & Hx). fold x in Hx.
  assert (Hy : ex_promise y
               = Fulfilled {| resp_status := match st with Some c => c | None => 0 end;
                              resp_data := d |}
               /\ ex_timer y = Cleared).
  { unfold y. cbn [run fold_left]. rewrite fold_left_app. cbn [fold_left].
    set (x1 := handle x (OnResponse st)).
    fold (run x1 (map OnData chunks)).
    assert (Hl1 : listens x1 "data" = true).
    { unfold listens, x1. rewrite handle_stream, Hx. reflexivity. }
    destruct (run_data chunks x1 Hl1) as (Hb & Hpr & Hst).
    assert (Hb1 : ex_responseBody x1 = "") by (unfold x1; rewrite Hx; reflexivity).
    assert (Hp1 : ex_promise x1 = Pending) by (unfold x1; rewrite Hx; reflexivity).
    assert (Hs1 : ex_status x1 = match st with Some c => c | None => 0 end)
      by (unfold x1; rewrite Hx; reflexivity).
    assert (Ht1 : ex_timer x1 = Cleared) by (unfold x1; rewrite Hx; reflexivity).
    rewrite Hb1 in Hb. cbn [String.append] in Hb.
    assert (Hle : listens (run x1 (map OnData chunks)) "end" = true).
    { unfold listens. rewrite run_stream. unfold x1. rewrite handle_stream, Hx. reflexivity. }
    cbn [handle]. rewrite Hle, Hb, Hgood. cbn [with_promise ex_promise ex_timer].
    rewrite Hpr, Hp1, Hst, Hs1. split; [reflexivity|].
    assert (Ht : ex_timer (run x1 (map OnData chunks)) = Cleared).
    { clear Hb Hpr Hst Hle. revert Ht1. generalize x1. clear.
      induction chunks as [|c chunks IH]; intros z Hz; [exact Hz|].
      cbn [map run fold_left]. apply IH. cbn [handle].
      destruct (listens z "data"); exact Hz. }
    rewrite Ht. reflexivity. }
  destruct Hy as [Hy Ht]. split; [exact Hy|]. split.
  - apply run_settled. rewrite Hy. discriminate.
  - revert Ht. generalize y. clear. induction later as [|ev later IH]; intros z Hz; [exact Hz|].
    cbn [run fold_left]. apply IH.
    destruct ev; cbn [handle];
      repeat match goal with
             | |- context [match ?c with _ => _ end] => destruct c eqn:?
             end; cbn [with_promise ex_timer]; rewrite ?Hz; try reflexivity; congruence.
Qed.

Lemma handle_quiet (z : Exchange) (ev : event) :
  quiet ev -> ex_timer z <> Armed ->
  ex_promise (handle z ev) = ex_promise z /\ ex_timer (handle z ev) <> Armed.
Proof.
  intros Hq Ht. destruct ev; cbn [quiet] in Hq; try contradiction; cbn [handle].
  - destruct (ex_timer z) eqn:E; try (split; [reflexivity | congruence]).
    contradiction.
  - destruct (listens z "response"); cbn [ex_promise ex_timer];
      (split; [reflexivity|]); [apply clearTimeout_not_armed | exact Ht].
  - destruct (listens z "data"); cbn [ex_promise ex_timer]; (split; [reflexivity | exact Ht]).
Qed.

(** X5.  The timeout guards a request only until the headers of the
    response arrive: from then on, as long as the stream neither ends nor
    fails, the promise stays pending, whatever else happens and however
    often the timer is due. *)
Theorem response_disarms_timeout (this : HTTP2Strategy) (h : heap)
        (info : InternalHTTPRequestInfo) (st : option Z) (evs : list event) :
  closed this = false ->
  let x := snd (request this h info) in
  ex_promise x = Pending ->
  Forall quiet evs ->
  ex_promise (run x (OnResponse st :: evs)) = Pending
  /\ ex_timer (run x (OnResponse st :: evs)) = Cleared.
Proof.
  intros Hc x Hp Hq.
  destruct (request_sent this h info Hc Hp) as (s & w & Hx). fold x in Hx.
  cbn [run fold_left]. set (x1 := handle x (OnResponse st)).
  assert (Hp1 : ex_promise x1 = Pending) by (unfold x1; rewrite Hx; reflexivity).
  assert (Ht1 : ex_timer x1 = Cleared) by (unfold x1; rewrite Hx; reflexivity).
  revert Hp1 Ht1. generalize x1. clear - Hq.
  induction Hq as [|ev evs Hev Hevs IH]; intros z Hz Ht; [split; assumption|].
  cbn [fold_left]. apply IH.
  - destruct (handle_quiet z ev Hev) as [Hpz _]; [congruence|]. rewrite Hpz. exact Hz.
  - destruct ev; cbn [quiet] in Hev; try contradiction; cbn [handle].
    + rewrite Ht. exact Ht.
    + destruct (listens z "response"); cbn [ex_timer]; rewrite ?Ht; reflexivity.
    + destruct (listens z "data"); cbn [ex_timer]; exact Ht.
Qed.

(** X6.  When the serializer of a request with a body throws, the promise
    is rejected with what it threw and stays so; the stream was opened
    already and is left without body, without end and without listeners,
    so that no event of the stream reaches the exchange; and the timer
    stays armed until it fires. *)
Theorem serializer_failure_rejects (this : HTTP2Strategy) (h : heap)
        (info : InternalHTTPRequestInfo) (e : exn) (evs : list event) :
  closed this = false ->
  truthy (data info) = true ->
  serializer info (data info) = Throw e ->
  let x := snd (request this h info) in
  ex_promise x = Rejected e
  /\ ex_timer x = Armed
  /\ (exists req, ex_stream x = Some req
                  /\ stream_written req = None /\ stream_ended req = false
                  /\ stream_listeners req = [])
  /\ ex_promise (run x evs) = Rejected e
  /\ (forall ev, ev <> TimerFires -> handle x ev = x)
  /\ ex_timer (handle x TimerFires) = Fired.
Proof.
  intros Hc Hd He x.
  assert (Hx : exists s,
             x = {| ex_info := info; ex_promise := Rejected e; ex_timer := Armed;
                    ex_stream := Some (session_request s (request_headers this info));
                    ex_status := 0; ex_responseBody := "" |}).
  { unfold x, request. rewrite Hc.
    destruct (if is_closed h (session this) then _ else _) as [s h1].
    rewrite Hd, He. exists s. reflexivity. }
  destruct Hx as [s Hx]. rewrite Hx.
  split; [reflexivity|]. split; [reflexivity|].
  split; [eexists; repeat split|].
  split; [apply run_settled; discriminate|].
  split; [|reflexivity].
  intros [|st'|e'|c|] Hev; try reflexivity. contradiction.
Qed.

Lemma handle_flowing (z : Exchange) (ev : event) :
  flowing ev -> ex_promise (handle z ev) = ex_promise z.
Proof.
  destruct ev; cbn [flowing]; try contradiction; intros _; cbn [handle].
  - destruct (listens z "response"); reflexivity.
  - destruct (listens z "data"); reflexivity.
Qed.

Lemma run_flowing (evs : list event) (z : Exchange) :
  Forall flowing evs -> ex_promise (run z evs) = ex_promise z.
Proof.
  intros H. revert z. induction H as [|ev evs Hev _ IH]; intros z; [reflexivity|].
  cbn [run fold_left]. fold (run (handle z ev) evs). rewrite IH. apply handle_flowing, Hev.
Qed.

(** X7.  An error of the stream of a request that was sent, before or
    after the headers and chunks of a response, rejects the promise with
    that very error and disarms the timer; an end of the stream that comes
    later does not fulfil the promise. *)
Theorem stream_error_rejects (this : HTTP2Strategy) (h : heap)
        (info : InternalHTTPRequestInfo) (before later : list event) (e : exn) :
  closed this = false ->
  let x := snd (request this h info) in
  ex_promise x = Pending ->
  Forall flowing before ->
  ex_promise (run x (before ++ OnError e :: later)%list) = Rejected e
  /\ ex_timer (run x (before ++ [OnError e])%list) = Cleared.
Proof.
  intros Hc x Hp Hb.
  destruct (request_sent this h info Hc Hp) as (s & w & Hx). fold x in Hx.
  assert (Hl : listens (run x before) "error" = true).
  { unfold listens. rewrite run_stream, Hx. reflexivity. }
  assert (Hpb : ex_promise (run x before) = Pending).
  { rewrite run_flowing by exact Hb. exact Hp. }
  split.
  - rewrite run_app. cbn [run fold_left]. fold (run (handle (run x before) (OnError e)) later).
    assert (Hrej : ex_promise (handle (run x before) (OnError e)) = Rejected e).
    { cbn [handle]. rewrite Hl. cbn [with_promise ex_promise]. rewrite Hpb. reflexivity. }
    rewrite run_settled; [exact Hrej | rewrite Hrej; discriminate].
  - rewrite run_app. cbn [run fold_left handle]. rewrite Hl. cbn [with_promise ex_timer].
    assert (Ht : ex_timer (run x before) = Armed \/ ex_timer (run x before) = Cleared).
    { assert (H0 : ex_timer x = Armed \/ ex_timer x = Cleared) by (left; rewrite Hx; reflexivity).
      revert H0. generalize x. clear - Hb.
      induction Hb as [|ev evs Hev _ IH]; intros z Hz; [exact Hz|].
      cbn [run fold_left]. apply IH.
      destruct ev; cbn [flowing] in Hev; try contradiction; cbn [handle].
      - destruct (listens z "response"); cbn [ex_timer]; [|exact Hz].
        right. destruct Hz as [-> | ->]; reflexivity.
      - destruct (listens z "data"); cbn [ex_timer]; exact Hz. }
    destruct Ht as [-> | ->]; reflexivity.
Qed.


(** X8.  The [:path] header of the stream of a request whose URL starts
    with the origin of the strategy is the rest of the URL, followed by
    [?] and the encoded parameters when the request has parameters, even
    if there are none of them. *)
Theorem path_is_the_url_without_origin (this : HTTP2Strategy) (h : heap)
        (info : InternalHTTPRequestInfo) (p : string) :
  closed this = false ->
  url info = origin this ++ p ->
  exists req,
    ex_stream (snd (request this h info)) = Some req
    /\ h_path (stream_headers req)
       = p ++ match params info with
              | Some ps => "?" ++ URLSearchParams_toString ps
              | None => ""
              end.
Proof.
  intros Hc Hu.
  assert (Hpath : h_path (request_headers this info)
                  = p ++ match params info with
                         | Some ps => "?" ++ URLSearchParams_toString ps
                         | None => ""
                         end).
  { unfold request_headers. cbn [h_path]. rewrite Hu.
    assert (Hr : remove_first (origin this) (origin this ++ p) = p).
    { destruct (origin this ++ p) eqn:E; cbn [remove_first]; rewrite <- E;
        rewrite prefix_append; apply drop_append. }
    rewrite Hr. reflexivity. }
  unfold request. rewrite Hc.
  destruct (if is_closed h (session this) then _ else _) as [s h1].
  destruct (truthy (data info)); [destruct (serializer info (data info))|];
    cbn [snd ex_stream]; eexists; (split; [reflexivity | exact Hpath]).
Qed.
End Exchanges.

Lemma well_formed_body_fulfils_witness :
  let x := snd (@Http2.request Node.platform example_strategy example_heap example_info) in
  let y := Http2.run (P:=Node.platform) x
             [Http2.OnResponse (Some 200); Http2.OnData "{";
              Http2.OnData (String dquote "status" ++ String dquote ":{}}"); Http2.OnEnd] in
  Http2.ex_promise y
  = Http2.Fulfilled {| Http2.resp_status := 200;
                       Http2.resp_data := VObject [("status", VObject [])] |}
  /\ Http2.ex_promise (Http2.run (P:=Node.platform) y [Http2.TimerFires; Http2.OnError (StreamError "ECONNRESET")])
     = Http2.ex_promise y
  /\ Http2.ex_timer (Http2.run (P:=Node.platform) y [Http2.TimerFires; Http2.OnError (StreamError "ECONNRESET")])
     = Http2.Cleared.
Proof.
  exact (@well_formed_body_fulfils Node.platform example_strategy example_heap example_info
           (Some 200) ["{"; String dquote "status" ++ String dquote ":{}}"]
           (VObject [("status", VObject [])])
           [Http2.TimerFires; Http2.OnError (StreamError "ECONNRESET")]
           eq_refl eq_refl eq_refl).
Defined.

Lemma response_disarms_timeout_witness :
  let x := snd (@Http2.request Node.platform example_strategy example_heap example_info) in
  Http2.ex_promise (Http2.run (P:=Node.platform) x
                      [Http2.OnResponse (Some 200); Http2.OnData "{"; Http2.TimerFires])
  = Http2.Pending
  /\ Http2.ex_timer (Http2.run (P:=Node.platform) x
                       [Http2.OnResponse (Some 200); Http2.OnData "{"; Http2.TimerFires])
     = Http2.Cleared.
Proof.
  exact (@response_disarms_timeout Node.platform example_strategy example_heap example_info
           (Some 200) [Http2.OnData "{"; Http2.TimerFires] eq_refl eq_refl
           (Forall_cons (Http2.OnData "{") (I : quiet (Http2.OnData "{"))
              (Forall_cons Http2.TimerFires (I : quiet Http2.TimerFires) (Forall_nil _)))).
Defined.

Lemma serializer_failure_rejects_witness :
  let e := TypeError "The first argument must be of type string or an instance of Buffer, ArrayBuffer, or Array or an Array-like Object" in
  let x := snd (@Http2.request Node.platform example_strategy example_heap failing_info) in
  Http2.ex_promise x = Http2.Rejected e
  /\ Http2.ex_timer x = Http2.Armed
  /\ (exists req, Http2.ex_stream x = Some req
                  /\ Http2.stream_written req = None /\ Http2.stream_ended req = false
                  /\ Http2.stream_listeners req = [])
  /\ Http2.ex_promise (Http2.run (P:=Node.platform) x [Http2.OnResponse (Some 200); Http2.OnEnd])
     = Http2.Rejected e
  /\ (forall ev, ev <> Http2.TimerFires -> Http2.handle (P:=Node.platform) x ev = x)
  /\ Http2.ex_timer (Http2.handle (P:=Node.platform) x Http2.TimerFires) = Http2.Fired.
Proof.
  exact (@serializer_failure_rejects Node.platform example_strategy example_heap failing_info
           (TypeError "The first argument must be of type string or an instance of Buffer, ArrayBuffer, or Array or an Array-like Object")
           [Http2.OnResponse (Some 200); Http2.OnEnd] eq_refl eq_refl eq_refl).
Defined.

Lemma stream_error_rejects_witness :
  let x := snd (@Http2.request Node.platform example_strategy example_heap example_info) in
  Http2.ex_promise (Http2.run (P:=Node.platform) x
                      ([Http2.OnResponse (Some 200); Http2.OnData "{}"]
                         ++ Http2.OnError (StreamError "ECONNRESET") :: [Http2.OnEnd])%list)
  = Http2.Rejected (StreamError "ECONNRESET")
  /\ Http2.ex_timer (Http2.run (P:=Node.platform) x
                       ([Http2.OnResponse (Some 200); Http2.OnData "{}"]
                          ++ [Http2.OnError (StreamError "ECONNRESET")])%list)
     = Http2.Cleared.
Proof.
  exact (@stream_error_rejects Node.platform example_strategy example_heap example_info
           [Http2.OnResponse (Some 200); Http2.OnData "{}"] [Http2.OnEnd] (StreamError "ECONNRESET")
           eq_refl eq_refl
           (Forall_cons (Http2.OnResponse (Some 200)) (I : flowing (Http2.OnResponse (Some 200)))
              (Forall_cons (Http2.OnData "{}") (I : flowing (Http2.OnData "{}"))
                 (Forall_nil _)))).
Defined.

Lemma path_is_the_url_without_origin_witness :
  exists req,
    Http2.ex_stream (snd (@Http2.request Node.platform example_strategy example_heap
                            example_info)) = Some req
    /\ Http2.h_path (Http2.stream_headers req) = "/api/json/v1/ks/users" ++ "?" ++ "".
Proof.
  exact (@path_is_the_url_without_origin Node.platform example_strategy example_heap
           example_info "/api/json/v1/ks/users" eq_refl eq_refl).
Defined.

(** ** The errors of the DevOps API, beyond well-formed bodies *)

Section ErrorConstruction.
Import DevOps.
Context {P : Platform}.

Lemma member_throws (e : value) (k : string) (x : exn) :
  member e k = Throw x -> exists msg, x = TypeError msg.
Proof. destruct e; cbn; intros H; inversion H; eexists; reflexivity. Qed.

Lemma member_ok (e : value) (k : string) (v : value) :
  member e k = Ok v -> nullish e = false.
Proof. destruct e; cbn; intros H; try discriminate; reflexivity. Qed.

Lemma map_descriptors_ok (es : list value) (ds : list DevOpsAPIErrorDescriptor) :
  map_descriptors es = Ok ds -> Forall (fun e => nullish e = false) es.
Proof.
  revert ds. induction es as [|e es IH]; intros ds H; [constructor|].
  cbn [map_descriptors] in H.
  destruct (member e "ID") as [i|x] eqn:Hi; cbn [bind] in H; [|discriminate].
  destruct (member e "message") as [m|x] eqn:Hm; cbn [bind] in H; [|discriminate].
  destruct (map_descriptors es) as [ds'|x] eqn:Hd; cbn [bind] in H; [|discriminate].
  constructor; [exact (member_ok _ _ _ Hi) | exact (IH _ eq_refl)].
Qed.

Lemma map_descriptors_throws (es : list value) (x : exn) :
  map_descriptors es = Throw x -> exists msg, x = TypeError msg.
Proof.
  induction es as [|e es IH]; intros H; [discriminate|].
  cbn [map_descriptors] in H.
  destruct (member e "ID") as [i|y] eqn:Hi; cbn [bind] in H;
    [|inversion H; subst; exact (member_throws _ _ _ Hi)].
  destruct (member e "message") as [m|y] eqn:Hm; cbn [bind] in H;
    [|inversion H; subst; exact (member_throws _ _ _ Hm)].
  destruct (map_descriptors es) as [ds'|y] eqn:Hd; cbn [bind] in H; [discriminate|].
  inversion H; subst. apply IH. reflexivity.
Qed.

Lemma find_with_message_throws (es : list value) (x : exn) :
  find_with_message es = Throw x -> exists msg, x = TypeError msg.
Proof.
  induction es as [|e es IH]; intros H; [discriminate|].
  cbn [find_with_message] in H.
  destruct (member e "message") as [m|y] eqn:Hm; cbn [bind] in H;
    [|inversion H; subst; exact (member_throws _ _ _ Hm)].
  destruct (truthy m); [discriminate | exact (IH H)].
Qed.

Lemma nullish_not_truthy (v : value) : nullish v = true -> truthy v = false.
Proof. destruct v; cbn; intros H; try discriminate; reflexivity. Qed.

(** The error of a response without a list of errors. *)
Lemma error_without_entries (resp : GuaranteedAPIResponse) :
  nullish (get_opt (g_data resp) "errors") = true ->
  DevOpsAPIResponseError_new resp
  = Ok {| error_message := "Something went wrong"; errors := [];
          status := g_status resp; name := "DevOpsAPIResponseError" |}.
Proof.
  intros H. unfold DevOpsAPIResponseError_new, extractErrorDescriptors.
  rewrite H, (nullish_not_truthy _ H). reflexivity.
Qed.


End ErrorConstruction.



(** ** The definition of a new database *)

Section Databases.
Import DevOps.

Lemma lookup_update (k k' : string) (v : value) (props : list (string * value)) :
  lookup k (update k' v props) = if String.eqb k k' then Some v else lookup k props.
Proof.
  induction props as [|[k0 v0] props IH]; cbn [update lookup]; [reflexivity|].
  destruct (String.eqb k' k0) eqn:E0; cbn [lookup].
  - apply String.eqb_eq in E0. subst k0. destruct (String.eqb k k'); reflexivity.
  - rewrite IH. destruct (String.eqb k k0) eqn:E1; [|reflexivity].
    destruct (String.eqb k k') eqn:E2; [|reflexivity].
    apply String.eqb_eq in E1, E2. subst. rewrite String.eqb_refl in E0. discriminate.
Qed.

Lemma lookup_absent (k : string) (props : list (string * value)) :
  ~ In k (map fst props) -> lookup k props = None.
Proof.
  induction props as [|[k0 v0] props IH]; cbn [map fst In lookup]; intros H; [reflexivity|].
  destruct (String.eqb k k0) eqn:E.
  - apply String.eqb_eq in E. subst. exfalso. apply H. left. reflexivity.
  - apply IH. intros Hin. apply H. right. exact Hin.
Qed.

(** [{ ...a, ...b }] reads as [b] where [b] has the key, as [a] elsewhere. *)
Lemma lookup_assign (k : string) (a b : list (string * value)) :
  NoDup (map fst b) ->
  lookup k (assign a b) = match lookup k b with
                          | Some v => Some v
                          | None => lookup k a
                          end.
Proof.
  intros Hb. revert a. induction b as [|[k0 v0] b IH]; intros a; [reflexivity|].
  cbn [assign lookup]. cbn [map fst] in Hb. inversion Hb as [|? ? Hnot Hrest]; subst.
  rewrite (IH Hrest), lookup_update.
  destruct (String.eqb k k0) eqn:E; [|reflexivity].
  apply String.eqb_eq in E. subst k0. rewrite (lookup_absent _ _ Hnot). reflexivity.
Qed.

(** X11.  [createDatabase] posts one definition to [/databases]: each
    property of the configuration is in it with its value, also over a
    default; a configuration without [keyspace] gets the namespace of the
    configuration as keyspace when that is truthy, the default namespace
    otherwise; one without [capacityUnits], [tier] or [dbType] gets [1],
    [serverless] and [vector]; and the database that is then polled for
    [ACTIVE] every ten seconds is the one of the [location] answered, with
    the region and the keyspace of the definition. *)
Theorem createDatabase_definition (config : list (string * value)) (options : value)
        (resp : DevopsRequest -> value) :
  NoDup (map fst config) ->
  exists definition,
    requested resp (createDatabase config options)
    = [{| req_method := Post; req_path := "/databases"; req_data := VObject definition |}]
    /\ (forall k v, lookup k config = Some v -> lookup k definition = Some v)
    /\ (lookup "keyspace" config = None ->
        lookup "keyspace" definition
        = Some (if truthy (get (VObject config) "namespace")
                then get (VObject config) "namespace" else VString DEFAULT_NAMESPACE))
    /\ (lookup "capacityUnits" config = None ->
        lookup "capacityUnits" definition = Some (VNumber (Number_of_bigint 1)))
    /\ (lookup "tier" config = None -> lookup "tier" definition = Some (VString "serverless"))
    /\ (lookup "dbType" config = None -> lookup "dbType" definition = Some (VString "vector"))
    /\ awaited resp (createDatabase config options)
       = [{| aw_target :=
               target_db (resp {| req_method := Post; req_path := "/databases";
                                  req_data := VObject definition |})
                         (get (VObject definition) "region")
                         (get (VObject definition) "keyspace");
             aw_status := "ACTIVE"; aw_legal := ["INITIALIZING"; "PENDING"];
             aw_options := options; aw_interval := 10000 |}].
Proof.
  intros Hk. eexists. split; [reflexivity|].
  split; [|split; [|split; [|split; [|split; [|reflexivity]]]]].
  - intros k v H. rewrite (lookup_assign _ _ _ Hk), H. reflexivity.
  - intros H. rewrite (lookup_assign _ _ _ Hk), H. reflexivity.
  - intros H. rewrite (lookup_assign _ _ _ Hk), H. reflexivity.
  - intros H. rewrite (lookup_assign _ _ _ Hk), H. reflexivity.
  - intros H. rewrite (lookup_assign _ _ _ Hk), H. reflexivity.
Qed.
End Databases.

Lemma createDatabase_definition_witness :
  let resp := fun _ : DevOps.DevopsRequest => VString "https://api.astra.datastax.com/v2/databases/a6a1d8d6" in
  exists definition,
    DevOps.requested resp (DevOps.createDatabase example_config VUndefined)
    = [{| DevOps.req_method := DevOps.Post; DevOps.req_path := "/databases";
          DevOps.req_data := VObject definition |}]
    /\ (forall k v, lookup k example_config = Some v -> lookup k definition = Some v)
    /\ (lookup "keyspace" example_config = None ->
        lookup "keyspace" definition
        = Some (if truthy (get (VObject example_config) "namespace")
                then get (VObject example_config) "namespace"
                else VString DevOps.DEFAULT_NAMESPACE))
    /\ (lookup "capacityUnits" example_config = None ->
        lookup "capacityUnits" definition = Some (VNumber (Number_of_bigint 1)))
    /\ (lookup "tier" example_config = None ->
        lookup "tier" definition = Some (VString "serverless"))
    /\ (lookup "dbType" example_config = None ->
        lookup "dbType" definition = Some (VString "vector"))
    /\ DevOps.awaited resp (DevOps.createDatabase example_config VUndefined)
       = [{| DevOps.aw_target :=
               DevOps.target_db
                 (resp {| DevOps.req_method := DevOps.Post; DevOps.req_path := "/databases";
                          DevOps.req_data := VObject definition |})
                 (get (VObject definition) "region")
                 (get (VObject definition) "keyspace");
             DevOps.aw_status := "ACTIVE"; DevOps.aw_legal := ["INITIALIZING"; "PENDING"];
             DevOps.aw_options := VUndefined; DevOps.aw_interval := 10000 |}].
Proof.
  intros resp. apply (createDatabase_definition example_config VUndefined resp).
  cbn. repeat constructor; cbn; intuition discriminate.
Defined.

(** ** The serializer, beyond the round trip *)

Section Serializer.
Context {P : Platform}.

Lemma length_hex (bs : list byte) :
  String.length (Buffer_toString_hex bs) = (2 * List.length bs)%nat.
Proof. induction bs as [|b bs IH]; cbn [Buffer_toString_hex String.length List.length]; lia. Qed.

(** X12.  The replacer on a binary of subtype [03] or [04] whose text
    does not decode to sixteen bytes: fewer bytes are written as their
    hexadecimal digits, without a hyphen; of more bytes the first sixteen
    are written as an identifier and the digits of the others follow it. *)
Theorem identifier_of_any_length (b t : string) :
  t = "03" \/ t = "04" ->
  let bs := Buffer_from_base64 b in
  handleValues
    (VObject [("$binary", VObject [("base64", VString b); ("subType", VString t)])])
  = Ok (VString (if Nat.ltb (List.length bs) 16 then Buffer_toString_hex bs
                 else uuid_text (firstn 16 bs) ++ Buffer_toString_hex (skipn 16 bs))).
Proof.
  intros Ht bs. rewrite (handleValues_identifier b t Ht). fold bs. do 2 f_equal.
  generalize bs. clear. intros bs.
  destruct (Nat.ltb (List.length bs) 16) eqn:E.
  - apply Nat.ltb_lt in E. unfold uuid_replace.
    assert (H : Nat.leb 32 (String.length (Buffer_toString_hex bs)) = false).
    { apply Nat.leb_gt. rewrite length_hex. lia. }
    rewrite H. reflexivity.
  - apply Nat.ltb_ge in E.
    do 16 (destruct bs as [|? bs]; [cbn in E; lia|]).
    reflexivity.
Qed.

Lemma SerializeJSONArray_ext (f g : value -> option (result (option string)))
      (l : list value) :
  (forall e, In e l -> f e = g e) -> SerializeJSONArray f l = SerializeJSONArray g l.
Proof.
  induction l as [|e l IH]; intros H; [reflexivity|].
  cbn [SerializeJSONArray]. rewrite (H e (or_introl eq_refl)), IH; [reflexivity|].
  intros e' He'. apply H. right. exact He'.
Qed.

Lemma SerializeJSONObject_ext (gap : string) (f g : value -> option (result (option string)))
      (props : list (string * value)) :
  (forall kv, In kv props -> f (snd kv) = g (snd kv)) ->
  SerializeJSONObject gap f props = SerializeJSONObject gap g props.
Proof.
  induction props as [|[k e] props IH]; intros H; [reflexivity|].
  cbn [SerializeJSONObject]. pose proof (H (k, e) (or_introl eq_refl)) as He.
  cbn [snd] in He. rewrite He, IH; [reflexivity|].
  intros kv Hkv. apply H. right. exact Hkv.
Qed.

Lemma handleValues_plain (v : value) : plain v = true -> handleValues v = Ok v.
Proof.
  destruct v as [| |b|n|z|s|l|props]; intros H;
    try (apply handleValues_leaf; exact I); try discriminate H.
  - apply handleValues_array.
  - apply handleValues_plain_object. cbn [plain] in H.
    rewrite forallb_forall in H |- *. intros [k e] Hin. specialize (H _ Hin).
    apply andb_true_iff in H. destruct H as [H _].
    apply andb_true_iff in H. exact (proj1 H).
Qed.

Lemma walk_plain (gap : string) :
  forall (fuel : nat) (v : value) (indent : string),
    plain v = true ->
    SerializeJSONProperty handleValues gap fuel indent v
    = SerializeJSONProperty no_replacer gap fuel indent v.
Proof.
  induction fuel as [|f IH]; intros v indent Hp; [reflexivity|].
  rewrite !walk_step, (handleValues_plain v Hp). cbn [no_replacer].
  destruct v as [| |b|n|z|s|l|props]; try reflexivity.
  - cbn [plain] in Hp. rewrite forallb_forall in Hp.
    rewrite (SerializeJSONArray_ext _ (SerializeJSONProperty no_replacer gap f (indent ++ gap)) l);
      [reflexivity|].
    intros e He. apply IH, Hp, He.
  - cbn [plain] in Hp. rewrite forallb_forall in Hp.
    rewrite (SerializeJSONObject_ext gap _
               (SerializeJSONProperty no_replacer gap f (indent ++ gap)) props);
      [reflexivity|].
    intros [k e] Hin. apply IH. specialize (Hp _ Hin).
    apply andb_true_iff in Hp. exact (proj2 Hp).
Qed.

Lemma height_lookup (k : string) (props : list (string * value)) (v : value) :
  lookup k props = Some v ->
  (height v <= fold_right (fun kv n => Nat.max (let '(_, e) := kv in height e) n) O props)%nat.
Proof.
  induction props as [|[k0 v0] props IH]; cbn [lookup fold_right]; [discriminate|].
  destruct (String.eqb k k0); intros H.
  - injection H as <-. lia.
  - specialize (IH H). lia.
Qed.

Lemma height_get (v : value) (k : string) : (height (get v k) <= height v)%nat.
Proof.
  destruct v as [| |b|n|z|s|l|props]; cbn [get height]; try lia.
  destruct (lookup k props) as [x|] eqn:E; cbn [height]; [|lia].
  pose proof (height_lookup _ _ _ E). lia.
Qed.

Lemma height_update (k : string) (x : value) (props : list (string * value)) :
  height x = O ->
  (fold_right (fun kv n => Nat.max (let '(_, e) := kv in height e) n) O (update k x props)
   <= fold_right (fun kv n => Nat.max (let '(_, e) := kv in height e) n) O props)%nat.
Proof.
  intros Hx. induction props as [|[k0 v0] props IH]; cbn [update fold_right].
  - rewrite Hx. cbn. lia.
  - destruct (String.eqb k k0); cbn [fold_right]; [rewrite Hx; lia | lia].
Qed.

(** The replacer never returns a deeper value than it was given. *)
Lemma handleValues_height (v v' : value) :
  handleValues v = Ok v' -> (height v' <= height v)%nat.
Proof.
  unfold handleValues.
  destruct (truthy v && jstype_eqb (typeof v) TBigInt)%bool.
  { destruct (Number v); cbn [bind]; intros H; inversion H; cbn [height]; lia. }
  destruct (truthy v && jstype_eqb (typeof v) TObject)%bool;
    [|intros H; inversion H; lia].
  destruct (truthy (get v "$oid")).
  { intros H. inversion H. apply height_get. }
  destruct (truthy (get v "$numberDecimal")).
  { destruct (Number (get v "$numberDecimal")); cbn [bind]; intros H; inversion H;
      cbn [height]; lia. }
  destruct (strict_eq_string (get_opt (get v "$binary") "subType") "03"
            || strict_eq_string (get_opt (get v "$binary") "subType") "04")%bool.
  { destruct (Buffer_from (get (get v "$binary") "base64")); cbn [bind]; intros H;
      inversion H; cbn [height]; lia. }
  destruct (truthy (get v "$date")); [|intros H; inversion H; lia].
  destruct (Date_valueOf (get v "$date")) as [d|x]; cbn [bind]; intros H; inversion H.
  destruct v as [| |b|n|z|s|l|props]; cbn [set height]; try lia.
  pose proof (height_update "$date" (VNumber d) props eq_refl). lia.
Qed.

Lemma SerializeJSONArray_total (f : value -> option (result (option string)))
      (l : list value) :
  (forall e, In e l -> f e <> None) -> SerializeJSONArray f l <> None.
Proof.
  induction l as [|e l IH]; intros H; cbn [SerializeJSONArray]; [discriminate|].
  pose proof (H e (or_introl eq_refl)) as He.
  destruct (f e) as [[strP|x]|]; [|discriminate|contradiction].
  assert (Hl : SerializeJSONArray f l <> None)
    by (apply IH; intros e' He'; apply H; right; exact He').
  destruct (SerializeJSONArray f l) as [[partial|x]|]; [discriminate|discriminate|contradiction].
Qed.

Lemma SerializeJSONObject_total (gap : string) (f : value -> option (result (option string)))
      (props : list (string * value)) :
  (forall kv, In kv props -> f (snd kv) <> None) -> SerializeJSONObject gap f props <> None.
Proof.
  induction props as [|[k e] props IH]; intros H; cbn [SerializeJSONObject]; [discriminate|].
  pose proof (H (k, e) (or_introl eq_refl)) as He. cbn [snd] in He.
  destruct (f e) as [[strP|x]|]; [|discriminate|contradiction].
  assert (Hl : SerializeJSONObject gap f props <> None)
    by (apply IH; intros kv Hkv; apply H; right; exact Hkv).
  destruct (SerializeJSONObject gap f props) as [[partial|x]|];
    [discriminate|discriminate|contradiction].
Qed.

Lemma walk_total (gap : string) :
  forall (fuel : nat) (v : value) (indent : string),
    (height v < fuel)%nat -> SerializeJSONProperty handleValues gap fuel indent v <> None.
Proof.
  induction fuel as [|f IH]; intros v indent Hh; [lia|].
  rewrite walk_step.
  destruct (handleValues v) as [v'|x] eqn:Hv; [|discriminate].
  pose proof (handleValues_height _ _ Hv) as Hle.
  destruct v' as [| |b|n|z|s|l|props]; try discriminate.
  - assert (Hl : SerializeJSONArray (SerializeJSONProperty handleValues gap f (indent ++ gap)) l
                 <> None).
    { apply SerializeJSONArray_total. intros e He. apply IH.
      pose proof (height_element e l He). cbn [height] in Hle. lia. }
    destruct (SerializeJSONArray _ l) as [[partial|x]|]; [discriminate|discriminate|contradiction].
  - assert (Hl : SerializeJSONObject gap (SerializeJSONProperty handleValues gap f (indent ++ gap))
                   props <> None).
    { apply SerializeJSONObject_total. intros kv Hkv. apply IH.
      pose proof (height_property kv props Hkv). cbn [height] in Hle. lia. }
    destruct (SerializeJSONObject gap _ props) as [[partial|x]|];
      [discriminate|discriminate|contradiction].
Qed.

Lemma SerializeJSONArray_mono (f g : value -> option (result (option string)))
      (l : list value) (r : result (list string)) :
  (forall e r', In e l -> f e = Some r' -> g e = Some r') ->
  SerializeJSONArray f l = Some r -> SerializeJSONArray g l = Some r.
Proof.
  revert r. induction l as [|e l IH]; intros r H; cbn [SerializeJSONArray]; [tauto|].
  destruct (f e) as [[strP|x]|] eqn:He; [| |discriminate].
  - rewrite (H e _ (or_introl eq_refl) He).
    destruct (SerializeJSONArray f l) as [[partial|x]|] eqn:Hl; [| |discriminate].
    + rewrite (IH (Ok partial)); [tauto | | reflexivity].
      intros e' r' Hin. apply H. right. exact Hin.
    + rewrite (IH (Throw x)); [tauto | | reflexivity].
      intros e' r' Hin. apply H. right. exact Hin.
  - rewrite (H e _ (or_introl eq_refl) He). tauto.
Qed.

Lemma SerializeJSONObject_mono (gap : string) (f g : value -> option (result (option string)))
      (props : list (string * value)) (r : result (list string)) :
  (forall kv r', In kv props -> f (snd kv) = Some r' -> g (snd kv) = Some r') ->
  SerializeJSONObject gap f props = Some r -> SerializeJSONObject gap g props = Some r.
Proof.
  revert r. induction props as [|[k e] props IH]; intros r H; cbn [SerializeJSONObject]; [tauto|].
  destruct (f e) as [[strP|x]|] eqn:He; [| |discriminate].
  - rewrite (H (k, e) _ (or_introl eq_refl) He : g e = _).
    destruct (SerializeJSONObject gap f props) as [[partial|x]|] eqn:Hl; [| |discriminate].
    + rewrite (IH (Ok partial)); [tauto | | reflexivity].
      intros kv r' Hin. apply H. right. exact Hin.
    + rewrite (IH (Throw x)); [tauto | | reflexivity].
      intros kv r' Hin. apply H. right. exact Hin.
  - rewrite (H (k, e) _ (or_introl eq_refl) He : g e = _). tauto.
Qed.

(** A walk that came to its end comes to the same end with more fuel. *)
Lemma walk_mono (rep : value -> result value) (gap : string) :
  forall (fuel : nat) (v : value) (indent : string) (r : result (option string)),
    SerializeJSONProperty rep gap fuel indent v = Some r ->
    SerializeJSONProperty rep gap (S fuel) indent v = Some r.
Proof.
  induction fuel as [|f IH]; intros v indent r; [discriminate|].
  rewrite (walk_step rep gap (S f)), (walk_step rep gap f).
  destruct (rep v) as [v'|x]; [|tauto].
  destruct v' as [| |b|n|z|s|l|props]; try tauto.
  - destruct (SerializeJSONArray (SerializeJSONProperty rep gap f (indent ++ gap)) l)
      as [r0|] eqn:Hl; [|discriminate].
    rewrite (SerializeJSONArray_mono (SerializeJSONProperty rep gap f (indent ++ gap))
               (SerializeJSONProperty rep gap (S f) (indent ++ gap)) l r0);
      [tauto | | exact Hl].
    intros e r' _. apply IH.
  - destruct (SerializeJSONObject gap (SerializeJSONProperty rep gap f (indent ++ gap)) props)
      as [r0|] eqn:Hl; [|discriminate].
    rewrite (SerializeJSONObject_mono gap (SerializeJSONProperty rep gap f (indent ++ gap))
               (SerializeJSONProperty rep gap (S f) (indent ++ gap)) props r0);
      [tauto | | exact Hl].
    intros kv r' _. apply IH.
Qed.

Lemma plain_no_bsontype (props : list (string * value)) :
  plain (VObject props) = true -> lookup "_bsontype" props = None.
Proof.
  cbn [plain]. induction props as [|[k e] props IH]; cbn [forallb lookup]; [reflexivity|].
  intros H. apply andb_true_iff in H. destruct H as [H Hrest].
  apply andb_true_iff in H. destruct H as [H _].
  apply andb_true_iff in H. destruct H as [_ Hb].
  apply negb_true_iff in Hb. rewrite String.eqb_sym, Hb. exact (IH Hrest).
Qed.

(** The first pass leaves a document of JSON as it is. *)
Lemma ejson_plain :
  forall (n : nat) (v : value),
    (height v < n)%nat -> plain v = true -> EJSON_serializeValue v = Ok v.
Proof.
  induction n as [|n IH]; intros v Hh Hp; [lia|].
  destruct v as [| |b|x|z|t|l|props]; try reflexivity; try discriminate Hp.
  - cbn [plain] in Hp. cbn [EJSON_serializeValue]. rewrite Hp. reflexivity.
  - rewrite (serializeArray_map (fun e => e)); [rewrite map_id; reflexivity|].
    cbn [plain] in Hp. rewrite forallb_forall in Hp.
    apply Forall_forall. intros e He. apply IH; [|exact (Hp e He)].
    pose proof (height_element e l He). cbn [height] in Hh. lia.
  - rewrite (serializeDocument_map (fun e => e) props (plain_no_bsontype props Hp)).
    + do 2 f_equal. rewrite <- (map_id props) at 2. apply map_ext. intros [k e]. reflexivity.
    + cbn [plain] in Hp. rewrite forallb_forall in Hp.
      apply Forall_forall. intros [k e] Hin. cbn [snd]. apply IH.
      * pose proof (height_property _ props Hin) as Hle. cbn [snd height] in Hle, Hh. lia.
      * specialize (Hp _ Hin). apply andb_true_iff in Hp. exact (proj2 Hp).
Qed.

(** X13.  On a document of JSON (no [undefined], no large integer, no
    number that is not finite, and no property named [$oid],
    [$numberDecimal], [$binary], [$date] or [_bsontype], at any depth),
    [serializeCommand] writes what [JSON.stringify] writes without a
    replacer. *)
Theorem plain_documents_are_unchanged (fuel : nat) (v : value) (pretty : bool) :
  plain v = true ->
  (height v < fuel)%nat ->
  serializeCommand fuel v pretty
  = JSON_stringify no_replacer (if pretty then "  " else "") fuel v.
Proof.
  intros Hp Hh. unfold serializeCommand, JSON_stringify.
  rewrite (ejson_plain fuel v Hh Hp).
  destruct (SerializeJSONProperty handleValues (if pretty then "  " else "") fuel "" v)
    as [r|] eqn:Hr; [|exfalso; exact (walk_total _ fuel v "" Hh Hr)].
  rewrite (walk_mono _ _ _ _ _ _ Hr). rewrite <- Hr. apply walk_plain, Hp.
Qed.

Lemma traverse_height {A : Type} (f : A -> result A) (h : A -> nat) (l l' : list A) :
  (forall a b, In a l -> f a = Ok b -> (h b <= S (h a))%nat) ->
  traverse f l = Ok l' ->
  (fold_right (fun a n => Nat.max (h a) n) O l'
   <= S (fold_right (fun a n => Nat.max (h a) n) O l))%nat.
Proof.
  revert l'. induction l as [|a l IH]; intros l' Hf H.
  - injection H as <-. cbn. lia.
  - cbn [traverse] in H. destruct (f a) as [b|x] eqn:Hb; cbn [bind] in H; [|discriminate].
    fold (traverse f l) in H.
    destruct (traverse f l) as [rest|x] eqn:Hrest; cbn [bind] in H; [|discriminate].
    injection H as <-. cbn [fold_right].
    pose proof (Hf a b (or_introl eq_refl) Hb).
    assert (Hr := IH rest (fun a' b' Hin => Hf a' b' (or_intror Hin)) eq_refl). lia.
Qed.

(** The first pass makes a document at most one deeper. *)
Lemma ejson_height :
  forall (n : nat) (v doc : value),
    (height v < n)%nat -> EJSON_serializeValue v = Ok doc ->
    (height doc <= S (height v))%nat.
Proof.
  induction n as [|n IH]; intros v doc Hh H; [lia|].
  destruct v as [| |b|x|z|t|l|props]; cbn [EJSON_serializeValue] in H;
    try (injection H as <-; cbn; lia).
  - destruct (is_finite x); injection H as <-; cbn; lia.
  - destruct (traverse EJSON_serializeValue l) as [l'|x] eqn:Hl; cbn [bind] in H;
      [|discriminate].
    injection H as <-. cbn [height].
    apply le_n_S. apply (traverse_height EJSON_serializeValue height l l'); [|exact Hl].
    intros e e' He He'. apply IH; [|exact He'].
    pose proof (height_element e l He). cbn [height] in Hh. lia.
  - destruct (typeof (get (VObject props) "_bsontype")); try discriminate H.
    match type of H with
    | bind (traverse ?f props) _ = _ =>
        destruct (traverse f props) as [l'|x] eqn:Hl; cbn [bind] in H; [|discriminate];
        pose proof (traverse_height f (fun kv => let '(_, e) := kv in height e) props l') as Ht
    end.
    injection H as <-. cbn [height]. apply le_n_S. apply Ht; [|exact Hl].
    intros [k e] [k' e'] Hin He.
    destruct (EJSON_serializeValue e) as [e''|x] eqn:Hee; cbn [bind] in He; [|discriminate].
    injection He as <- <-. apply IH; [|exact Hee].
    pose proof (height_property _ props Hin) as Hle. cbn [snd height] in Hle, Hh. lia.
Qed.

(** X14.  [serializeCommand] comes to an end on every document, whatever
    the platform answers: the walk of a document needs no more steps than
    the document is deep, since the replacer never hands back a deeper
    value than it was given; and with more steps the result is the same. *)
Theorem serializeCommand_terminates (fuel more : nat) (v : value) (pretty : bool) :
  (height v < fuel)%nat ->
  exists r, serializeCommand fuel v pretty = Some r
            /\ serializeCommand (fuel + more) v pretty = Some r.
Proof.
  intros Hh. unfold serializeCommand, JSON_stringify.
  destruct (EJSON_serializeValue v) as [doc|x] eqn:Hdoc; [|eexists; split; reflexivity].
  pose proof (ejson_height fuel v doc Hh Hdoc) as Hle.
  destruct (SerializeJSONProperty handleValues (if pretty then "  " else "") (S fuel) "" doc)
    as [r|] eqn:Hr.
  - exists r. split; [reflexivity|].
    induction more as [|m IH]; [rewrite Nat.add_0_r; exact Hr|].
    rewrite Nat.add_succ_r. apply walk_mono, IH.
  - exfalso. apply (walk_total _ (S fuel) doc "" ltac:(lia) Hr).
Qed.
End Serializer.

Lemma identifier_of_any_length_witness :
  @handleValues Node.platform
    (VObject [("$binary", VObject [("base64", VString "AAEC"); ("subType", VString "04")])])
  = Ok (VString "000102").
Proof. exact (@identifier_of_any_length Node.platform "AAEC" "04" (or_intror eq_refl)). Defined.

Lemma plain_documents_are_unchanged_witness :
  @serializeCommand Node.platform 6 plain_document false
  = @JSON_stringify Node.platform no_replacer "" 6 plain_document.
Proof.
  apply (@plain_documents_are_unchanged Node.platform 6 plain_document false).
  - reflexivity.
  - vm_compute. lia.
Defined.

Lemma serializeCommand_terminates_witness :
  exists r, @serializeCommand Node.platform 6 example_command true = Some r
            /\ @serializeCommand Node.platform (6 + 3) example_command true = Some r.
Proof.
  apply (@serializeCommand_terminates Node.platform 6 3 example_command true).
  vm_compute. lia.
Defined.

(** ** The HTTP client *)

Section Clients.
Import Client.
Context {P : Platform}.
Variable window_defined : bool.
Variable CLIENT_USER_AGENT : string.

Lemma missing_false (s : option string) :
  missing s = false -> exists t, s = Some t /\ t <> "".
Proof.
  destruct s as [t|]; cbn [missing]; [|discriminate].
  intros H. exists t. split; [reflexivity|]. intros ->. discriminate.
Qed.

(** X15.  The constructor of [HttpClient] returns a client exactly when
    there is no [window], the base URL and the token are given and not
    empty, and a strategy is given, or HTTP/2 is switched off, or the base
    URL has an origin that [http2.connect] accepts, of the protocol
    [http:] or [https:]: the URL is only parsed, and a session only
    opened, when an HTTP/2 strategy is made. *)
Theorem HttpClient_new_succeeds_iff (options : InternalHTTPClientOptions) (w : World) :
  (exists c w', HttpClient_new window_defined CLIENT_USER_AGENT options w = Ok (c, w'))
  <-> (window_defined = false
       /\ missing (o_baseUrl options) = false
       /\ missing (o_applicationToken options) = false
       /\ (o_requestStrategy options <> None
           \/ o_useHttp2 options = Some false
           \/ exists o, URL_origin (or_empty (o_baseUrl options)) = Ok o
                        /\ Http2.connectable o = true)).
Proof.
  unfold HttpClient_new. split.
  - intros (c & w' & H).
    destruct window_defined; [discriminate|].
    destruct (missing (o_baseUrl options)); [discriminate|].
    destruct (missing (o_applicationToken options)); [discriminate|].
    repeat split.
    destruct (o_requestStrategy options) as [r|]; [left; discriminate|].
    destruct (o_useHttp2 options) as [[|]|]; [right; right | right; left; reflexivity | right; right];
      unfold Http2.HTTP2Strategy_new in H;
      (destruct (URL_origin (or_empty (o_baseUrl options))) as [o|x] eqn:Ho; [|discriminate];
       cbn [bind] in H; destruct (Http2.connectable o) eqn:Hconn; [|discriminate];
       exists o; split; [reflexivity | exact Hconn]).
  - intros (-> & -> & -> & Hs).
    destruct (o_requestStrategy options) as [r|]; [cbn [bind]; eexists; eexists; reflexivity|].
    destruct Hs as [Hs | [-> | (o & Ho & Hconn)]];
      [contradiction | cbn [bind]; eexists; eexists; reflexivity|].
    unfold Http2.HTTP2Strategy_new. rewrite Ho. cbn [bind]. rewrite Hconn.
    destruct (o_useHttp2 options) as [[|]|]; cbn [bind Http2._reviveSession Http2.connect];
      eexists; eexists; reflexivity.
Qed.

(** X16.  What a constructed client holds: the token of the options; the
    base URL of the options, followed by [/] and the path of the API when
    one is given and not empty; the user agent of the options when one is
    given, even the empty one, and the built one otherwise.  The level of
    the logger changes only when a level is given, and a strategy that is
    given is taken as it is: no strategy is made and no session is
    opened. *)
Theorem HttpClient_new_fields (options : InternalHTTPClientOptions) (w : World)
        (c : HttpClient) (w' : World) :
  HttpClient_new window_defined CLIENT_USER_AGENT options w = Ok (c, w') ->
  o_applicationToken options = Some (applicationToken c)
  /\ applicationToken c <> ""
  /\ (exists b, o_baseUrl options = Some b /\ b <> ""
                /\ baseUrl c = match o_baseApiPath options with
                               | Some path => if String.eqb path "" then b else b ++ "/" ++ path
                               | None => b
                               end)
  /\ userAgent c = match o_userAgent options with
                   | Some u => u
                   | None => buildUserAgent CLIENT_USER_AGENT (o_caller options)
                   end
  /\ log_level w' = (if missing (o_logLevel options) then log_level w else o_logLevel options)
  /\ (forall r, o_requestStrategy options = Some r ->
                requestStrategy c = r /\ strategies w' = strategies w
                /\ sessions w' = sessions w).
Proof.
  unfold HttpClient_new.
  destruct window_defined; [discriminate|].
  destruct (missing (o_baseUrl options)) eqn:Hb; [discriminate|].
  destruct (missing (o_applicationToken options)) eqn:Ht; [discriminate|].
  destruct (missing_false _ Hb) as (b & Hb' & Hbne).
  destruct (missing_false _ Ht) as (t & Ht' & Htne).
  rewrite Hb', Ht'. cbn [or_empty].
  match goal with
  | |- context [bind ?m _] => destruct m as [[r w1]|x] eqn:Hchosen
  end; cbn [bind fst snd]; [|discriminate].
  intros H. injection H as <- <-.
  cbn [applicationToken baseUrl userAgent requestStrategy].
  split; [reflexivity|]. split; [exact Htne|].
  split.
  { exists b. split; [reflexivity|]. split; [exact Hbne|].
    destruct (o_baseApiPath options) as [path|]; reflexivity. }
  split; [reflexivity|].
  assert (Hlog : log_level w1 = log_level w).
  { destruct (o_requestStrategy options) as [r0|]; [injection Hchosen as _ <-; reflexivity|].
    destruct (o_useHttp2 options) as [[|]|];
      try (destruct (Http2.HTTP2Strategy_new b (sessions w)) as [made|x];
           cbn [bind] in Hchosen; [|discriminate]);
      injection Hchosen as _ <-; reflexivity. }
  split.
  { destruct (missing (o_logLevel options)); [exact Hlog | reflexivity]. }
  intros r0 Hr. rewrite Hr in Hchosen. injection Hchosen as <- <-.
  destruct (missing (o_logLevel options)); repeat split.
Qed.

(** X17.  Unless a strategy is given or HTTP/2 is switched off, the
    constructor makes an HTTP/2 strategy of its own, which is not closed,
    for the origin of the base URL as the options give it, and opens one
    session to that origin; the sessions and strategies there were stay as
    they are. *)
Theorem default_strategy_is_http2 (options : InternalHTTPClientOptions) (w : World)
        (c : HttpClient) (w' : World) :
  o_requestStrategy options = None ->
  o_useHttp2 options <> Some false ->
  HttpClient_new window_defined CLIENT_USER_AGENT options w = Ok (c, w') ->
  exists o,
    URL_origin (or_empty (o_baseUrl options)) = Ok o
    /\ requestStrategy c = List.length (strategies w)
    /\ strategies w'
       = (strategies w
            ++ [StrategyHTTP2 {| Http2.origin := o; Http2.closed := false;
                                 Http2.session := List.length (sessions w) |}])%list
    /\ sessions w'
       = (sessions w
            ++ [{| Http2.session_origin := o; Http2.session_closed := false;
                   Http2.session_handlers := ["error"; "socketError"] |}])%list
    /\ isUsingHttp2 c w' = true
    /\ isClosed c w' = Some false.
Proof.
  intros Hr Hu. unfold HttpClient_new. rewrite Hr.
  destruct window_defined; [discriminate|].
  destruct (missing (o_baseUrl options)); [discriminate|].
  destruct (missing (o_applicationToken options)); [discriminate|].
  assert (Hmade : match o_useHttp2 options with
                  | Some false =>
                      Ok (List.length (strategies w),
                          {| strategies := (strategies w ++ [StrategyHTTP1 "DataApi"])%list;
                             sessions := sessions w; log_level := log_level w |})
                  | _ =>
                      made <- Http2.HTTP2Strategy_new (or_empty (o_baseUrl options))
                                (sessions w) ;;
                      Ok (List.length (strategies w),
                          {| strategies := (strategies w ++ [StrategyHTTP2 (fst made)])%list;
                             sessions := snd made; log_level := log_level w |})
                  end
                  = (made <- Http2.HTTP2Strategy_new (or_empty (o_baseUrl options))
                               (sessions w) ;;
                     Ok (List.length (strategies w),
                         {| strategies := (strategies w ++ [StrategyHTTP2 (fst made)])%list;
                            sessions := snd made; log_level := log_level w |}))).
  { destruct (o_useHttp2 options) as [[|]|]; try reflexivity. contradiction Hu. reflexivity. }
  rewrite Hmade. clear Hmade. unfold Http2.HTTP2Strategy_new.
  destruct (URL_origin (or_empty (o_baseUrl options))) as [o|x]; cbn [bind]; [|discriminate].
  destruct (Http2.connectable o); cbn [bind]; [|discriminate].
  cbn [Http2._reviveSession Http2.connect fst snd].
  intros H. injection H as <- <-. exists o.
  assert (Hnth : nth_error
                   (strategies w
                      ++ [StrategyHTTP2 {| Http2.origin := o; Http2.closed := false;
                                           Http2.session := List.length (sessions w) |}])%list
                   (List.length (strategies w))
                 = Some (StrategyHTTP2 {| Http2.origin := o; Http2.closed := false;
                                          Http2.session := List.length (sessions w) |})).
  { rewrite nth_error_app2 by lia. rewrite Nat.sub_diag. reflexivity. }
  unfold isUsingHttp2, isClosed. cbn [requestStrategy].
  destruct (missing (o_logLevel options)); cbn [strategies sessions];
    rewrite Hnth; repeat split.
Qed.

(** A constructed client has a base URL and a token. *)
Lemma constructed_client_is_complete (options : InternalHTTPClientOptions) (w : World)
      (c : HttpClient) (w' : World) :
  HttpClient_new window_defined CLIENT_USER_AGENT options w = Ok (c, w') ->
  window_defined = false /\ baseUrl c <> "" /\ applicationToken c <> "".
Proof.
  unfold HttpClient_new.
  destruct window_defined; [discriminate|].
  destruct (missing (o_baseUrl options)) eqn:Hb; [discriminate|].
  destruct (missing (o_applicationToken options)) eqn:Ht; [discriminate|].
  destruct (missing_false _ Hb) as (b & Hb' & Hbne).
  destruct (missing_false _ Ht) as (t & Ht' & Htne).
  rewrite Hb', Ht'. cbn [or_empty].
  match goal with
  | |- context [bind ?m _] => destruct m as [[r w1]|x]
  end; cbn [bind fst snd]; [|discriminate].
  intros H. injection H as <- <-. cbn [baseUrl applicationToken].
  split; [reflexivity|]. split; [|exact Htne].
  destruct (missing (o_baseApiPath options)); [exact Hbne|].
  destruct b; [contradiction | discriminate].
Qed.

(** X18.  [cloneInto] of a constructed client with the constructor of
    [HttpClient] itself never fails: before [initialize] the clone has the
    fields of the client, and with them its strategy; no strategy is made,
    no session is opened and the logger is left alone. *)
Theorem clone_shares_the_strategy (options : InternalHTTPClientOptions) (w0 w1 w : World)
        (c : HttpClient) (initialize : HttpClient -> HttpClient) :
  HttpClient_new window_defined CLIENT_USER_AGENT options w0 = Ok (c, w1) ->
  cloneInto (HttpClient_new window_defined CLIENT_USER_AGENT) initialize c w = Ok (initialize c, w).
Proof.
  intros Hc.
  destruct (constructed_client_is_complete options w0 c w1 Hc) as (Hw & Hbase & Ht).
  unfold cloneInto, HttpClient_new. rewrite Hw.
  cbn [o_baseUrl o_applicationToken o_requestStrategy o_logLevel o_baseApiPath o_userAgent
       o_logSkippedOptions missing or_empty].
  destruct (String.eqb (baseUrl c) "") eqn:E1; [apply String.eqb_eq in E1; contradiction|].
  destruct (String.eqb (applicationToken c) "") eqn:E2;
    [apply String.eqb_eq in E2; contradiction|].
  cbn [bind fst snd]. destruct c; reflexivity.
Qed.

Lemma nth_error_replace_at {A : Type} (i : nat) (x : A) (l : list A) :
  (i < List.length l)%nat -> nth_error (replace_at i x l) i = Some x.
Proof.
  revert i. induction l as [|y l IH]; intros [|i] H; cbn in H |- *; try lia; [reflexivity|].
  apply IH. lia.
Qed.
End Clients.

(** X19.  Clients that share an HTTP/2 strategy close together: after
    [close] on one of them the other is closed as well, the session of the
    strategy is closed, and a request on the strategy is rejected. *)
Theorem closing_a_clone_closes_the_original {P : Platform} (c d : Client.HttpClient)
        (w : Client.World) (info : Http2.InternalHTTPRequestInfo) :
  Client.requestStrategy d = Client.requestStrategy c ->
  Client.isUsingHttp2 c w = true ->
  let w' := Client.HttpClient_close d w in
  Client.isClosed c w' = Some true
  /\ Client.isClosed d w' = Some true
  /\ exists s,
      nth_error (Client.strategies w') (Client.requestStrategy c) = Some (Client.StrategyHTTP2 s)
      /\ Http2.is_closed (Client.sessions w') (Http2.session s) = true
      /\ Http2.ex_promise (snd (Http2.request s (Client.sessions w') info))
         = Http2.Rejected (Error "Cannot make http2 request when client is closed").
Proof.
  intros Hd Hu w'. unfold Client.isUsingHttp2 in Hu.
  destruct (nth_error (Client.strategies w) (Client.requestStrategy c)) as [[s|a]|] eqn:Hn;
    try discriminate Hu.
  assert (Hlt : (Client.requestStrategy c < List.length (Client.strategies w))%nat).
  { apply nth_error_Some. rewrite Hn. discriminate. }
  assert (Hw' : nth_error (Client.strategies w') (Client.requestStrategy c)
                = Some (Client.StrategyHTTP2 (fst (Http2.close s (Client.sessions w))))
                /\ Client.sessions w' = snd (Http2.close s (Client.sessions w))).
  { unfold w', Client.HttpClient_close. rewrite Hd, Hn. cbn [Http2.close Client.strategies
      Client.sessions fst snd].
    split; [apply nth_error_replace_at; exact Hlt | reflexivity]. }
  destruct Hw' as [Hs Hh].
  unfold Client.isClosed. rewrite Hd, Hs. cbn [Http2.close fst Http2.closed].
  split; [reflexivity|]. split; [reflexivity|].
  eexists. split; [reflexivity|]. rewrite Hh. cbn [Http2.close snd Http2.session]. split.
  - rewrite is_closed_close_at, Nat.eqb_refl. reflexivity.
  - rewrite request_when_closed by reflexivity. reflexivity.
Qed.

Example client_example :
  @Client.HttpClient_new Node.platform false "astra-db-ts/1.0.0" example_options empty_world
  = Ok (example_client, example_world).
Proof. vm_compute. reflexivity. Qed.

Lemma HttpClient_new_succeeds_iff_witness :
  exists c w',
    @Client.HttpClient_new Node.platform false "astra-db-ts/1.0.0" example_options empty_world
    = Ok (c, w').
Proof.
  exact (proj2 (@HttpClient_new_succeeds_iff Node.platform false "astra-db-ts/1.0.0"
                  example_options empty_world)
               (conj eq_refl (conj eq_refl (conj eq_refl
                  (or_intror (or_intror
                     (ex_intro _ "https://db-region.apps.astra.datastax.com"
                               (conj eq_refl eq_refl)))))))).
Defined.

Lemma HttpClient_new_fields_witness :
  Client.o_applicationToken example_options = Some "AstraCS:token"
  /\ "AstraCS:token" <> ""
  /\ (exists b, Client.o_baseUrl example_options = Some b /\ b <> ""
                /\ "https://db-region.apps.astra.datastax.com/api/json/v1"
                   = b ++ "/" ++ "api/json/v1")
  /\ "my-app/1.2.0 astra-db-ts/1.0.0"
     = Client.buildUserAgent "astra-db-ts/1.0.0" (Client.OneCaller ("my-app", Some "1.2.0"))
  /\ Client.log_level example_world = None
  /\ (forall r, Client.o_requestStrategy example_options = Some r ->
                0%nat = r /\ Client.strategies example_world = []
                /\ Client.sessions example_world = []).
Proof.
  exact (@HttpClient_new_fields Node.platform false "astra-db-ts/1.0.0" example_options
           empty_world example_client example_world eq_refl).
Defined.

Lemma default_strategy_is_http2_witness :
  exists o,
    Node.URL_origin "https://db-region.apps.astra.datastax.com" = Ok o
    /\ Client.requestStrategy example_client = 0%nat
    /\ Client.strategies example_world
       = [Client.StrategyHTTP2 {| Http2.origin := o; Http2.closed := false;
                                  Http2.session := 0 |}]
    /\ Client.sessions example_world
       = [{| Http2.session_origin := o; Http2.session_closed := false;
             Http2.session_handlers := ["error"; "socketError"] |}]
    /\ Client.isUsingHttp2 example_client example_world = true
    /\ Client.isClosed example_client example_world = Some false.
Proof.
  refine (@default_strategy_is_http2 Node.platform false "astra-db-ts/1.0.0" example_options
            empty_world example_client example_world eq_refl _ eq_refl).
  discriminate.
Defined.

Lemma clone_shares_the_strategy_witness :
  @Client.cloneInto Client.HttpClient
    (@Client.HttpClient_new Node.platform false "astra-db-ts/1.0.0")
    to_devops example_client example_world
  = Ok (to_devops example_client, example_world).
Proof.
  exact (@clone_shares_the_strategy Node.platform false "astra-db-ts/1.0.0" example_options
           empty_world example_world example_world example_client to_devops eq_refl).
Defined.

Lemma closing_a_clone_closes_the_original_witness :
  let w' := Client.HttpClient_close (to_devops example_client) example_world in
  Client.isClosed example_client w' = Some true
  /\ Client.isClosed (to_devops example_client) w' = Some true
  /\ exists s,
      nth_error (Client.strategies w') 0 = Some (Client.StrategyHTTP2 s)
      /\ Http2.is_closed (Client.sessions w') (Http2.session s) = true
      /\ Http2.ex_promise (snd (@Http2.request Node.platform s (Client.sessions w') example_info))
         = Http2.Rejected (Error "Cannot make http2 request when client is closed").
Proof.
  exact (@closing_a_clone_closes_the_original Node.platform example_client
           (to_devops example_client) example_world example_info eq_refl eq_refl).
Defined.

(** ** The user agent *)

Lemma white_space_visible (c : ascii) (rest : string) :
  visible c = true -> white_space_length (String c rest) = O.
Proof.
  unfold visible, white_space_length. intros H.
  apply andb_true_iff in H. destruct H as [H1 H2].
  apply N.leb_le in H1, H2.
  set (x := N_of_ascii c) in *.
  assert (E1 : (x <=? 13)%N = false) by (apply N.leb_gt; lia).
  assert (E2 : (x =? 32)%N = false) by (apply N.eqb_neq; lia).
  assert (E3 : (x =? 194)%N = false) by (apply N.eqb_neq; lia).
  assert (E4 : (x =? 225)%N = false) by (apply N.eqb_neq; lia).
  assert (E5 : (x =? 226)%N = false) by (apply N.eqb_neq; lia).
  assert (E6 : (x =? 227)%N = false) by (apply N.eqb_neq; lia).
  assert (E7 : (x =? 239)%N = false) by (apply N.eqb_neq; lia).
  rewrite E1, E2, E3, E4, E5, E6, E7. rewrite andb_false_r. cbn [orb andb].
  destruct rest as [|b [|d r]]; reflexivity.
Qed.

Lemma trimStart_visible (s : string) : first_visible s = true -> String_trimStart s = s.
Proof.
  destruct s as [|c rest]; [discriminate|]. cbn [first_visible]. intros H.
  unfold String_trimStart. cbn [String.length trim_start].
  rewrite (white_space_visible c rest H). reflexivity.
Qed.

(** White space at the head of a text that ends with a visible character
    stops before that character. *)
Lemma white_space_before_last (s : string) :
  last_visible s = true ->
  white_space_length s <> O ->
  last_visible (drop (white_space_length s) s) = true.
Proof.
  intros Hl Hw.
  destruct s as [|a rest]; [discriminate|].
  destruct (visible a) eqn:Ha; [rewrite (white_space_visible a rest Ha) in Hw; contradiction|].
  revert Hw. unfold white_space_length.
  destruct ((((9 <=? N_of_ascii a) && (N_of_ascii a <=? 13)) || (N_of_ascii a =? 32))%N)%bool.
  { intros _. cbn [drop]. destruct rest as [|b r]; [cbn in Hl; congruence | exact Hl]. }
  destruct rest as [|b rest]; [contradiction|].
  destruct ((N_of_ascii a =? 194)%N && (N_of_ascii b =? 160)%N)%bool eqn:E2.
  { intros _. cbn [drop]. apply andb_true_iff in E2. destruct E2 as [_ E2].
    apply N.eqb_eq in E2.
    destruct rest as [|d r]; [|exact Hl].
    cbn in Hl. unfold visible in Hl. rewrite E2 in Hl. discriminate. }
  destruct rest as [|d rest]; [contradiction|].
  match goal with |- context [if ?c then _ else _] => destruct c eqn:E3 end; [|contradiction].
  intros _. cbn [drop].
  destruct rest as [|e r]; [|exact Hl].
  cbn in Hl. unfold visible in Hl.
  apply andb_true_iff in Hl. destruct Hl as [_ Hl]. apply N.leb_le in Hl.
  exfalso.
  repeat (apply orb_true_iff in E3; destruct E3 as [E3|E3]);
    repeat (apply andb_true_iff in E3; destruct E3 as [E3 ?]);
    repeat match goal with
           | H : (_ || _)%bool = true |- _ => apply orb_true_iff in H; destruct H
           | H : (_ && _)%bool = true |- _ => apply andb_true_iff in H; destruct H
           | H : (_ =? _)%N = true |- _ => apply N.eqb_eq in H
           | H : (_ <=? _)%N = true |- _ => apply N.leb_le in H
           end; lia.
Qed.

Lemma trim_start_last_visible (fuel : nat) (s : string) :
  last_visible s = true -> last_visible (trim_start fuel s) = true.
Proof.
  revert s. induction fuel as [|f IH]; intros s H; [exact H|].
  cbn [trim_start]. destruct (white_space_length s) as [|n] eqn:E; [exact H|].
  apply IH. rewrite <- E. apply white_space_before_last; [exact H | rewrite E; discriminate].
Qed.

Lemma trimEnd_visible (s : string) : last_visible s = true -> String_trimEnd s = s.
Proof.
  induction s as [|c rest IH]; [reflexivity|]. intros H.
  cbn [String_trimEnd].
  assert (Hne : String.eqb (String_trimStart (String c rest)) "" = false).
  { apply String.eqb_neq. intros E.
    pose proof (trim_start_last_visible (String.length (String c rest)) _ H) as Hv.
    unfold String_trimStart in E. rewrite E in Hv. discriminate. }
  rewrite Hne. destruct rest as [|d r]; [reflexivity|].
  rewrite IH; [reflexivity | exact H].
Qed.

Lemma trim_visible (s : string) :
  first_visible s = true -> last_visible s = true -> String_trim s = s.
Proof.
  intros Hf Hl. unfold String_trim. rewrite (trimStart_visible s Hf). apply trimEnd_visible, Hl.
Qed.

Lemma trimStart_space (s : string) : String_trimStart (" " ++ s) = String_trimStart s.
Proof. reflexivity. Qed.

Lemma last_visible_append (a b : string) :
  last_visible b = true -> last_visible (a ++ b) = true.
Proof.
  intros H. induction a as [|c a IH]; [exact H|].
  cbn [String.append last_visible].
  destruct (a ++ b) as [|d r]; [discriminate IH | exact IH].
Qed.

Lemma first_visible_append (a b : string) :
  first_visible a = true -> first_visible (a ++ b) = true.
Proof. destruct a; [discriminate | intros H; exact H]. Qed.

Lemma first_visible_caller (c : Client.Caller) :
  first_visible (fst c) = true -> first_visible (Client.caller_text c) = true.
Proof.
  intros H. unfold Client.caller_text. destruct (snd c) as [v|]; [|exact H].
  destruct (String.eqb v ""); [exact H | apply first_visible_append, H].
Qed.

(** X20.  The user agent that is built, for a client text that starts
    and ends with a visible character: without a caller, or with an empty
    list of callers, it is the client text alone, with no space before it;
    with callers whose first name starts with a visible character, it is
    the texts of the callers in their order, then the client text, with
    one space between two of them. *)
Theorem user_agent_lists_the_callers (client : string) :
  first_visible client = true ->
  last_visible client = true ->
  Client.buildUserAgent client Client.NoCaller = client
  /\ Client.buildUserAgent client (Client.ManyCallers []) = client
  /\ forall c cs,
      first_visible (fst c) = true ->
      Client.buildUserAgent client (Client.OneCaller c)
      = Client.caller_text c ++ " " ++ client
      /\ Client.buildUserAgent client (Client.ManyCallers (c :: cs))
         = String.concat " " (map Client.caller_text (c :: cs)) ++ " " ++ client.
Proof.
  intros Hf Hl.
  assert (Hnone : String_trim ("" ++ " " ++ client) = client).
  { change (String_trimEnd (String_trimStart (" " ++ client)) = client).
    rewrite (trimStart_space client). apply (trim_visible client Hf Hl). }
  split; [exact Hnone|]. split; [exact Hnone|].
  intros c cs Hc. unfold Client.buildUserAgent. split.
  - cbn [map String.concat]. apply trim_visible.
    + apply first_visible_append, first_visible_caller, Hc.
    + apply last_visible_append, last_visible_append, Hl.
  - apply trim_visible.
    + apply first_visible_append. cbn [map String.concat].
      destruct (map Client.caller_text cs);
        [|apply first_visible_append]; apply first_visible_caller, Hc.
    + apply last_visible_append, last_visible_append, Hl.
Qed.

Lemma user_agent_lists_the_callers_witness :
  Client.buildUserAgent "astra-db-ts/1.0.0" Client.NoCaller = "astra-db-ts/1.0.0"
  /\ Client.buildUserAgent "astra-db-ts/1.0.0" (Client.ManyCallers []) = "astra-db-ts/1.0.0"
  /\ forall c cs,
      first_visible (fst c) = true ->
      Client.buildUserAgent "astra-db-ts/1.0.0" (Client.OneCaller c)
      = Client.caller_text c ++ " " ++ "astra-db-ts/1.0.0"
      /\ Client.buildUserAgent "astra-db-ts/1.0.0" (Client.ManyCallers (c :: cs))
         = String.concat " " (map Client.caller_text (c :: cs)) ++ " " ++ "astra-db-ts/1.0.0".
Proof. exact (user_agent_lists_the_callers "astra-db-ts/1.0.0" eq_refl eq_refl). Defined.
